(** * photo-scan-tools: the metadata engine of [exif-writer.py]

    A shallow embedding of the film-scan metadata pipeline of
    [src/exif-writer.py]: the marker model, the tag store and its merge
    policy, the filename grammar decoder, the directory metadata file
    reader, the conditional and auto-fill resolvers, the geometric image
    transform and the per-file driver [process_file]; with them the
    path builder, the layering of [main], the crop search and the file
    renaming of [src/crop-finder.py], and the table of
    [src/scandata-lister.py].

    Conventions.
    - A Python [str] is a [string] (a list of bytes); the whitespace that
      [str.strip] removes is the ASCII part of Python's set.
    - A Python [int] is a [Z]; a Python [float] is a binary64 [float].
    - A Python [dict] is an association list in insertion order: the
      emission loop of [process_file] walks the store in that order.
    - A raised exception is the [Raise] branch of [result]; code that
      mutates the file system runs in the state-and-exception monad [io].
    - Builtins of the Python runtime that the source calls and that are
      not reproduced here ([int], [float], [ast.literal_eval], [repr]) are
      the fields of the class [PyBuiltins].
    - The message of the [TypeError] of a pattern match is that of
      Python 3.11 and later, which names the type of the object.
    - An image is an array of integer samples; the conversion of a
      Python integer to the sample type, on which NumPy 1 and NumPy 2
      differ outside the range of the type, is a parameter of the model
      of [find_crop_box]. *)

From Stdlib Require Import ZArith List String Ascii Bool Lia.
From Stdlib Require Import DecimalString.
From Stdlib Require Import Floats.PrimFloat.
From stdpp Require Import base option list strings gmap.

Local Open Scope Z_scope.

(* Decimal float constants of the source denote their nearest binary64. *)
Set Warnings "-inexact-float".

(** ** Exceptions and results *)

Inductive exn : Type :=
| ValueError (msg : string)
| TypeError (msg : string)
| KeyError (key : string)
| IndexError (msg : string)
| AttributeError (msg : string)
| FileNotFoundError (msg : string)
| OSError (msg : string)
| OverflowError (msg : string)
| CalledProcessError (returncode : Z).

Inductive result (A : Type) : Type :=
| Ok (a : A)
| Raise (e : exn).

Arguments Ok {A} a.
Arguments Raise {A} e.

#[global] Instance result_ret : MRet result := fun A a => Ok a.

#[global] Instance result_bind : MBind result := fun A B k r =>
  match r with
  | Ok a => k a
  | Raise e => Raise e
  end.

#[global] Instance result_fmap : FMap result := fun A B g r =>
  match r with
  | Ok a => Ok (g a)
  | Raise e => Raise e
  end.

(** [for x in xs: acc = step(acc, x)] where [step] may raise. *)
Fixpoint for_each {A S : Type} (step : S -> A -> result S) (xs : list A) (acc : S)
  : result S :=
  match xs with
  | [] => Ok acc
  | x :: xs' => acc' ← step acc x; for_each step xs' acc'
  end.

(** [[f(x) for x in xs]] where [f] may raise. *)
Fixpoint map_result {A B : Type} (f : A -> result B) (xs : list A) : result (list B) :=
  match xs with
  | [] => Ok []
  | x :: xs' => y ← f x; ys ← map_result f xs'; Ok (y :: ys)
  end.

(** ** Python strings *)

Module Str.

(** [s.startswith(p)] *)
Definition startswith (s p : string) : bool := String.prefix p s.

(** [sub in s] *)
Definition contains (sub s : string) : bool :=
  match String.index 0 sub s with Some _ => true | None => false end.

(** [s[n:]] for [0 <= n] *)
Fixpoint drop (n : nat) (s : string) : string :=
  match n, s with
  | O, _ => s
  | S n', String _ s' => drop n' s'
  | S _, EmptyString => EmptyString
  end.

(** [s[:n]] for [0 <= n] *)
Fixpoint take (n : nat) (s : string) : string :=
  match n, s with
  | S n', String c s' => String c (take n' s')
  | _, _ => EmptyString
  end.

(** [s.split(c)] for a separator of one character: every occurrence
    splits, so the result is never empty. *)
Fixpoint split_char (c : ascii) (s : string) : list string :=
  match s with
  | EmptyString => [EmptyString]
  | String a s' =>
      if Ascii.eqb a c then EmptyString :: split_char c s'
      else match split_char c s' with
           | [] => [String a EmptyString]
           | w :: ws => String a w :: ws
           end
  end.

(** [s.partition]-like helper: the text before the first [sep] and the
    text after it. *)
Fixpoint split_first (sep s : string) : option (string * string) :=
  match s with
  | EmptyString => None
  | String a s' =>
      if String.prefix sep s then Some (EmptyString, drop (String.length sep) s)
      else match split_first sep s' with
           | Some (l, r) => Some (String a l, r)
           | None => None
           end
  end.

(** [s.split(sep, 1)] for a non-empty [sep]. *)
Definition split1 (sep s : string) : list string :=
  match split_first sep s with
  | Some (l, r) => [l; r]
  | None => [s]
  end.

(** The text before the last [sep] and the text after it. *)
Fixpoint split_last (sep s : string) : option (string * string) :=
  match s with
  | EmptyString => None
  | String a s' =>
      match split_last sep s' with
      | Some (l, r) => Some (String a l, r)
      | None =>
          if String.prefix sep s then Some (EmptyString, drop (String.length sep) s)
          else None
      end
  end.

(** [s.rsplit(sep, 1)] for a non-empty [sep]. *)
Definition rsplit1 (sep s : string) : list string :=
  match split_last sep s with
  | Some (l, r) => [l; r]
  | None => [s]
  end.

(** [s.replace(old, new)] for a non-empty [old]: occurrences are replaced
    left to right without overlap; [skip] counts the characters of a
    matched occurrence still to be dropped. *)
Fixpoint replace_from (old new : string) (skip : nat) (s : string) : string :=
  match s with
  | EmptyString => EmptyString
  | String a s' =>
      match skip with
      | S k => replace_from old new k s'
      | O =>
          if String.prefix old s
          then new +:+ replace_from old new (String.length old - 1) s'
          else String a (replace_from old new 0 s')
      end
  end.

Definition replace (old new s : string) : string := replace_from old new 0 s.

(** The ASCII characters for which [str.isspace] holds. *)
Definition isspace (a : ascii) : bool :=
  let n := nat_of_ascii a in
  ((9 <=? n)%nat && (n <=? 13)%nat) || ((28 <=? n)%nat && (n <=? 32)%nat).

Fixpoint lstrip (s : string) : string :=
  match s with
  | String a s' => if isspace a then lstrip s' else s
  | EmptyString => EmptyString
  end.

Fixpoint rstrip (s : string) : string :=
  match s with
  | EmptyString => EmptyString
  | String a s' =>
      match rstrip s' with
      | EmptyString => if isspace a then EmptyString else String a EmptyString
      | r => String a r
      end
  end.

(** [s.strip()] *)
Definition strip (s : string) : string := rstrip (lstrip s).

(** [sep.join(parts)] *)
Fixpoint join (sep : string) (parts : list string) : string :=
  match parts with
  | [] => EmptyString
  | [p] => p
  | p :: ps => p +:+ sep +:+ join sep ps
  end.

(** [len(s) > 0], the truth value of a string *)
Definition nonempty (s : string) : bool :=
  match s with EmptyString => false | String _ _ => true end.

(** [all(p(c) for c in s)] *)
Fixpoint all (p : ascii -> bool) (s : string) : bool :=
  match s with
  | EmptyString => true
  | String a s' => p a && all p s'
  end.

(** [''.join(f(c) for c in s)] for a map of characters *)
Fixpoint map_chars (f : ascii -> ascii) (s : string) : string :=
  match s with
  | EmptyString => EmptyString
  | String a s' => String (f a) (map_chars f s')
  end.

(** [s.endswith(c)] for one character [c] *)
Fixpoint endswith_char (c : ascii) (s : string) : bool :=
  match s with
  | EmptyString => false
  | String a EmptyString => Ascii.eqb a c
  | String _ s' => endswith_char c s'
  end.

(** [s[:-1]] *)
Fixpoint drop_last (s : string) : string :=
  match s with
  | EmptyString => EmptyString
  | String _ EmptyString => EmptyString
  | String a s' => String a (drop_last s')
  end.

(** [s[:n]] for any integer [n]: a negative [n] counts from the end. *)
Definition slice_to (n : Z) (s : string) : string :=
  if 0 <=? n then take (Z.to_nat n) s
  else take (Z.to_nat (Z.of_nat (String.length s) + n)) s.

End Str.

(** ** Values: markers and literals *)

(** [class Marker(Enum)], members in declaration order. *)
Inductive Marker : Type :=
| MANDATORY
| OPTIONAL
| AUTO
| SKIP
| DELETE.

(** [marker.value], the display form of a marker. *)
Definition marker_value (m : Marker) : string :=
  match m with
  | MANDATORY => "<MANDATORY>"
  | OPTIONAL => "<OPTIONAL>"
  | AUTO => "<AUTO>"
  | SKIP => "<SKIP>"
  | DELETE => "<DELETE>"
  end.

(** [str(marker)], as an f-string renders a member of a plain [Enum]. *)
Definition marker_str (m : Marker) : string :=
  match m with
  | MANDATORY => "Marker.MANDATORY"
  | OPTIONAL => "Marker.OPTIONAL"
  | AUTO => "Marker.AUTO"
  | SKIP => "Marker.SKIP"
  | DELETE => "Marker.DELETE"
  end.

(** [for marker in Marker] *)
Definition Marker_members : list Marker := [MANDATORY; OPTIONAL; AUTO; SKIP; DELETE].

Definition Marker_eqb (a b : Marker) : bool :=
  match a, b with
  | MANDATORY, MANDATORY | OPTIONAL, OPTIONAL | AUTO, AUTO
  | SKIP, SKIP | DELETE, DELETE => true
  | _, _ => false
  end.

(** The Python objects a tag can hold besides a marker: what the decoder
    produces and what [ast.literal_eval] returns for numbers, strings,
    constants, lists and tuples (the dictionaries, sets, bytes and
    complex numbers it can also return are left out). *)
#[warnings="-register-all"]
Inductive literal : Type :=
| LNone
| LBool (b : bool)
| LInt (z : Z)
| LFloat (f : float)
| LStr (s : string)
| LList (items : list literal)
| LTuple (items : list literal).

(** A tag value: a literal or a marker. [isinstance(v, Marker)] is the
    test for the second constructor. *)
Inductive value : Type :=
| Lit (l : literal)
| Mark (m : Marker).

Coercion Lit : literal >-> value.

Definition VStr (s : string) : value := Lit (LStr s).
Definition VInt (z : Z) : value := Lit (LInt z).
Definition VFloat (f : float) : value := Lit (LFloat f).
Definition VBool (b : bool) : value := Lit (LBool b).
Definition VNone : value := Lit LNone.

(** [v is None] *)
Definition is_None (v : value) : bool :=
  match v with
  | Lit LNone => true
  | _ => false
  end.

(** [v == marker] *)
Definition is_marker (m : Marker) (v : value) : bool :=
  match v with
  | Mark m' => Marker_eqb m' m
  | Lit _ => false
  end.

(** [v == s] for a string constant [s] *)
Definition is_str (s : string) (v : value) : bool :=
  match v with
  | Lit (LStr s') => String.eqb s' s
  | _ => false
  end.

(** [type(v).__name__] *)
Definition type_name (v : value) : string :=
  match v with
  | Lit LNone => "NoneType"
  | Lit (LBool _) => "bool"
  | Lit (LInt _) => "int"
  | Lit (LFloat _) => "float"
  | Lit (LStr _) => "str"
  | Lit (LList _) => "list"
  | Lit (LTuple _) => "tuple"
  | Mark _ => "Marker"
  end.

(** [isinstance(v, (list, tuple))], with the container kind ([true] for a
    tuple) and the elements. *)
Definition as_sequence (v : value) : option (bool * list literal) :=
  match v with
  | Lit (LList items) => Some (false, items)
  | Lit (LTuple items) => Some (true, items)
  | _ => None
  end.

(** [type(old)(items)] for a list or a tuple [old] *)
Definition make_sequence (is_tuple : bool) (items : list literal) : value :=
  if is_tuple then Lit (LTuple items) else Lit (LList items).

(** [isinstance(v, int)] with the number: [bool] is a subclass of [int]. *)
Definition as_int (v : value) : option Z :=
  match v with
  | Lit (LInt z) => Some z
  | Lit (LBool b) => Some (if b then 1 else 0)
  | _ => None
  end.

(** ** Builtins of the Python runtime *)

Class PyBuiltins : Type := {
  (** [int(s)]; [None] stands for the [ValueError] it raises. *)
  py_int : string -> option Z;
  (** [float(s)]; [None] stands for the [ValueError] it raises. *)
  py_float : string -> option float;
  (** [ast.literal_eval(s)]; [None] stands for [ValueError] or
      [SyntaxError]. Its results are literals, never markers. *)
  literal_eval : string -> option literal;
  (** [repr(f)] of a float, which is also [str(f)]. *)
  float_repr : float -> string;
  (** [repr(s)] of a string: quoted and escaped. *)
  str_repr : string -> string;
  (** Whether [datetime.strptime(s, "%Y:%m:%d %H:%M:%S")] returns; it
      raises [ValueError] otherwise. *)
  strptime_ok : string -> bool
}.

(** [str(z)] of an integer *)
Definition int_str (z : Z) : string := NilZero.string_of_int (Z.to_int z).

(** [format(z, '0Nd')]: sign-aware zero padding to [width] characters. *)
Definition format_0d (width : nat) (z : Z) : string :=
  let digits := NilZero.string_of_uint (N.to_uint (Z.abs_N z)) in
  let sign := if z <? 0 then "-" else "" in
  let pad := (width - String.length sign - String.length digits)%nat in
  sign +:+ String.concat "" (replicate pad "0") +:+ digits.

(** [format(z, '+0Nd')]: as [format_0d] with the sign always written. *)
Definition format_plus0d (width : nat) (z : Z) : string :=
  let digits := NilZero.string_of_uint (N.to_uint (Z.abs_N z)) in
  let sign := if z <? 0 then "-" else "+" in
  let pad := (width - String.length sign - String.length digits)%nat in
  sign +:+ String.concat "" (replicate pad "0") +:+ digits.

Section Repr.
Context `{PyBuiltins}.

(** [repr(x)] of a literal *)
Fixpoint literal_repr (x : literal) : string :=
  match x with
  | LNone => "None"
  | LBool true => "True"
  | LBool false => "False"
  | LInt z => int_str z
  | LFloat f => float_repr f
  | LStr s => str_repr s
  | LList items => "[" +:+ Str.join ", " (map literal_repr items) +:+ "]"
  | LTuple [item] => "(" +:+ literal_repr item +:+ ",)"
  | LTuple items => "(" +:+ Str.join ", " (map literal_repr items) +:+ ")"
  end.

(** [str(x)] of a literal: a string is itself, anything else its [repr]. *)
Definition literal_str (x : literal) : string :=
  match x with
  | LStr s => s
  | _ => literal_repr x
  end.

(** [str(v)], which is also how an f-string renders [{v}]. *)
Definition value_str (v : value) : string :=
  match v with
  | Lit x => literal_str x
  | Mark m => marker_str m
  end.

End Repr.

(** ** The tag store: a [dict] with string keys *)

Definition dict : Type := list (string * value).

(** [d.get(key)], [None] when the key is absent *)
Fixpoint dict_get (key : string) (d : dict) : option value :=
  match d with
  | [] => None
  | (k, v) :: d' => if String.eqb k key then Some v else dict_get key d'
  end.

(** [key in d] *)
Definition dict_in (key : string) (d : dict) : bool :=
  match dict_get key d with Some _ => true | None => false end.

(** [d[key] = v]: an existing key keeps its place, a new one goes last. *)
Fixpoint dict_set (key : string) (v : value) (d : dict) : dict :=
  match d with
  | [] => [(key, v)]
  | (k, v') :: d' =>
      if String.eqb k key then (k, v) :: d' else (k, v') :: dict_set key v d'
  end.

(** [del d[key]] *)
Fixpoint dict_del (key : string) (d : dict) : dict :=
  match d with
  | [] => []
  | (k, v) :: d' => if String.eqb k key then d' else (k, v) :: dict_del key d'
  end.

(** [d.get(key, default)] *)
Definition dict_get_default (key : string) (default : value) (d : dict) : value :=
  match dict_get key d with Some v => v | None => default end.

(** [d.pop(key, default)]: the value and the store without the key *)
Definition dict_pop (key : string) (default : value) (d : dict) : value * dict :=
  (dict_get_default key default d, dict_del key d).

(** The truth value of a Python object, as [if v:] tests it. *)
Definition truthy (v : value) : bool :=
  match v with
  | Lit LNone => false
  | Lit (LBool b) => b
  | Lit (LInt z) => negb (z =? 0)
  | Lit (LFloat f) => negb (PrimFloat.eqb f 0%float)
  | Lit (LStr s) => Str.nonempty s
  | Lit (LList items) | Lit (LTuple items) =>
      match items with [] => false | _ => true end
  | Mark _ => true
  end.

(** ** EXIF enumerations and the compiled-in defaults *)

Definition exif_flash_enum : list (Z * string) :=
  [ (0,  "No Flash");
    (1,  "Fired");
    (5,  "Fired, Return not detected");
    (7,  "Fired, Return detected");
    (8,  "On, Did not fire");
    (9,  "On, Fired");
    (13, "On, Return not detected");
    (15, "On, Return detected");
    (16, "Off, Did not fire");
    (20, "Off, Did not fire, Return not detected");
    (24, "Auto, Did not fire");
    (25, "Auto, Fired");
    (29, "Auto, Fired, Return not detected");
    (31, "Auto, Fired, Return detected");
    (32, "No flash function");
    (48, "Off, No flash function");
    (65, "Fired, Red-eye reduction");
    (69, "Fired, Red-eye reduction, Return not detected");
    (71, "Fired, Red-eye reduction, Return detected");
    (73, "On, Red-eye reduction");
    (77, "On, Red-eye reduction, Return not detected");
    (79, "On, Red-eye reduction, Return detected");
    (80, "Off, Red-eye reduction");
    (88, "Auto, Did not fire, Red-eye reduction");
    (89, "Auto, Fired, Red-eye reduction");
    (93, "Auto, Fired, Red-eye reduction, Return not detected");
    (95, "Auto, Fired, Red-eye reduction, Return detected") ].

Definition exif_flash_enum_fired : list Z :=
  [1; 5; 7; 9; 25; 29; 31; 65; 69; 71; 73; 77; 79; 89; 93; 95].
Definition exif_flash_enum_notfired : list Z := [0; 8; 16; 20; 24; 88].
Definition exif_flash_enum_notpresent : list Z := [32; 48].

Definition exif_orientation_enum : list (Z * string) :=
  [ (1, "Horizontal (normal)");
    (2, "Mirror horizontal");
    (3, "Rotate 180");
    (4, "Mirror vertical");
    (5, "Mirror horizontal and rotate 270 CW");
    (6, "Rotate 90 CW");
    (7, "Mirror horizontal and rotate 90 CW");
    (8, "Rotate 270 CW") ].

Definition exif_filesource_enum : list (Z * string) :=
  [ (1, "Film Scanner"); (2, "Reflection Print Scanner"); (3, "Digital Camera") ].

Definition exif_gps_altituderef_enum : list (Z * string) :=
  [ (0, "Above Sea Level");
    (1, "Below Sea Level");
    (2, "Positive Sea Level (sea-level ref)");
    (3, "Negative Sea Level (sea-level ref)") ].

Definition exif_gps_processingmethod_enum : list (Z * string) :=
  [ (0, "GPS"); (1, "CELLID"); (2, "WLAN"); (3, "MANUAL") ].

(** [key in enum] *)
Definition enum_has (enum : list (Z * string)) (key : Z) : bool :=
  existsb (fun kv => fst kv =? key) enum.

(** [enum[key]], a [KeyError] when the key is absent *)
Fixpoint enum_lookup (enum : list (Z * string)) (key : Z) : result string :=
  match enum with
  | [] => Raise (KeyError (int_str key))
  | (k, name) :: enum' => if k =? key then Ok name else enum_lookup enum' key
  end.

(** [enum[key]] for a key written in the source, with the text the
    source would find there. *)
Definition enum_const (enum : list (Z * string)) (key : Z) : string :=
  match enum_lookup enum key with Ok name => name | Raise _ => "" end.

(** The first key whose name is [name], as the [for ... else] search of
    [exif_flash_fired] finds it. *)
Fixpoint enum_key_of (enum : list (Z * string)) (name : string) : option Z :=
  match enum with
  | [] => None
  | (k, n) :: enum' => if String.eqb n name then Some k else enum_key_of enum' name
  end.

(** [x in xs] for a tuple of integers *)
Definition Z_in (x : Z) (xs : list Z) : bool := existsb (Z.eqb x) xs.

Definition metadata_default : dict :=
  [ ("Script:LockTagList", VBool false);
    ("ImageTransform:Enabled", VBool false);
    ("ImageTransform:Crop", Lit (LList [LInt 0; LInt 0; LInt 4096; LInt 2656]));
    ("ImageTransform:Rotate", VInt 0);
    ("ImageTransform:Flip", Lit (LList [LBool false; LBool false]));
    ("ImageTransform:Compression", Lit (LList [LStr "none"; LNone]));
    ("DocumentName", Mark AUTO);
    ("ImageDescription", VStr "");
    ("Make", Mark MANDATORY);
    ("Model", Mark MANDATORY);
    ("Orientation", VStr (enum_const exif_orientation_enum 1));
    ("ModifyDate", Mark AUTO);
    ("Artist", VStr "");
    ("Copyright", Mark OPTIONAL);
    ("ExposureTime", Mark OPTIONAL);
    ("FNumber", Mark OPTIONAL);
    ("ISO", Mark OPTIONAL);
    ("DateTimeOriginal", Mark MANDATORY);
    ("CreateDate", Mark AUTO);
    ("OffsetTime", Mark AUTO);
    ("OffsetTimeOriginal", Mark OPTIONAL);
    ("OffsetTimeDigitized", Mark AUTO);
    ("ShutterSpeedValue", Mark AUTO);
    ("ApertureValue", Mark AUTO);
    ("EXIF:Flash", Mark OPTIONAL);
    ("FocalLength", Mark OPTIONAL);
    ("ImageNumber", Mark OPTIONAL);
    ("ImageHistory", VStr "");
    ("MakerNotes:All", Mark DELETE);
    ("UserComment", VStr "");
    ("ColorSpace", Mark MANDATORY);
    ("ExifImageWidth", Mark AUTO);
    ("ExifImageHeight", Mark AUTO);
    ("FileSource", VStr (enum_const exif_filesource_enum 1));
    ("ExposureMode", Mark SKIP);
    ("WhiteBalance", Mark SKIP);
    ("FocalLengthIn35mmFormat", Mark OPTIONAL);
    ("OwnerName", Mark SKIP);
    ("SerialNumber", Mark SKIP);
    ("LensInfo", Mark OPTIONAL);
    ("LensMake", Mark OPTIONAL);
    ("LensModel", Mark OPTIONAL);
    ("LensSerialNumber", Mark OPTIONAL);
    ("ImageTitle", VStr "");
    ("Photographer", Mark OPTIONAL);
    ("ImageEditor", Mark OPTIONAL);
    ("ReelName", Mark OPTIONAL);
    ("ImageHistory:Film", Mark OPTIONAL);
    ("GPSLatitudeRef", Mark AUTO);
    ("GPSLatitude", Mark OPTIONAL);
    ("GPSLongitudeRef", Mark AUTO);
    ("GPSLongitude", Mark OPTIONAL);
    ("GPSAltitudeRef", Mark AUTO);
    ("GPSAltitude", Mark OPTIONAL);
    ("GPSProcessingMethod", Mark AUTO);
    ("Extra:FileID", VStr "");
    ("Extra:FilePath", VStr "");
    ("Extra:FileDirectory", VStr "");
    ("Extra:FileNameBase", VStr "");
    ("Extra:FileNameExtension", VStr "");
    ("Extra:FilmID", VStr "");
    ("Extra:FilmFrameNumber", VInt 0);
    ("Extra:StripID", VStr "");
    ("Extra:StripFrameNumber", VInt 0) ].

(** ** Small helpers of [exif-writer.py] *)

Section Helpers.
Context `{PyBuiltins}.

(** [str2int(s)] with the default [negative_prefix = 'm'] *)
Definition str2int (s : string) : result Z :=
  let parsed :=
    if Str.startswith s "m" then Z.opp <$> py_int (Str.drop 1 s)
    else py_int s in
  match parsed with
  | Some z => Ok z
  | None => Raise (ValueError ("Cannot convert '" +:+ s +:+ "' to integer."))
  end.

(** [str2float(s)] with the defaults [negative_prefix = 'm'] and
    [decimal_point = '.'] (so that the [replace] changes nothing). *)
Definition str2float (s : string) : result float :=
  let s := Str.replace "." "." s in
  let parsed :=
    if Str.startswith s "m" then PrimFloat.opp <$> py_float (Str.drop 1 s)
    else py_float s in
  match parsed with
  | Some f => Ok f
  | None => Raise (ValueError ("Cannot convert '" +:+ s +:+ "' to float."))
  end.

(** [exif_flash_fired(exif_flash_value)]: [Ok None] is the Python [None]
    that a function returns when it falls off its end. *)
Definition exif_flash_fired (exif_flash_value : value) : result (option bool) :=
  code ←
    match exif_flash_value with
    | Lit (LInt _) | Lit (LBool _) =>
        let z := default 0 (as_int exif_flash_value) in
        if enum_has exif_flash_enum z then Ok z
        else Raise (ValueError ("Unknown EXIF Flash value '" +:+ int_str z +:+ "'."))
    | Lit (LStr s) =>
        match enum_key_of exif_flash_enum s with
        | Some key => Ok key
        | None => Raise (ValueError ("Unknown EXIF Flash value '" +:+ s +:+ "'."))
        end
    | _ =>
        Raise (ValueError ("Invalid EXIF Flash value type '"
                           +:+ value_str exif_flash_value +:+ "'."))
    end;
  if Z_in code exif_flash_enum_fired then Ok (Some true)
  else if Z_in code exif_flash_enum_notfired then Ok (Some false)
  else if Z_in code exif_flash_enum_notpresent then Ok (Some false)
  else Ok None.

End Helpers.

(** [delete_keys_with_prefixes(dictionary, prefixes)] *)
Definition delete_keys_with_prefixes (dictionary : dict) (prefixes : list string) : dict :=
  let keys_to_delete :=
    List.filter (fun key => existsb (Str.startswith key) prefixes)
                (map fst dictionary) in
  fold_left (fun d key => dict_del key d) keys_to_delete dictionary.

(** [tag_iswritable(tag_name, metadata)] *)
Definition tag_iswritable (tag_name : string) (metadata : dict) : bool :=
  match dict_get tag_name metadata with
  | Some v => negb (is_marker SKIP v) && negb (is_marker DELETE v)
  | None => false
  end.

(** ** Rasters and [image_transform] *)

(** A numpy array seen through its first two axes: [shape[0]] rows of
    [shape[1]] pixels (a pixel is one sample or a vector of samples). *)
Record ndarray (A : Type) : Type := {
  shape0 : Z;
  shape1 : Z;
  rows : list (list A)
}.

Arguments shape0 {A} _.
Arguments shape1 {A} _.
Arguments rows {A} _.

(** [l[start:stop]] for [0 <= start <= stop], which the bounds check of
    [image_transform] establishes before it slices. *)
Definition slice {B : Type} (start stop : Z) (l : list B) : list B :=
  take (Z.to_nat (stop - start)) (drop (Z.to_nat start) l).

Section Raster.
Context {A : Type}.

(** The array holds what its shape says. *)
Definition well_shaped (m : ndarray A) : Prop :=
  Z.of_nat (length (rows m)) = shape0 m /\
  Forall (fun r => Z.of_nat (length r) = shape1 m) (rows m).

(** [np.fliplr(m)] *)
Definition fliplr (m : ndarray A) : ndarray A :=
  {| shape0 := shape0 m; shape1 := shape1 m; rows := map (@rev A) (rows m) |}.

(** [np.flipud(m)] *)
Definition flipud (m : ndarray A) : ndarray A :=
  {| shape0 := shape0 m; shape1 := shape1 m; rows := rev (rows m) |}.

(** [np.transpose(m, (1, 0, ...))] *)
Definition transpose (m : ndarray A) : ndarray A :=
  {| shape0 := shape1 m;
     shape1 := shape0 m;
     rows := map (fun j => omap (fun r => r !! j) (rows m))
                 (seq 0 (Z.to_nat (shape1 m))) |}.

(** [np.rot90(m, k)] for [k] in [0..3]: [k] quarter turns counter-clockwise. *)
Definition rot90 (m : ndarray A) (k : Z) : ndarray A :=
  if k =? 1 then transpose (fliplr m)
  else if k =? 2 then flipud (fliplr m)
  else if k =? 3 then fliplr (transpose m)
  else m.

(** [image_transform(image, crop_left, crop_top, crop_width, crop_height,
    rotate_cw, flip_horizontal, flip_vertical)] *)
Definition image_transform (image : ndarray A)
    (crop_left crop_top crop_width crop_height : Z)
    (rotate_cw : option Z) (flip_horizontal flip_vertical : option bool)
  : result (ndarray A) :=
  let crop_width := if crop_width =? 0 then shape1 image else crop_width in
  let crop_height := if crop_height =? 0 then shape0 image else crop_height in
  if (crop_width <=? 0) || (crop_height <=? 0) then
    Raise (ValueError "Error! Crop region size is invalid.")
  else if (crop_left <? 0) || (crop_top <? 0)
          || (shape0 image <? crop_top + crop_height)
          || (shape1 image <? crop_left + crop_width) then
    Raise (ValueError "Error! Crop region is outside image boundaries.")
  else
    let image_result :=
      {| shape0 := crop_height;
         shape1 := crop_width;
         rows := map (slice crop_left (crop_left + crop_width))
                     (slice crop_top (crop_top + crop_height) (rows image)) |} in
    image_result ←
      match rotate_cw with
      | None => Ok image_result
      | Some angle =>
          if angle =? 0 then Ok image_result
          else if negb (angle mod 90 =? 0) then
            Raise (ValueError
                     "Error! Rotate can only be performed by multiple of 90 degrees.")
          else
            let k := ((- angle) / 90) mod 4 in
            if negb (k =? 0) then Ok (rot90 image_result k) else Ok image_result
      end;
    let image_result :=
      if default false flip_horizontal then fliplr image_result else image_result in
    let image_result :=
      if default false flip_vertical then flipud image_result else image_result in
    Ok image_result.

End Raster.

(** ** Directory metadata files: [metadata_get_file] *)

Section MetadataFile.
Context `{PyBuiltins}.

(** The body of [for marker in Marker:] for one marker. Its [continue]
    belongs to this inner loop and ends nothing but the iteration that
    is ending anyway. *)
Definition marker_step (key value : string) (result : dict) (marker : Marker) : dict :=
  if String.eqb value (marker_value marker) then dict_set key (Mark marker) result
  else result.

(** The body of [for line in f:] *)
Definition metadata_file_line (strip_whitespace : bool) (result : dict) (line : string)
  : dict :=
  if (0 <? String.length line)%nat then
    if Str.startswith (Str.lstrip line) "#" || Str.startswith (Str.lstrip line) ";"
    then result
    else
      match Str.split_first "=" line with
      | None => result
      | Some (key, value) =>
          let key := if strip_whitespace then Str.strip key else key in
          let value := if strip_whitespace then Str.strip value else value in
          let result := fold_left (marker_step key value) Marker_members result in
          match literal_eval value with
          | Some x => dict_set key (Lit x) result
          | None => dict_set key (VStr value) result
          end
      end
  else result.

(** The implicit enabling of the transform at the end of
    [metadata_get_file]. *)
Definition enable_transform (result : dict) : dict :=
  if negb (dict_in "ImageTransform:Enabled" result) then
    if existsb (fun tag_name => Str.startswith tag_name "ImageTransform:")
               (map fst result)
    then dict_set "ImageTransform:Enabled" (VBool true) result
    else result
  else result.

(** [metadata_get_file(file_path, strip_whitespace)], given the lines the
    file yields (each with its line end); [None] for the lines is a file
    that cannot be read, and the [None] returned is the Python [None] of
    the [except] branch. *)
Definition metadata_get_file (lines : option (list string)) (strip_whitespace : bool)
  : option dict :=
  match lines with
  | None => None
  | Some lines =>
      Some (enable_transform (fold_left (metadata_file_line strip_whitespace) lines []))
  end.

End MetadataFile.

(** ** The filename grammar decoder: [metadata_get_path] *)

(** [datetime_original] and [datetime_original_offset] hold a string
    first and the list of its parsed components afterwards. *)
Inductive dt_value : Type :=
| DtText (s : string)
| DtParts (parts : list Z).

(** The local variables of [metadata_get_path] that the token loop
    assigns; [None] is the Python [None] they start with. *)
Record fields : Type := Fields {
  film_id : option string;
  film_frame : option Z;
  strip_id : option string;
  strip_frame : option Z;
  image_number : option Z;
  crop : option (list Z);
  rotate : option Z;
  flip : option (bool * bool);
  compression : option string;
  exposure_time : option literal;
  aperture : option float;
  iso : option Z;
  flash : option Z;
  orientation : option Z;
  lens_focal_length : option Z;
  camera_maker : option string;
  camera_model : option string;
  datetime_original : option dt_value;
  datetime_original_offset : option dt_value;
  gnss_latitude : option float;
  gnss_longitude : option float;
  gnss_altitude : option float;
  image_description : option string;
  image_title : option string;
  user_comment : option string
}.

Definition fields_init : fields :=
  Fields None None None None None None None None None None None None None None None
      None None None None None None None None None None.

Definition set_film_id (v : option string) (f : fields) : fields :=
  let 'Fields _ a1 a2 a3 a4 a5 a6 a7 a8 a9 a10 a11 a12 a13 a14 a15 a16 a17 a18 a19 a20
      a21 a22 a23 a24 := f in
  Fields v a1 a2 a3 a4 a5 a6 a7 a8 a9 a10 a11 a12 a13 a14 a15 a16 a17 a18 a19 a20 a21
      a22 a23 a24.

Definition set_film_frame (v : option Z) (f : fields) : fields :=
  let 'Fields a0 _ a2 a3 a4 a5 a6 a7 a8 a9 a10 a11 a12 a13 a14 a15 a16 a17 a18 a19 a20
      a21 a22 a23 a24 := f in
  Fields a0 v a2 a3 a4 a5 a6 a7 a8 a9 a10 a11 a12 a13 a14 a15 a16 a17 a18 a19 a20 a21
      a22 a23 a24.

Definition set_strip_id (v : option string) (f : fields) : fields :=
  let 'Fields a0 a1 _ a3 a4 a5 a6 a7 a8 a9 a10 a11 a12 a13 a14 a15 a16 a17 a18 a19 a20
      a21 a22 a23 a24 := f in
  Fields a0 a1 v a3 a4 a5 a6 a7 a8 a9 a10 a11 a12 a13 a14 a15 a16 a17 a18 a19 a20 a21
      a22 a23 a24.

Definition set_strip_frame (v : option Z) (f : fields) : fields :=
  let 'Fields a0 a1 a2 _ a4 a5 a6 a7 a8 a9 a10 a11 a12 a13 a14 a15 a16 a17 a18 a19 a20
      a21 a22 a23 a24 := f in
  Fields a0 a1 a2 v a4 a5 a6 a7 a8 a9 a10 a11 a12 a13 a14 a15 a16 a17 a18 a19 a20 a21
      a22 a23 a24.

Definition set_image_number (v : option Z) (f : fields) : fields :=
  let 'Fields a0 a1 a2 a3 _ a5 a6 a7 a8 a9 a10 a11 a12 a13 a14 a15 a16 a17 a18 a19 a20
      a21 a22 a23 a24 := f in
  Fields a0 a1 a2 a3 v a5 a6 a7 a8 a9 a10 a11 a12 a13 a14 a15 a16 a17 a18 a19 a20 a21
      a22 a23 a24.

Definition set_crop (v : option (list Z)) (f : fields) : fields :=
  let 'Fields a0 a1 a2 a3 a4 _ a6 a7 a8 a9 a10 a11 a12 a13 a14 a15 a16 a17 a18 a19 a20
      a21 a22 a23 a24 := f in
  Fields a0 a1 a2 a3 a4 v a6 a7 a8 a9 a10 a11 a12 a13 a14 a15 a16 a17 a18 a19 a20 a21
      a22 a23 a24.

Definition set_rotate (v : option Z) (f : fields) : fields :=
  let 'Fields a0 a1 a2 a3 a4 a5 _ a7 a8 a9 a10 a11 a12 a13 a14 a15 a16 a17 a18 a19 a20
      a21 a22 a23 a24 := f in
  Fields a0 a1 a2 a3 a4 a5 v a7 a8 a9 a10 a11 a12 a13 a14 a15 a16 a17 a18 a19 a20 a21
      a22 a23 a24.

Definition set_flip (v : option (bool * bool)) (f : fields) : fields :=
  let 'Fields a0 a1 a2 a3 a4 a5 a6 _ a8 a9 a10 a11 a12 a13 a14 a15 a16 a17 a18 a19 a20
      a21 a22 a23 a24 := f in
  Fields a0 a1 a2 a3 a4 a5 a6 v a8 a9 a10 a11 a12 a13 a14 a15 a16 a17 a18 a19 a20 a21
      a22 a23 a24.

Definition set_compression (v : option string) (f : fields) : fields :=
  let 'Fields a0 a1 a2 a3 a4 a5 a6 a7 _ a9 a10 a11 a12 a13 a14 a15 a16 a17 a18 a19 a20
      a21 a22 a23 a24 := f in
  Fields a0 a1 a2 a3 a4 a5 a6 a7 v a9 a10 a11 a12 a13 a14 a15 a16 a17 a18 a19 a20 a21
      a22 a23 a24.

Definition set_exposure_time (v : option literal) (f : fields) : fields :=
  let 'Fields a0 a1 a2 a3 a4 a5 a6 a7 a8 _ a10 a11 a12 a13 a14 a15 a16 a17 a18 a19 a20
      a21 a22 a23 a24 := f in
  Fields a0 a1 a2 a3 a4 a5 a6 a7 a8 v a10 a11 a12 a13 a14 a15 a16 a17 a18 a19 a20 a21
      a22 a23 a24.

Definition set_aperture (v : option float) (f : fields) : fields :=
  let 'Fields a0 a1 a2 a3 a4 a5 a6 a7 a8 a9 _ a11 a12 a13 a14 a15 a16 a17 a18 a19 a20
      a21 a22 a23 a24 := f in
  Fields a0 a1 a2 a3 a4 a5 a6 a7 a8 a9 v a11 a12 a13 a14 a15 a16 a17 a18 a19 a20 a21
      a22 a23 a24.

Definition set_iso (v : option Z) (f : fields) : fields :=
  let 'Fields a0 a1 a2 a3 a4 a5 a6 a7 a8 a9 a10 _ a12 a13 a14 a15 a16 a17 a18 a19 a20
      a21 a22 a23 a24 := f in
  Fields a0 a1 a2 a3 a4 a5 a6 a7 a8 a9 a10 v a12 a13 a14 a15 a16 a17 a18 a19 a20 a21
      a22 a23 a24.

Definition set_flash (v : option Z) (f : fields) : fields :=
  let 'Fields a0 a1 a2 a3 a4 a5 a6 a7 a8 a9 a10 a11 _ a13 a14 a15 a16 a17 a18 a19 a20
      a21 a22 a23 a24 := f in
  Fields a0 a1 a2 a3 a4 a5 a6 a7 a8 a9 a10 a11 v a13 a14 a15 a16 a17 a18 a19 a20 a21
      a22 a23 a24.

Definition set_orientation (v : option Z) (f : fields) : fields :=
  let 'Fields a0 a1 a2 a3 a4 a5 a6 a7 a8 a9 a10 a11 a12 _ a14 a15 a16 a17 a18 a19 a20
      a21 a22 a23 a24 := f in
  Fields a0 a1 a2 a3 a4 a5 a6 a7 a8 a9 a10 a11 a12 v a14 a15 a16 a17 a18 a19 a20 a21
      a22 a23 a24.

Definition set_lens_focal_length (v : option Z) (f : fields) : fields :=
  let 'Fields a0 a1 a2 a3 a4 a5 a6 a7 a8 a9 a10 a11 a12 a13 _ a15 a16 a17 a18 a19 a20
      a21 a22 a23 a24 := f in
  Fields a0 a1 a2 a3 a4 a5 a6 a7 a8 a9 a10 a11 a12 a13 v a15 a16 a17 a18 a19 a20 a21
      a22 a23 a24.

Definition set_camera_maker (v : option string) (f : fields) : fields :=
  let 'Fields a0 a1 a2 a3 a4 a5 a6 a7 a8 a9 a10 a11 a12 a13 a14 _ a16 a17 a18 a19 a20
      a21 a22 a23 a24 := f in
  Fields a0 a1 a2 a3 a4 a5 a6 a7 a8 a9 a10 a11 a12 a13 a14 v a16 a17 a18 a19 a20 a21
      a22 a23 a24.

Definition set_camera_model (v : option string) (f : fields) : fields :=
  let 'Fields a0 a1 a2 a3 a4 a5 a6 a7 a8 a9 a10 a11 a12 a13 a14 a15 _ a17 a18 a19 a20
      a21 a22 a23 a24 := f in
  Fields a0 a1 a2 a3 a4 a5 a6 a7 a8 a9 a10 a11 a12 a13 a14 a15 v a17 a18 a19 a20 a21
      a22 a23 a24.

Definition set_datetime_original (v : option dt_value) (f : fields) : fields :=
  let 'Fields a0 a1 a2 a3 a4 a5 a6 a7 a8 a9 a10 a11 a12 a13 a14 a15 a16 _ a18 a19 a20
      a21 a22 a23 a24 := f in
  Fields a0 a1 a2 a3 a4 a5 a6 a7 a8 a9 a10 a11 a12 a13 a14 a15 a16 v a18 a19 a20 a21
      a22 a23 a24.

Definition set_datetime_original_offset (v : option dt_value) (f : fields) : fields :=
  let 'Fields a0 a1 a2 a3 a4 a5 a6 a7 a8 a9 a10 a11 a12 a13 a14 a15 a16 a17 _ a19 a20
      a21 a22 a23 a24 := f in
  Fields a0 a1 a2 a3 a4 a5 a6 a7 a8 a9 a10 a11 a12 a13 a14 a15 a16 a17 v a19 a20 a21
      a22 a23 a24.

Definition set_gnss_latitude (v : option float) (f : fields) : fields :=
  let 'Fields a0 a1 a2 a3 a4 a5 a6 a7 a8 a9 a10 a11 a12 a13 a14 a15 a16 a17 a18 _ a20
      a21 a22 a23 a24 := f in
  Fields a0 a1 a2 a3 a4 a5 a6 a7 a8 a9 a10 a11 a12 a13 a14 a15 a16 a17 a18 v a20 a21
      a22 a23 a24.

Definition set_gnss_longitude (v : option float) (f : fields) : fields :=
  let 'Fields a0 a1 a2 a3 a4 a5 a6 a7 a8 a9 a10 a11 a12 a13 a14 a15 a16 a17 a18 a19 _
      a21 a22 a23 a24 := f in
  Fields a0 a1 a2 a3 a4 a5 a6 a7 a8 a9 a10 a11 a12 a13 a14 a15 a16 a17 a18 a19 v a21
      a22 a23 a24.

Definition set_gnss_altitude (v : option float) (f : fields) : fields :=
  let 'Fields a0 a1 a2 a3 a4 a5 a6 a7 a8 a9 a10 a11 a12 a13 a14 a15 a16 a17 a18 a19
      a20 _ a22 a23 a24 := f in
  Fields a0 a1 a2 a3 a4 a5 a6 a7 a8 a9 a10 a11 a12 a13 a14 a15 a16 a17 a18 a19 a20 v
      a22 a23 a24.

Definition set_image_description (v : option string) (f : fields) : fields :=
  let 'Fields a0 a1 a2 a3 a4 a5 a6 a7 a8 a9 a10 a11 a12 a13 a14 a15 a16 a17 a18 a19
      a20 a21 _ a23 a24 := f in
  Fields a0 a1 a2 a3 a4 a5 a6 a7 a8 a9 a10 a11 a12 a13 a14 a15 a16 a17 a18 a19 a20 a21
      v a23 a24.

Definition set_image_title (v : option string) (f : fields) : fields :=
  let 'Fields a0 a1 a2 a3 a4 a5 a6 a7 a8 a9 a10 a11 a12 a13 a14 a15 a16 a17 a18 a19
      a20 a21 a22 _ a24 := f in
  Fields a0 a1 a2 a3 a4 a5 a6 a7 a8 a9 a10 a11 a12 a13 a14 a15 a16 a17 a18 a19 a20 a21
      a22 v a24.

Definition set_user_comment (v : option string) (f : fields) : fields :=
  let 'Fields a0 a1 a2 a3 a4 a5 a6 a7 a8 a9 a10 a11 a12 a13 a14 a15 a16 a17 a18 a19
      a20 a21 a22 a23 _ := f in
  Fields a0 a1 a2 a3 a4 a5 a6 a7 a8 a9 a10 a11 a12 a13 a14 a15 a16 a17 a18 a19 a20 a21
      a22 a23 v.

Section Decoder.
Context `{PyBuiltins}.

(** ["F<FILM_ID>[-<FRAME_NUM_ON_FILM>]"] *)
Definition rule_film (f : fields) (entry_value : string) : result fields :=
  match Str.split_last "-" entry_value with
  | None => Ok (set_film_id (Some entry_value) f)
  | Some (id, frame) =>
      let f := set_film_id (Some id) f in
      if Str.nonempty frame then
        n ← str2int frame; Ok (set_film_frame (Some n) f)
      else Raise (ValueError "Error! Frame number on film value not specified.")
  end.

(** ["S<STRIP_ID>[-<FRAME_NUM_ON_STRIP>]"] *)
Definition rule_strip (f : fields) (entry_value : string) : result fields :=
  match Str.split_last "-" entry_value with
  | None => Ok (set_strip_id (Some entry_value) f)
  | Some (id, frame) =>
      let f := set_strip_id (Some id) f in
      if Str.nonempty frame then
        n ← str2int frame; Ok (set_strip_frame (Some n) f)
      else Raise (ValueError "Error! Frame number on strip value not specified.")
  end.

(** ["N<IMAGE_NUMBER>"] *)
Definition rule_image_number (f : fields) (entry_value : string) : result fields :=
  if Str.nonempty entry_value then
    n ← str2int entry_value; Ok (set_image_number (Some n) f)
  else Raise (ValueError "Error! Image number value not specified.").

(** ["C<LEFT>[-<TOP>[-<WIDTH>[-<HEIGHT>]]]"] *)
Definition rule_crop (f : fields) (entry_value : string) : result fields :=
  if Str.nonempty entry_value then
    crop ← map_result str2int (Str.split_char "-" entry_value);
    if existsb (fun value => value <? 0) crop then
      Raise (ValueError "Error! Crop values can't be negative.")
    else Ok (set_crop (Some crop) f)
  else Raise (ValueError "Error! Crop value not specified.").

(** ["R<ROTATION_CW{ANGLE|90CW|90CCW}>[<FLIP{H|V}>]"] *)
Definition rule_rotate (f : fields) (entry_value : string) : result fields :=
  let flip_h := Str.contains "H" entry_value in
  let entry_value := if flip_h then Str.replace "H" "" entry_value else entry_value in
  let flip_v := Str.contains "V" entry_value in
  let entry_value := if flip_v then Str.replace "V" "" entry_value else entry_value in
  rotate ←
    (if String.eqb entry_value "90CW" then Ok 90
     else if String.eqb entry_value "90CCW" then Ok 270
     else str2int entry_value);
  Ok (set_rotate (Some rotate) (set_flip (Some (flip_h, flip_v)) f)).

(** ["Z<COMPRESSION_ID>"] *)
Definition rule_compression (f : fields) (entry_value : string) : result fields :=
  if Str.nonempty entry_value then Ok (set_compression (Some entry_value) f)
  else Raise (ValueError "Error! Comperession identifier not specified.").

(** ["T<EXPOSURE_TIME{<TIME_IN_SECONDS>|'<DENOMINATOR>}>"]: a fraction
    [1/x] is kept as the negative integer [-x]. *)
Definition rule_exposure_time (f : fields) (entry_value : string) : result fields :=
  if Str.nonempty entry_value then
    if Str.startswith entry_value "'" then
      n ← str2int (Str.drop 1 entry_value);
      Ok (set_exposure_time (Some (LInt (- n))) f)
    else
      x ← str2float entry_value;
      Ok (set_exposure_time (Some (LFloat x)) f)
  else Raise (ValueError "Error! Exposure time value not specified.").

(** ["A<F-NUMBER>"] *)
Definition rule_aperture (f : fields) (entry_value : string) : result fields :=
  if Str.nonempty entry_value then
    x ← str2float entry_value; Ok (set_aperture (Some x) f)
  else Raise (ValueError "Error! Aperture value not specified.").

(** ["I<ISO_VALUE>"] *)
Definition rule_iso (f : fields) (entry_value : string) : result fields :=
  if Str.nonempty entry_value then
    n ← str2int entry_value; Ok (set_iso (Some n) f)
  else Raise (ValueError "Error! ISO value not specified.").

(** ["X<EXIF_FLASH_VALUE_NUMBER>"] *)
Definition rule_flash (f : fields) (entry_value : string) : result fields :=
  if Str.nonempty entry_value then
    n ← str2int entry_value; Ok (set_flash (Some n) f)
  else Raise (ValueError "Error! Flash value not specified.").

(** ["O<VALUE{<CODE>|90CW|90CCW|180}>"] *)
Definition rule_orientation (f : fields) (entry_value : string) : result fields :=
  if Str.nonempty entry_value then
    orientation ←
      (if String.eqb entry_value "90CW" then Ok 6
       else if String.eqb entry_value "90CCW" then Ok 8
       else if String.eqb entry_value "180" then Ok 3
       else str2int entry_value);
    if negb ((1 <=? orientation) && (orientation <=? 8)) then
      Raise (ValueError "Error! Invalid orientation value.")
    else Ok (set_orientation (Some orientation) f)
  else Raise (ValueError "Error! Orientation value not specified.").

(** ["L<FOCAL_LENGTH>"] *)
Definition rule_focal_length (f : fields) (entry_value : string) : result fields :=
  if Str.nonempty entry_value then
    n ← str2int entry_value; Ok (set_lens_focal_length (Some n) f)
  else Raise (ValueError "Error! Lens focal length value not specified.").

(** ["M[<MODEL>][@<MAKER>]"] *)
Definition rule_camera (f : fields) (entry_value : string) : result fields :=
  match Str.split_first "@" entry_value with
  | None =>
      Ok (if Str.nonempty entry_value then set_camera_model (Some entry_value) f else f)
  | Some (model, maker) =>
      let f := if Str.nonempty model then set_camera_model (Some model) f else f in
      Ok (if Str.nonempty maker then set_camera_maker (Some maker) f else f)
  end.

(** [parts += [0] * (n - len(parts))] when [len(parts) < n] *)
Definition pad_zeros (n : nat) (parts : list Z) : list Z :=
  if (length parts <? n)%nat then parts ++ replicate (n - length parts) 0 else parts.

(** The date and time half of the [D] rule, for the text before [@]. *)
Definition parse_datetime (text : string) : result dt_value :=
  if Str.nonempty text then
    parts ← map_result str2int (Str.split_char "-" text);
    let parts := pad_zeros 6 parts in
    match parts with
    | [] => Raise (IndexError "list index out of range")
    | year :: others =>
        if negb ((0 <=? year) && (year <=? 9999)) then
          Raise (ValueError "Error! Datetime year must be 4 digits long.")
        else if existsb (fun value => negb ((0 <=? value) && (value <=? 99))) others then
          Raise (ValueError
                   "Error! Datetime component value (except year) must be 2 digits long.")
        else Ok (DtParts parts)
    end
  else Ok (DtText text).

(** The offset half of the [D] rule. The variable may still hold the
    list parsed from an earlier [D] token, which has no [split]. *)
Definition parse_offset (offset : option dt_value) : result (option dt_value) :=
  match offset with
  | None => Ok None
  | Some (DtParts _) =>
      Raise (AttributeError "'list' object has no attribute 'split'")
  | Some (DtText text) =>
      parts ← map_result str2int (Str.split1 "-" text);
      let parts := pad_zeros 2 parts in
      match parts with
      | hours :: minutes :: _ =>
          if negb ((-24 <=? hours) && (hours <=? 24)) then
            Raise (ValueError "Error! Datetime offset hours must within ±24.")
          else if negb ((0 <=? minutes) && (minutes <=? 59)) then
            Raise (ValueError
                     "Error! Datetime offset minutes must be between 0 and 59.")
          else Ok (Some (DtParts parts))
      | _ => Raise (IndexError "list index out of range")
      end
  end.

(** ["D<YYYY>[-<MM>[-<DD>[-<hh>[-<mm>[-<ss>[@<tzo_hh>[-<tzo_mm>]]]]]]]"] *)
Definition rule_datetime (f : fields) (entry_value : string) : result fields :=
  if Str.nonempty entry_value then
    let tmp := Str.split1 "@" entry_value in
    let text := Str.strip (nth 0 tmp EmptyString) in
    let offset :=
      match tmp with
      | [_; after] =>
          if Str.nonempty (Str.strip after) then Some (DtText (Str.strip after))
          else datetime_original_offset f
      | _ => datetime_original_offset f
      end in
    datetime ← parse_datetime text;
    offset ← parse_offset offset;
    Ok (set_datetime_original_offset offset (set_datetime_original (Some datetime) f))
  else Raise (ValueError "Error! Datetime value not specified.").

(** One coordinate of the [G] rule: an optional hemisphere letter, then
    the number; [negative] is the letter that flips the sign. *)
Definition parse_coordinate (positive negative text : string) : result float :=
  if Str.startswith text positive then
    x ← str2float (Str.drop 1 text); Ok (PrimFloat.mul 1 x)
  else if Str.startswith text negative then
    x ← str2float (Str.drop 1 text); Ok (PrimFloat.mul (-1) x)
  else
    x ← str2float text; Ok (PrimFloat.mul 1 x).

(** ["G<{+|-|N|S}LATITUDE_DEG>,<{+|-|E|W}LONGITUDE_DEG>[,<ALTITUDE_M>]"] *)
Definition rule_gnss (f : fields) (entry_value : string) : result fields :=
  let entry_value := Str.replace " " "" entry_value in
  match Str.split_char "," entry_value with
  | [lat; lon] =>
      latitude ← parse_coordinate "N" "S" lat;
      longitude ← parse_coordinate "E" "W" lon;
      Ok (set_gnss_longitude (Some longitude) (set_gnss_latitude (Some latitude) f))
  | [lat; lon; alt] =>
      latitude ← parse_coordinate "N" "S" lat;
      longitude ← parse_coordinate "E" "W" lon;
      altitude ← str2float alt;
      Ok (set_gnss_altitude (Some altitude)
            (set_gnss_longitude (Some longitude) (set_gnss_latitude (Some latitude) f)))
  | _ => Raise (ValueError "Error! GPS location can't be parsed.")
  end.

(** [entry[1:].replace('&#95;', '_')] of the three free-text rules *)
Definition free_text (entry_value : string) : string :=
  Str.replace "&#95;" "_" entry_value.

(** The body of [for entry in metadata:]: the rules in the order of the
    source, each ending in [continue]. The second rule for ['N'] stands
    where the source has it. *)
Definition decode_entry (f : fields) (entry : string) : result fields :=
  let entry_value := Str.drop 1 entry in
  if Str.startswith entry "F" then rule_film f entry_value
  else if Str.startswith entry "S" then rule_strip f entry_value
  else if Str.startswith entry "N" then rule_image_number f entry_value
  else if Str.startswith entry "C" then rule_crop f entry_value
  else if Str.startswith entry "R" then rule_rotate f entry_value
  else if Str.startswith entry "Z" then rule_compression f entry_value
  else if Str.startswith entry "T" then rule_exposure_time f entry_value
  else if Str.startswith entry "A" then rule_aperture f entry_value
  else if Str.startswith entry "I" then rule_iso f entry_value
  else if Str.startswith entry "X" then rule_flash f entry_value
  else if Str.startswith entry "O" then rule_orientation f entry_value
  else if Str.startswith entry "L" then rule_focal_length f entry_value
  else if Str.startswith entry "M" then rule_camera f entry_value
  else if Str.startswith entry "D" then rule_datetime f entry_value
  else if Str.startswith entry "G" then rule_gnss f entry_value
  else if Str.startswith entry "H" then
    Ok (set_image_title (Some (free_text entry_value)) f)
  else if Str.startswith entry "N" then
    Ok (set_image_description (Some (free_text entry_value)) f)
  else if Str.startswith entry "U" then
    Ok (set_user_comment (Some (free_text entry_value)) f)
  else Ok f.

End Decoder.

Section DecoderResult.
Context `{PyBuiltins}.

(** The split of the file name into [file_id] and the encoded metadata
    (the [find] / [rsplit] block of [metadata_get_path]). *)
Definition split_basename (file_name : string) : result (option string * string) :=
  if negb (Str.contains "__" file_name) then Ok (Some file_name, EmptyString)
  else
    match Str.rsplit1 "__" file_name with
    | [base; meta] => Ok (if Str.nonempty base then Some base else None, meta)
    | _ => Raise (IndexError "list index out of range")
    end.

(** [if x is not None: result[key] = x] *)
Definition set_if {B : Type} (key : string) (x : option B) (to_value : B -> value)
    (result : dict) : dict :=
  match x with
  | Some b => dict_set key (to_value b) result
  | None => result
  end.

(** [parts[i]] *)
Definition item (parts : list Z) (i : nat) : result Z :=
  match parts !! i with
  | Some z => Ok z
  | None => Raise (IndexError "list index out of range")
  end.

(** The f-string of [result['DateTimeOriginal']] *)
Definition format_datetime (d : dt_value) : result string :=
  match d with
  | DtText EmptyString => Raise (IndexError "string index out of range")
  | DtText _ => Raise (ValueError "Unknown format code 'd' for object of type 'str'")
  | DtParts parts =>
      year ← item parts 0; month ← item parts 1; day ← item parts 2;
      hour ← item parts 3; minute ← item parts 4; second ← item parts 5;
      Ok (format_0d 4 year +:+ ":" +:+ format_0d 2 month +:+ ":" +:+ format_0d 2 day
          +:+ " " +:+ format_0d 2 hour +:+ ":" +:+ format_0d 2 minute
          +:+ ":" +:+ format_0d 2 second)
  end.

(** The f-string of [result['OffsetTimeOriginal']] *)
Definition format_offset (d : dt_value) : result string :=
  match d with
  | DtText EmptyString => Raise (IndexError "string index out of range")
  | DtText _ => Raise (ValueError "Unknown format code 'd' for object of type 'str'")
  | DtParts parts =>
      hours ← item parts 0; minutes ← item parts 1;
      Ok (format_plus0d 3 hours +:+ ":" +:+ format_0d 2 minutes)
  end.

(** [result['ExposureTime']]: seconds as they are, a fraction as ["1/x"]. *)
Definition exposure_time_value (x : literal) : value :=
  match x with
  | LInt z => if 0 <=? z then VInt z else VStr ("1/" +:+ int_str (- z))
  | LFloat x =>
      if PrimFloat.leb 0 x then VFloat x
      else VStr ("1/" +:+ float_repr (PrimFloat.opp x))
  | other => Lit other
  end.

(** The tail of [metadata_get_path]: the [result] dictionary built from
    the variables, in the order of the source. *)
Definition build_result (file_id : option string)
    (file_name file_ext file_relpath file_reldir : string) (f : fields) : result dict :=
  let result : dict := [] in
  (* filename *)
  let result := set_if "Extra:FileID" file_id VStr result in
  let result := dict_set "Extra:FileNameBase" (VStr file_name) result in
  let result := dict_set "Extra:FileNameExtension" (VStr file_ext) result in
  let result := dict_set "Extra:FilePath" (VStr file_relpath) result in
  let result := dict_set "Extra:FileDirectory" (VStr file_reldir) result in
  (* identifiers *)
  let result := set_if "ReelName" (film_id f) VStr result in
  let result := set_if "Extra:FilmID" (film_id f) VStr result in
  let result := set_if "ImageNumber" (film_frame f) VInt result in
  let result := set_if "Extra:FilmFrameNumber" (film_frame f) VInt result in
  let result := set_if "Extra:StripID" (strip_id f) VStr result in
  let result := set_if "Extra:StripFrameNumber" (strip_frame f) VInt result in
  let result := set_if "ImageNumber" (image_number f) VInt result in
  (* image transformations *)
  let result := set_if "ImageTransform:Crop" (crop f)
                       (fun c => Lit (LList (map LInt c))) result in
  let result := set_if "ImageTransform:Enabled" (crop f) (fun _ => VBool true) result in
  let result := set_if "ImageTransform:Rotate" (rotate f) VInt result in
  let result := set_if "ImageTransform:Enabled" (rotate f) (fun _ => VBool true) result in
  let result := set_if "ImageTransform:Flip" (flip f)
                       (fun hv => Lit (LList [LBool (fst hv); LBool (snd hv)])) result in
  let result := set_if "ImageTransform:Enabled" (flip f) (fun _ => VBool true) result in
  let result := set_if "ImageTransform:Compression" (compression f) VStr result in
  let result := set_if "ImageTransform:Enabled" (compression f)
                       (fun _ => VBool true) result in
  (* camera settings *)
  let result := set_if "ExposureTime" (exposure_time f) exposure_time_value result in
  let result := set_if "FNumber" (aperture f) VFloat result in
  let result := set_if "ISO" (iso f) VInt result in
  flash_name ←
    match flash f with
    | Some code => Some <$> enum_lookup exif_flash_enum code
    | None => Ok None
    end;
  let result := set_if "EXIF:Flash" flash_name VStr result in
  orientation_name ←
    match orientation f with
    | Some code => Some <$> enum_lookup exif_orientation_enum code
    | None => Ok None
    end;
  let result := set_if "Orientation" orientation_name VStr result in
  let result := set_if "FocalLength" (lens_focal_length f) VInt result in
  (* environment *)
  let result := set_if "Make" (camera_maker f) VStr result in
  let result := set_if "Model" (camera_model f) VStr result in
  datetime_text ←
    match datetime_original f with
    | Some d => Some <$> format_datetime d
    | None => Ok None
    end;
  let result := set_if "DateTimeOriginal" datetime_text VStr result in
  offset_text ←
    match datetime_original_offset f with
    | Some d => Some <$> format_offset d
    | None => Ok None
    end;
  let result := set_if "OffsetTimeOriginal" offset_text VStr result in
  let result := set_if "GPSLatitude" (gnss_latitude f) VFloat result in
  let result := set_if "GPSLongitude" (gnss_longitude f) VFloat result in
  let result := set_if "GPSAltitude" (gnss_altitude f) VFloat result in
  (* description *)
  let result := set_if "ImageDescription" (image_description f) VStr result in
  let result := set_if "ImageTitle" (image_title f) VStr result in
  let result := set_if "UserComment" (user_comment f) VStr result in
  Ok result.

(** [metadata_get_path(input_path, base_dir)]. The four strings are what
    [pathlib] derives from the two paths: the stem, the suffix without
    its dot, and the file's path and directory relative to [base_dir]. *)
Definition metadata_get_path (file_name file_ext file_relpath file_reldir : string)
  : result dict :=
  '(file_id, metadata) ← split_basename file_name;
  f ← for_each decode_entry (Str.split_char "_" metadata) fields_init;
  build_result file_id file_name file_ext file_relpath file_reldir f.

End DecoderResult.

(** ** The merge policy: [metadata_update] *)

(** The body of [for i in range(len(value_new)):] in the positional
    merge of two sequences. *)
Definition positional_step (value_new value_old : list literal) (i : nat) : list literal :=
  match value_new !! i with
  | Some x =>
      if (i <? length value_old)%nat then <[i := x]> value_old
      else value_old ++ [x]
  | None => value_old
  end.

(** [value_old = list(base[key])] followed by the loop over the indices
    of [value_new]. *)
Definition positional_merge (value_old value_new : list literal) : list literal :=
  fold_left (positional_step value_new) (seq 0 (length value_new)) value_old.

(** The body of [for key, value_new in update.items():] *)
Definition update_item (allow_new_tags : bool) (base : dict) (entry : string * value)
  : dict :=
  let '(key, value_new) := entry in
  match dict_get key base with
  | Some value_base =>
      if tag_iswritable key base then
        match as_sequence value_new, as_sequence value_base with
        | Some (_, items_new), Some (kind, items_old) =>
            dict_set key (make_sequence kind (positional_merge items_old items_new)) base
        | _, _ => dict_set key value_new base
        end
      else base
  | None =>
      if allow_new_tags || Str.startswith key "Extra:" then dict_set key value_new base
      else base
  end.

(** [metadata_update(base, update, allow_new_tags)]: the store [base]
    after the call. *)
Definition metadata_update (base update : dict) (allow_new_tags : bool) : dict :=
  fold_left (update_item allow_new_tags) update base.

(** ** Conditional device rules: [metadata_update_conditional] *)

(** [if tag_iswritable(tag, metadata): metadata[tag] = v] *)
Definition set_if_writable (tag : string) (v : value) (metadata : dict) : dict :=
  if tag_iswritable tag metadata then dict_set tag v metadata else metadata.

(** [x is truthy] for what [exif_flash_fired] returns *)
Definition fired_truthy (r : option bool) : bool := default false r.

Section Conditional.
Context `{PyBuiltins}.

(** [metadata_update_conditional(metadata)]: the store after the call,
    or the exception of [exif_flash_fired]. *)
Definition metadata_update_conditional (metadata : dict) : result dict :=
  if is_str "Panasonic" (dict_get_default "Make" VNone metadata)
     && (is_str "C-D325EF" (dict_get_default "Model" VNone metadata)
         || is_str "C-325EF" (dict_get_default "Model" VNone metadata))
  then
    (* flash built-in automatic *)
    let metadata :=
      if tag_iswritable "EXIF:Flash" metadata
         && match dict_get "EXIF:Flash" metadata with
            | Some (Mark _) => true
            | _ => false
            end
      then dict_set "EXIF:Flash" (VStr (enum_const exif_flash_enum 24)) metadata
      else metadata in
    (* exposure time is fixed to 1/130 seconds *)
    let exposure_time := VStr "1/130" in
    let metadata := set_if_writable "ExposureTime" exposure_time metadata in
    let metadata := set_if_writable "ShutterSpeedValue" exposure_time metadata in
    (* aperture by flash state *)
    fired ←
      match dict_get "EXIF:Flash" metadata return result bool with
      | Some flash => fired_truthy <$> exif_flash_fired flash
      | None => Ok false
      end;
    let aperture_fnumber := if fired : bool then VFloat 5.6 else VFloat 9.0 in
    let metadata := set_if_writable "FNumber" aperture_fnumber metadata in
    let metadata := set_if_writable "ApertureValue" aperture_fnumber metadata in
    (* focal length is fixed to 34mm *)
    let focal_length := VFloat 34.0 in
    let metadata := set_if_writable "FocalLength" focal_length metadata in
    let metadata := set_if_writable "FocalLengthIn35mmFormat" focal_length metadata in
    (* lens is built-in *)
    let metadata :=
      set_if_writable "LensInfo"
        (Lit (LList [LFloat 34.0; LFloat 34.0; LFloat 5.6; LFloat 5.6])) metadata in
    let metadata := set_if_writable "LensMake" (VStr "Panasonic") metadata in
    let metadata :=
      set_if_writable "LensModel"
        (VStr "Built-in, fixed-focus prime lens (1.3m-inf.)") metadata in
    Ok metadata
  else Ok metadata.

End Conditional.

(** ** Auto-fill: [metadata_autofill] *)

(** What [metadata_autofill] observes outside the store: the clock, the
    header of the staged TIFF file and the metadata tool. *)
Record autofill_env : Type := {
  (** [now.strftime("%Y:%m:%d %H:%M:%S")] *)
  now_text : string;
  (** [now.strftime("%z")] *)
  now_offset : string;
  (** [tif.pages[0].imagewidth] of the staged file *)
  tiff_imagewidth : result Z;
  (** [tif.pages[0].imagelength] of the staged file *)
  tiff_imagelength : result Z;
  (** [exif.get_tags(file_path, 'ModifyDate')[0]['EXIF:ModifyDate']] *)
  exif_modify_date : result string;
  (** The [try] block under ['OffsetTimeDigitized'] for a given
      ['CreateDate']: the ["%z"] text of the local zone, [Ok None] when a
      [ValueError] is swallowed, [Raise] for any other exception. *)
  local_offset : string -> result (option string)
}.

Section Autofill.
Context `{PyBuiltins}.

(** [metadata.get(key) == Marker.AUTO] *)
Definition holds_auto (key : string) (metadata : dict) : bool :=
  is_marker AUTO (dict_get_default key VNone metadata).

(** [format(v, '02d')] *)
Definition format_02d (v : value) : result string :=
  match v with
  | Lit (LInt z) => Ok (format_0d 2 z)
  | Lit (LBool b) => Ok (format_0d 2 (if b then 1 else 0))
  | Lit (LFloat _) =>
      Raise (ValueError "Unknown format code 'd' for object of type 'float'")
  | Lit (LStr _) | Mark _ =>
      Raise (ValueError "Unknown format code 'd' for object of type 'str'")
  | Lit _ => Raise (TypeError "unsupported format string")
  end.

(** ["%z"] text [+hhmm] as [+hh:mm] *)
Definition offset_colon (z : string) : string :=
  Str.take 3 z +:+ ":" +:+ Str.drop 3 z.

Definition autofill_document_name (metadata : dict) : result dict :=
  if holds_auto "DocumentName" metadata then
    let film_id := dict_get_default "Extra:FilmID" VNone metadata in
    let film_frame := dict_get_default "Extra:FilmFrameNumber" VNone metadata in
    let strip_id := dict_get_default "Extra:StripID" VNone metadata in
    let strip_frame := dict_get_default "Extra:StripFrameNumber" VNone metadata in
    if is_None film_id || is_None film_frame || is_None strip_id || is_None strip_frame
    then Ok (dict_set "DocumentName" (VStr "") metadata)
    else
      frame ← format_02d film_frame;
      Ok (dict_set "DocumentName"
            (VStr (value_str film_id +:+ "-" +:+ frame +:+ "_S" +:+ value_str strip_id
                   +:+ "-" +:+ value_str strip_frame)) metadata)
  else Ok metadata.

Definition autofill_modify_date (env : autofill_env) (metadata : dict) : dict :=
  if holds_auto "ModifyDate" metadata then
    let metadata := dict_set "ModifyDate" (VStr (now_text env)) metadata in
    if tag_iswritable "OffsetTime" metadata
       && is_marker AUTO (dict_get_default "OffsetTime" VNone metadata)
    then dict_set "OffsetTime" (VStr (offset_colon (now_offset env))) metadata
    else metadata
  else metadata.

Definition autofill_shutter_speed (metadata : dict) : dict :=
  if holds_auto "ShutterSpeedValue" metadata then
    dict_set "ShutterSpeedValue" (dict_get_default "ExposureTime" (Mark SKIP) metadata)
             metadata
  else metadata.

Definition autofill_aperture (metadata : dict) : dict :=
  if holds_auto "ApertureValue" metadata then
    dict_set "ApertureValue" (dict_get_default "FNumber" (Mark SKIP) metadata) metadata
  else metadata.

Definition autofill_image_size (env : autofill_env) (metadata : dict) : result dict :=
  metadata ←
    (if holds_auto "ExifImageWidth" metadata then
       width ← tiff_imagewidth env; Ok (dict_set "ExifImageWidth" (VInt width) metadata)
     else Ok metadata);
  if holds_auto "ExifImageHeight" metadata then
    height ← tiff_imagelength env; Ok (dict_set "ExifImageHeight" (VInt height) metadata)
  else Ok metadata.

Definition autofill_create_date (env : autofill_env) (metadata : dict) : result dict :=
  if holds_auto "CreateDate" metadata then
    modify_date ← exif_modify_date env;
    let create_date := Str.replace "." ":" modify_date in
    let metadata := dict_set "CreateDate" (VStr create_date) metadata in
    if holds_auto "OffsetTimeDigitized" metadata then
      offset ← local_offset env create_date;
      match offset with
      | Some z => Ok (dict_set "OffsetTimeDigitized" (VStr (offset_colon z)) metadata)
      | None => Ok metadata
      end
    else Ok metadata
  else Ok metadata.

(** The sign test and negation that a reference tag applies to a number;
    [allow_int] is whether [int] is among the accepted types. *)
Definition split_sign (allow_int : bool) (v : value) : option (bool * value) :=
  match v with
  | Lit (LFloat x) => Some (PrimFloat.leb 0 x, VFloat (PrimFloat.opp x))
  | Lit (LInt z) => if allow_int then Some (0 <=? z, VInt (- z)) else None
  | Lit (LBool b) =>
      if allow_int then Some (true, VInt (- (if b then 1 else 0))) else None
  | _ => None
  end.

(** A coordinate given as text with a hemisphere letter in front. *)
Definition autofill_from_text (ref_tag tag positive negative : string)
    (text error : string) (metadata : dict) : result dict :=
  if Str.startswith text positive || Str.startswith text negative then
    let metadata := dict_set ref_tag (VStr (Str.take 1 text)) metadata in
    x ← str2float (Str.drop 1 text);
    Ok (dict_set tag (VFloat x) metadata)
  else Raise (ValueError error).

(** A coordinate given as a number: the reference by its sign, the
    number made non-negative. *)
Definition autofill_from_number (ref_tag tag : string) (allow_int : bool)
    (positive negative : value) (v : value) (error : string) (metadata : dict)
  : result dict :=
  match split_sign allow_int v with
  | Some (true, _) => Ok (dict_set ref_tag positive metadata)
  | Some (false, negated) =>
      Ok (dict_set tag negated (dict_set ref_tag negative metadata))
  | None => Raise (ValueError error)
  end.

Definition autofill_latitude (metadata : dict) : result dict :=
  if holds_auto "GPSLatitudeRef" metadata then
    match dict_get_default "GPSLatitude" VNone metadata with
    | Mark _ => Ok (dict_set "GPSLatitudeRef" (Mark SKIP) metadata)
    | Lit (LStr text) =>
        autofill_from_text "GPSLatitudeRef" "GPSLatitude" "N" "S" text
          "Error! GPS latitude can't be parsed." metadata
    | v =>
        autofill_from_number "GPSLatitudeRef" "GPSLatitude" false (VStr "N") (VStr "S") v
          "Error! GPS latitude can't be processed." metadata
    end
  else Ok metadata.

Definition autofill_longitude (metadata : dict) : result dict :=
  if holds_auto "GPSLongitudeRef" metadata then
    match dict_get_default "GPSLongitude" VNone metadata with
    | Mark _ => Ok (dict_set "GPSLongitudeRef" (Mark SKIP) metadata)
    | Lit (LStr text) =>
        autofill_from_text "GPSLongitudeRef" "GPSLongitude" "E" "W" text
          "Error! GPS longitude can't be parsed." metadata
    | v =>
        autofill_from_number "GPSLongitudeRef" "GPSLongitude" true (VStr "E") (VStr "W") v
          "Error! GPS longitude can't be processed." metadata
    end
  else Ok metadata.

Definition autofill_altitude (metadata : dict) : result dict :=
  if holds_auto "GPSAltitudeRef" metadata then
    match dict_get_default "GPSAltitude" VNone metadata with
    | Mark _ => Ok (dict_set "GPSAltitudeRef" (Mark SKIP) metadata)
    | v =>
        autofill_from_number "GPSAltitudeRef" "GPSAltitude" true
          (VStr (enum_const exif_gps_altituderef_enum 0))
          (VStr (enum_const exif_gps_altituderef_enum 1)) v
          "Error! GPS altitude can't be processed." metadata
    end
  else Ok metadata.

Definition autofill_processing_method (metadata : dict) : dict :=
  if holds_auto "GPSProcessingMethod" metadata then
    match dict_get_default "GPSLatitude" (Mark SKIP) metadata,
          dict_get_default "GPSLongitude" (Mark SKIP) metadata with
    | Lit _, Lit _ =>
        dict_set "GPSProcessingMethod"
                 (VStr (enum_const exif_gps_processingmethod_enum 3)) metadata
    | _, _ => dict_set "GPSProcessingMethod" (Mark SKIP) metadata
    end
  else metadata.

(** [metadata_autofill(file_path, metadata)]: the store after the call.
    Each definition above is one [if metadata.get(...) == Marker.AUTO:]
    block of the source, and they run in the source's order. *)
Definition metadata_autofill (env : autofill_env) (metadata : dict) : result dict :=
  metadata ← autofill_document_name metadata;
  let metadata := autofill_modify_date env metadata in
  let metadata := autofill_shutter_speed metadata in
  let metadata := autofill_aperture metadata in
  metadata ← autofill_image_size env metadata;
  metadata ← autofill_create_date env metadata;
  metadata ← autofill_latitude metadata;
  metadata ← autofill_longitude metadata;
  metadata ← autofill_altitude metadata;
  Ok (autofill_processing_method metadata).

End Autofill.

(** ** The per-file driver: [process_file] *)

(** *** The file system and the outside world *)

(** What the tag-writing call has done to a file. *)
Inductive tagging : Type :=
| NotTagged
| ToolFailed (args : list string)
| Tagged (args : list string).

(** A staged or delivered image file: the input it was made from,
    whether its pixels went through [image_transform], and its tagging. *)
Record file : Type := {
  source : string;
  transformed : bool;
  tags : tagging
}.

(** The files that [process_file] creates, by path. *)
Abbreviation filesystem := (gmap string file).

(** Code with effects on the file system: from the state before the call
    to the state after it, with the value returned or the exception
    raised. An exception keeps the effects that came before it. *)
Record io (A : Type) : Type := IO {
  run : filesystem -> filesystem * result A
}.

Arguments IO {A} _.
Arguments run {A} _ _.

#[global] Instance io_ret : MRet io := fun A a => IO (fun fs => (fs, Ok a)).

#[global] Instance io_bind : MBind io := fun A B k m =>
  IO (fun fs =>
        match run m fs with
        | (fs', Ok a) => run (k a) fs'
        | (fs', Raise e) => (fs', Raise e)
        end).

(** A computation without effect on the file system. *)
Definition pure {A : Type} (r : result A) : io A := IO (fun fs => (fs, r)).

(** A file operation whose outcome the world decides: it changes the
    file system only when it succeeds. *)
Definition file_op (outcome : result unit) (change : filesystem -> filesystem) : io unit :=
  IO (fun fs =>
        match outcome with
        | Ok _ => (change fs, Ok tt)
        | Raise e => (fs, Raise e)
        end).

(** What [process_file] calls outside this file, for one input file. *)
Record world (pixel : Type) : Type := {
  (** The temporary path resolved at the top of [process_file]; a
      [FileNotFoundError] when no location is usable. *)
  resolve_temp_path : result string;
  (** [metadata_get_scanner(input_path)] *)
  scanner_metadata : result dict;
  (** [format_nested_dict(image_history_dict)] *)
  format_nested_dict : dict -> result string;
  (** [tifffile.imread(input_path)] *)
  imread : result (ndarray pixel);
  (** [os.makedirs] and [tifffile.imwrite(temp_path, image, ...)] *)
  imwrite : ndarray pixel -> result unit;
  (** The [exiftool] session that copies the tags and the ICC profile of
      the input into the temporary file *)
  restore_tags : result unit;
  (** [os.makedirs] and [shutil.copy(input_path, temp_path)] *)
  copy_file : result unit;
  (** What auto-fill observes *)
  observations : autofill_env;
  (** [path_build(output_path, metadata)] *)
  path_build : string -> dict -> result string;
  (** [os.path.join(os.path.dirname(input_path), path)] *)
  join_input_dir : string -> string;
  (** [os.makedirs] and [shutil.move(temp_path, output_path)] *)
  move_file : result unit;
  (** The path of the metadata tool, [exiftool_exe] *)
  exiftool_exe : string;
  (** [subprocess.run(command, check = True)] *)
  run_exiftool : list string -> result unit
}.

Arguments resolve_temp_path {pixel} _.
Arguments scanner_metadata {pixel} _.
Arguments format_nested_dict {pixel} _ _.
Arguments imread {pixel} _.
Arguments imwrite {pixel} _ _.
Arguments restore_tags {pixel} _.
Arguments copy_file {pixel} _.
Arguments observations {pixel} _.
Arguments path_build {pixel} _ _ _.
Arguments join_input_dir {pixel} _ _.
Arguments move_file {pixel} _.
Arguments exiftool_exe {pixel} _.
Arguments run_exiftool {pixel} _ _.

(** [shutil.move(src, dst)] on the file system *)
Definition fs_move (src dst : string) (fs : filesystem) : filesystem :=
  match fs !! src with
  | Some f => <[dst := f]> (delete src fs)
  | None => fs
  end.

(** The tag-writing call on the file at [path] *)
Definition fs_tag (path : string) (t : tagging) (fs : filesystem) : filesystem :=
  match fs !! path with
  | Some f => <[path := {| source := source f; transformed := transformed f; tags := t |}]> fs
  | None => fs
  end.

(** [subprocess.run(command, check = True)]: the tool rewrites the file
    at [path]; when it exits with an error the state of the file is the
    tool's business and is recorded as [ToolFailed]. *)
Definition tag_file (outcome : result unit) (path : string) (args : list string)
  : io unit :=
  IO (fun fs =>
        match outcome with
        | Ok _ => (fs_tag path (Tagged args) fs, Ok tt)
        | Raise e => (fs_tag path (ToolFailed args) fs, Raise e)
        end).

(** *** [metadata_update_imagehistory] *)

(** [text.split('^', 2)], of which the source uses items 0 and 1 (a
    missing item 1 is [""]). *)
Definition split_history (text : string) : string * string :=
  match Str.split_first "^" text with
  | None => (text, EmptyString)
  | Some (before, rest) =>
      match Str.split_first "^" rest with
      | None => (before, rest)
      | Some (middle, _) => (before, middle)
      end
  end.

(** The two loops that collect the [ImageHistory:] and [Scanner:] tags *)
Definition history_step (prefix : string) (keep_prefix : bool) (acc : dict)
    (entry : string * value) : dict :=
  let '(tag_name, tag_value) := entry in
  if Str.startswith tag_name prefix then
    match tag_value with
    | Mark _ => acc
    | Lit _ =>
        let key := if keep_prefix then tag_name
                   else Str.drop (String.length prefix) tag_name in
        dict_set key tag_value acc
    end
  else acc.

Definition image_history_dict (metadata : dict) : dict :=
  let d := fold_left (history_step "ImageHistory:" false) metadata [] in
  fold_left (history_step "Scanner:" true) metadata d.

Definition metadata_update_imagehistory (format : dict -> result string)
    (metadata : dict) : result dict :=
  match dict_get "ImageHistory" metadata with
  | None => Raise (KeyError "ImageHistory")
  | Some (Lit (LStr text)) =>
      let '(before, after) := split_history text in
      body ← format (image_history_dict metadata);
      Ok (dict_set "ImageHistory" (VStr (before +:+ body +:+ after)) metadata)
  | Some _ => Raise (AttributeError "object has no attribute 'split'")
  end.

(** *** Emission: the arguments of the tag-writing call *)

Definition newline : string := String "010"%char EmptyString.

Definition is_digit (c : ascii) : bool :=
  let n := nat_of_ascii c in (48 <=? n)%nat && (n <=? 57)%nat.

(** A string against a pattern in which [d] stands for one digit and
    any other character for itself. *)
Fixpoint matches_pattern (pattern s : string) : bool :=
  match pattern, s with
  | EmptyString, EmptyString => true
  | String p pattern', String c s' =>
      (if Ascii.eqb p "d" then is_digit c else Ascii.eqb p c)
      && matches_pattern pattern' s'
  | _, _ => false
  end.

(** [datetime_regex.match(s)] for a string without line ends *)
Definition datetime_regex_match (s : string) : bool :=
  matches_pattern "dddd:dd:dd dd:dd:dd" s.

(** What [datetime_regex.match(v)] raises for a [v] that is not a
    string (the message of Python 3.11 and later, which names the
    type). *)
Definition pattern_type_error (v : value) : exn :=
  TypeError ("expected string or bytes-like object, got '" +:+ type_name v +:+ "'").

Definition is_datetime_tag (tag_name : string) : bool :=
  String.eqb tag_name "DateTimeOriginal" || String.eqb tag_name "ModifyDate"
  || String.eqb tag_name "CreateDate".

Section Emission.
Context `{PyBuiltins}.

(** The flattening of a list and the escaping of line ends, at the top
    of the loop body once the markers are dealt with. *)
Definition flatten_value (tag_value : value) : value :=
  let tag_value :=
    match as_sequence tag_value with
    | Some (_, items) =>
        VStr (Str.strip (String.concat "" (map (fun x => literal_str x +:+ " ") items)))
    | None => tag_value
    end in
  match tag_value with
  | Lit (LStr s) => VStr (Str.replace newline "&#xd;&#xa;" s)
  | _ => tag_value
  end.

(** The body of [for tag_name, tag_value in metadata.items():]: the
    argument appended to [args], if any, or the exception raised. *)
Definition exif_arg (tag_name : string) (tag_value : value) : result (option string) :=
  match tag_value with
  | Mark DELETE => Ok (Some ("-" +:+ tag_name +:+ "="))
  | Mark SKIP | Mark OPTIONAL => Ok None
  | Mark MANDATORY =>
      Raise (ValueError ("Error! Mandatory tag '" +:+ tag_name
                         +:+ "' value not assigned."))
  | _ =>
      let tag_value := flatten_value tag_value in
      let regular := Ok (Some ("-" +:+ tag_name +:+ "=" +:+ value_str tag_value)) in
      if is_str "" tag_value then Ok (Some ("-" +:+ tag_name +:+ "^="))
      else if is_datetime_tag tag_name then
        match tag_value with
        | Lit (LStr s) =>
            if datetime_regex_match s && negb (strptime_ok s)
            then Ok (Some ("-" +:+ tag_name +:+ "#=" +:+ s))
            else regular
        | _ => Raise (pattern_type_error tag_value)
        end
      else regular
  end.

(** One turn of the loop on the list [args] *)
Definition exif_args_step (args : list string) (entry : string * value)
  : result (list string) :=
  arg ← exif_arg (fst entry) (snd entry);
  Ok (match arg with Some a => args ++ [a] | None => args end).

(** The whole argument list: the two options, one argument per emitted
    tag, and the path of the file. *)
Definition exif_args (metadata : dict) (output_path : string) : result (list string) :=
  args ← for_each exif_args_step metadata ["-E"; "-overwrite_original"];
  Ok (args ++ [output_path]).

End Emission.

(** *** [process_file] *)

Definition stripped_prefixes : list string :=
  ["ImageTransform:"; "Script:"; "Scanner:"; "ImageHistory:"; "Extra:"].

(** [v[i]] for a transform parameter. Only lists and tuples are indexed
    here: any other object ends in a [TypeError], at this point or, for
    a string, at the first comparison inside [image_transform]. *)
Definition sequence_item (v : value) (i : nat) : result value :=
  match as_sequence v with
  | Some (_, items) =>
      match items !! i with
      | Some x => Ok (Lit x)
      | None => Raise (IndexError "list index out of range")
      end
  | None => Raise (TypeError "object is not subscriptable")
  end.

(** A crop component as the integer that [image_transform] computes
    with; numpy refuses to slice with anything else. *)
Definition int_argument (v : value) : result Z :=
  match as_int v with
  | Some z => Ok z
  | None => Raise (TypeError "slice indices must be integers")
  end.

(** The rotation angle: [None] or an integer (a float angle is not
    modelled and is refused like the other types). *)
Definition angle_argument (v : value) : result (option Z) :=
  match v with
  | Lit LNone => Ok None
  | _ => match as_int v with
         | Some z => Ok (Some z)
         | None => Raise (TypeError "unsupported operand type(s) for %")
         end
  end.

Section ProcessFile.
Context `{PyBuiltins} {pixel : Type}.

(** The [if metadata.pop('ImageTransform:Enabled', False):] branch: the
    transformed image is written to the temporary path and the tags of
    the input are restored into it. *)
Definition stage_transformed (w : world pixel) (input_path temp_path : string)
    (metadata : dict) : io dict :=
  let '(crop, metadata) :=
    dict_pop "ImageTransform:Crop" (Lit (LList [LInt 0; LInt 0; LInt 0; LInt 0]))
             metadata in
  let '(rotate, metadata) := dict_pop "ImageTransform:Rotate" (VInt 0) metadata in
  let '(flip, metadata) :=
    dict_pop "ImageTransform:Flip" (Lit (LList [LBool false; LBool false])) metadata in
  let '(_, metadata) :=
    dict_pop "ImageTransform:Compression" (Lit (LList [LStr "none"; LNone])) metadata in
  image ← pure (imread w);
  image ← pure (
    crop_left ← sequence_item crop 0 ≫= int_argument;
    crop_top ← sequence_item crop 1 ≫= int_argument;
    crop_width ← sequence_item crop 2 ≫= int_argument;
    crop_height ← sequence_item crop 3 ≫= int_argument;
    flip_horizontal ← sequence_item flip 0;
    flip_vertical ← sequence_item flip 1;
    rotate_cw ← angle_argument rotate;
    image_transform image crop_left crop_top crop_width crop_height rotate_cw
                    (Some (truthy flip_horizontal)) (Some (truthy flip_vertical)));
  _ ← file_op (imwrite w image)
        (<[temp_path := {| source := input_path; transformed := true;
                           tags := NotTagged |}]>);
  _ ← pure (restore_tags w);
  mret metadata.

(** The [else] branch: the input is copied to the temporary path. *)
Definition stage_copied (w : world pixel) (input_path temp_path : string)
    (metadata : dict) : io dict :=
  _ ← file_op (copy_file w)
        (<[temp_path := {| source := input_path; transformed := false;
                           tags := NotTagged |}]>);
  mret metadata.

(** [process_file] from its start to [shutil.move]: the resolved store
    and the final output path, with the staged file moved there. *)
Definition stage_file (w : world pixel) (input_path output_path : string)
    (metadata : dict) : io (dict * string) :=
  temp_path ← pure (resolve_temp_path w);
  metadata_scanner ← pure (scanner_metadata w);
  let metadata := metadata_update metadata metadata_scanner true in
  metadata ← pure (
    if tag_iswritable "ImageHistory" metadata
    then metadata_update_imagehistory (format_nested_dict w) metadata
    else Ok metadata);
  metadata ← pure (metadata_update_conditional metadata);
  let '(enabled, metadata) := dict_pop "ImageTransform:Enabled" (VBool false) metadata in
  metadata ←
    (if truthy enabled then stage_transformed w input_path temp_path metadata
     else stage_copied w input_path temp_path metadata);
  metadata ← pure (metadata_autofill (observations w) metadata);
  output_path ← pure (path_build w output_path metadata);
  let output_path := join_input_dir w output_path in
  _ ← file_op (move_file w) (fs_move temp_path output_path);
  mret (metadata, output_path).

(** The emission at the end of [process_file]: the arguments are built
    from the store (terminal validation happens in that loop) and the
    metadata tool is run on the file at the output path. *)
Definition emit_tags (w : world pixel) (metadata : dict) (output_path : string)
  : io string :=
  args ← pure (exif_args metadata output_path);
  _ ← tag_file (run_exiftool w (exiftool_exe w :: args)) output_path args;
  mret output_path.

(** [process_file] after [shutil.move]: the internal tags are stripped
    from the store, and what is left is emitted. *)
Definition write_exif (w : world pixel) (metadata : dict) (output_path : string)
  : io string :=
  emit_tags w (delete_keys_with_prefixes metadata stripped_prefixes) output_path.

(** [process_file(input_path, output_path, metadata, temp_dir)] *)
Definition process_file (w : world pixel) (input_path output_path : string)
    (metadata : dict) : io string :=
  '(metadata, output_path) ← stage_file w input_path output_path metadata;
  write_exif w metadata output_path.

End ProcessFile.

(** ** [crop-finder.py]: the crop box written into the file name *)

(** A cell of a crop-data row: an integer when the row comes from the
    search of the same run, text when it was read from a CSV file. *)
Inductive cell : Type :=
| CInt (z : Z)
| CStr (s : string).

(** The truth value of a cell, as [all([...])] tests it. *)
Definition cell_truthy (c : cell) : bool :=
  match c with
  | CInt z => negb (z =? 0)
  | CStr s => Str.nonempty s
  end.

(** [f"_C{left}-{top}-{width}-{height}"] *)
Definition crop_suffix (left top width height : Z) : string :=
  "_C" +:+ int_str left +:+ "-" +:+ int_str top +:+ "-" +:+ int_str width
  +:+ "-" +:+ int_str height.

Section CropName.
Context `{PyBuiltins}.

(** [int(c)]; [None] stands for the [ValueError] it raises. *)
Definition cell_int (c : cell) : option Z :=
  match c with
  | CInt z => Some z
  | CStr s => py_int s
  end.

(** The body of the loop of [rename_files_from_data] for a file that has
    a crop row: [new_name], built from [file_path.stem] and
    [file_path.suffix], or [None] when the row is refused and the file
    keeps its name. *)
Definition rename_name (stem suffix : string) (left top width height : cell)
  : option string :=
  if negb (forallb cell_truthy [left; top; width; height]) then None
  else
    match cell_int left, cell_int top, cell_int width, cell_int height with
    | Some l, Some t, Some w, Some h =>
        if (l <? 0) || (t <? 0) || (w <=? 0) || (h <=? 0) then None
        else
          let crop := crop_suffix l t w h in
          let crop := if negb (Str.contains "__" stem) then "_" +:+ crop else crop in
          Some (stem +:+ crop +:+ suffix)
    | _, _, _, _ => None
    end.

End CropName.

(** The characters [c] of [s] while [is_digit c] *)
Fixpoint drop_digits (s : string) : string :=
  match s with
  | String a s' => if is_digit a then drop_digits s' else s
  | EmptyString => EmptyString
  end.

(** [\d+] at the front of [s]: the text after the longest run of
    digits, [None] when [s] does not start with a digit. *)
Definition match_digits (s : string) : option string :=
  match s with
  | String a s' => if is_digit a then Some (drop_digits s') else None
  | EmptyString => None
  end.

(** One literal character at the front of [s] *)
Definition match_char (c : ascii) (s : string) : option string :=
  match s with
  | String a s' => if Ascii.eqb a c then Some s' else None
  | EmptyString => None
  end.

(** A match of [_C\d+-\d+-\d+-\d+] at the front of [s]: the text after
    it. No digit run is followed by a digit, so the greedy match is the
    only one. *)
Definition match_crop_pattern (s : string) : option string :=
  s ← match_char "_" s;
  s ← match_char "C" s;
  s ← match_digits s;
  s ← match_char "-" s;
  s ← match_digits s;
  s ← match_char "-" s;
  s ← match_digits s;
  s ← match_char "-" s;
  match_digits s.

(** [pattern.sub("", s)]: the matches are found left to right and
    removed. A step consumes at least one character, so [String.length s]
    steps are enough. *)
Fixpoint pattern_sub (steps : nat) (s : string) : string :=
  match steps with
  | O => s
  | S steps' =>
      match match_crop_pattern s with
      | Some rest => pattern_sub steps' rest
      | None =>
          match s with
          | String a s' => String a (pattern_sub steps' s')
          | EmptyString => EmptyString
          end
      end
  end.

(** The body of the loop of [unname_files]: the new stem of the file, or
    [None] when the file keeps its name. *)
Definition unname_stem (stem : string) : option string :=
  let new_stem := pattern_sub (String.length stem) stem in
  if String.eqb new_stem stem then None
  else Some (if Str.endswith_char "_" new_stem then Str.drop_last new_stem
             else new_stem).

(** ** [crop-finder.py]: the box of the crop mask *)

(** An integer sample type of numpy, by the range that [np.iinfo]
    gives for it. *)
Record int_dtype : Type := {
  dtype_name : string;
  iinfo_min : Z;
  iinfo_max : Z
}.

Definition uint8 : int_dtype :=
  {| dtype_name := "uint8"; iinfo_min := 0; iinfo_max := 255 |}.
Definition uint16 : int_dtype :=
  {| dtype_name := "uint16"; iinfo_min := 0; iinfo_max := 65535 |}.

(** An image as [tifffile.imread] returns it, with integer samples of
    the type [dtype]: two axes, or three axes with [shape2] samples per
    pixel. *)
Inductive image_array : Type :=
| Gray (dtype : int_dtype) (a : ndarray Z)
| Color (dtype : int_dtype) (a : ndarray (list Z)) (shape2 : Z).

(** [cropped_img_array.dtype] *)
Definition array_dtype (image : image_array) : int_dtype :=
  match image with
  | Gray dtype _ | Color dtype _ _ => dtype
  end.

(** [np.array([c], dtype=dtype)[0]] for a Python integer [c], as
    NumPy 2 converts it: an integer outside the range of the type
    raises. NumPy 1 wraps such an integer around instead. *)
Definition numpy2_scalar (dtype : int_dtype) (c : Z) : result Z :=
  if (iinfo_min dtype <=? c) && (c <=? iinfo_max dtype) then Ok c
  else Raise (OverflowError ("Python integer " +:+ int_str c +:+ " out of bounds for "
                             +:+ dtype_name dtype)).

(** Whether numpy compares a last axis of length [n] with a vector of
    length [k]: equal lengths, or one of them 1, which is stretched. *)
Definition broadcasts (n k : Z) : bool := (n =? k) || (n =? 1) || (k =? 1).

(** [np.all(cells == crop_color)] for the samples [cells] along the last
    axis, once the lengths are known to go together. *)
Definition all_equal (cells crop_color : list Z) : bool :=
  match cells, crop_color with
  | [x], _ => forallb (Z.eqb x) crop_color
  | _, [c] => forallb (fun x => x =? c) cells
  | _, _ => forallb (fun xc => fst xc =? snd xc) (combine cells crop_color)
  end.

(** The items of a list with their indices *)
Definition indexed {B : Type} (l : list B) : list (Z * B) :=
  imap (fun i x => (Z.of_nat i, x)) l.

(** [np.where(mask)] for a mask of two axes: the row and the column of
    every true entry, row by row. *)
Definition coordinates (mask : list (list bool)) : list (Z * Z) :=
  '(y, row) ← indexed mask;
  '(x, b) ← indexed row;
  if b : bool then [(y, x)] else [].

(** [l.min()] and [l.max()] of a non-empty array *)
Definition minimum (l : list Z) : Z :=
  match l with
  | [] => 0
  | x :: l' => foldr Z.min x l'
  end.

Definition maximum (l : list Z) : Z :=
  match l with
  | [] => 0
  | x :: l' => foldr Z.max x l'
  end.

(** [x % m] on numpy integers: a zero divisor gives 0 and a warning. *)
Definition np_remainder (x m : Z) : Z := if m =? 0 then 0 else x mod m.

Section CropBox.

(** [np.array([c], dtype=dtype)[0]] of the NumPy at hand, for a Python
    integer [c]: [c] itself when it lies in the range of the type;
    outside of it NumPy 1 wraps around and NumPy 2 raises. *)
Variable np_scalar : int_dtype -> Z -> result Z.

(** [find_crop_box(cropped_img_array, crop_color)]. The components of
    [crop_color] are first converted to the sample type of the array.
    [Ok None] is the [None] returned when no entry of the mask is true.
    A mask of one axis, which an image of two axes gives, makes
    [np.where] return one array where two are unpacked. *)
Definition find_crop_box (cropped_img_array : image_array) (crop_color : list Z)
  : result (option (Z * Z * Z * Z)) :=
  crop_color ← map_result (np_scalar (array_dtype cropped_img_array)) crop_color;
  let k := Z.of_nat (length crop_color) in
  match cropped_img_array with
  | Gray _ a =>
      if negb (broadcasts (shape1 a) k) then
        Raise (ValueError "operands could not be broadcast together")
      else
        let mask := map (fun row => all_equal row crop_color) (rows a) in
        if negb (existsb id mask) then Ok None
        else Raise (ValueError "not enough values to unpack (expected 2, got 1)")
  | Color _ a shape2 =>
      if negb (broadcasts shape2 k) then
        Raise (ValueError "operands could not be broadcast together")
      else
        let mask := map (map (fun pixel => all_equal pixel crop_color)) (rows a) in
        if negb (existsb (existsb id) mask) then Ok None
        else
          let ys := map fst (coordinates mask) in
          let xs := map snd (coordinates mask) in
          let top := minimum ys in
          let bottom := maximum ys in
          let left := minimum xs in
          let right := maximum xs in
          Ok (Some (left, top, right - left + 1, bottom - top + 1))
  end.

(** The body of the loop of [process_directory] once the image is read:
    the cells [left, top, width, height, status] of its row. The sample
    type is an integer type, so [max_value] is [np.iinfo(dtype).max].
    Whatever is raised on the way is caught and gives the row of an
    error. *)
Definition crop_data_row (cropped_array : image_array) (crop_color : list Z)
    (check_multiple : Z) : Z * Z * Z * Z * string :=
  let error := (-1, -1, -1, -1, "error") in
  let channels_fit :=
    match cropped_array with
    | Gray _ _ => (length crop_color =? 1)%nat
    | Color _ _ shape2 => (shape2 =? 3) && (length crop_color =? 3)%nat
    end in
  if negb channels_fit then error
  else
    let max_value := iinfo_max (array_dtype cropped_array) in
    if negb (forallb (fun c => (0 <=? c) && (c <=? max_value)) crop_color) then error
    else
      match find_crop_box cropped_array crop_color with
      | Raise _ => error
      | Ok None => (-1, -1, -1, -1, "!found")
      | Ok (Some (l, t, w, h)) =>
          let status :=
            if negb (np_remainder w check_multiple =? 0)
               || negb (np_remainder h check_multiple =? 0)
            then "!mult" +:+ int_str check_multiple
            else "ok" in
          (l, t, w, h, status)
      end.

End CropBox.

(** ** Output paths: [path_sanitize_variable] and [path_build] *)

(** The character class of the pattern of [path_sanitize_variable]:
    the control characters (codes 0 to 31) and nine characters of
    punctuation, of which character 034 is the double quote. *)
Definition is_unsafe_path_char (a : ascii) : bool :=
  (nat_of_ascii a <=? 31)%nat
  || existsb (Ascii.eqb a) ["<"; ">"; ":"; "034"; "/"; "\"; "|"; "?"; "*"]%char.

(** The replacement of one character by [re.sub(pattern, '_', ...)] *)
Definition sanitize_char (a : ascii) : ascii :=
  if is_unsafe_path_char a then "_"%char else a.

(** [re.sub(pattern, '_', s.strip())] *)
Definition sanitize_text (s : string) : string :=
  Str.map_chars sanitize_char (Str.strip s).

(** [path_sanitize_variable(key, value, max_length)]. The truncation to
    [max_length] is assigned to [value], which is not read afterwards.
    The result for a list or a tuple is a list. *)
Definition path_sanitize_variable (key : string) (v : value) (max_length : option Z)
  : value :=
  if Str.startswith key "Extra:File" then v
  else
    match v with
    | Lit (LStr s) =>
        let result := sanitize_text s in
        let _value :=
          match max_length with Some n => Str.slice_to n s | None => s end in
        VStr result
    | Lit LNone => VStr "None"
    | Lit (LList items) | Lit (LTuple items) =>
        Lit (LList (map (fun x => match x with
                                  | LStr s => LStr (sanitize_text s)
                                  | _ => x
                                  end) items))
    | Mark m => VStr (sanitize_text (marker_str m))
    | _ => v
    end.

Definition is_ascii_letter (a : ascii) : bool :=
  let n := nat_of_ascii a in
  ((65 <=? n)%nat && (n <=? 90)%nat) || ((97 <=? n)%nat && (n <=? 122)%nat).

(** [re.sub(r'([A-Za-z]):(?=[\\/])', r'\1__DRIVELETTERCOLON__', path)] *)
Fixpoint mark_drive_letters (path : string) : string :=
  match path with
  | EmptyString => EmptyString
  | String a rest =>
      match rest with
      | String c (String b _ as after) =>
          if is_ascii_letter a && Ascii.eqb c ":"
             && (Ascii.eqb b "/" || Ascii.eqb b "\")
          then String a ("__DRIVELETTERCOLON__" +:+ mark_drive_letters after)
          else String a (mark_drive_letters rest)
      | _ => String a (mark_drive_letters rest)
      end
  end.

(** The template as [format_map] receives it: the colons that are not
    a drive letter's become [_cln_], the question marks become colons. *)
Definition path_template (path : string) : string :=
  let path := mark_drive_letters path in
  let path := Str.replace ":" "_cln_" path in
  let path := Str.replace "__DRIVELETTERCOLON__" ":" path in
  Str.replace "?" ":" path.

(** [metadata_sanitized], the dictionary comprehension *)
Definition path_variables (metadata : dict) (max_value_length : option Z) : dict :=
  fold_left (fun d entry =>
               dict_set (Str.replace ":" "_cln_" (fst entry))
                        (path_sanitize_variable (fst entry) (snd entry) max_value_length)
                        d)
            metadata [].

(** The trimming of the formatted path at the end of [path_build] *)
Definition trim_total_length (max_total_length : option Z) (path : string)
  : result string :=
  match max_total_length with
  | None => Ok path
  | Some n =>
      if n <? Z.of_nat (String.length path) then
        if Str.contains "." path then
          match Str.rsplit1 "." path with
          | [name; ext] =>
              Ok (Str.slice_to (n - Z.of_nat (String.length ext) - 1) name
                  +:+ "." +:+ ext)
          | _ => Raise (ValueError "not enough values to unpack (expected 2, got 1)")
          end
        else Ok (Str.slice_to n path)
      else Ok path
  end.

Module Path.
Section PathBuild.

(** [template.format_map(SafeDict(variables, missing_value))] *)
Variable format_map : string -> dict -> string -> result string.

(** [path_build(path, metadata, max_total_length, max_value_length,
    missing_value)] *)
Definition path_build (path : string) (metadata : dict)
    (max_total_length max_value_length : option Z) (missing_value : string)
  : result string :=
  formatted ←
    format_map (path_template path) (path_variables metadata max_value_length)
               missing_value;
  trim_total_length max_total_length formatted.

End PathBuild.
End Path.

(** ** The layering of [main] *)

(** [not metadata_dir.get('Script:LockTagList', False)] *)
Definition tag_list_open (metadata_dir : dict) : bool :=
  negb (truthy (dict_get_default "Script:LockTagList" (VBool false) metadata_dir)).

Section Layering.
Context `{PyBuiltins}.

(** [metadata_update(metadata_dir, metadata_get_file(metafile), not
    metadata_dir.get('Script:LockTagList', False))] for a metadata file
    that exists: [lines] is what the file yields, [None] when it cannot
    be read, in which case [metadata_update] is handed [None]. *)
Definition update_from_metafile (metadata_dir : dict) (lines : option (list string))
  : result dict :=
  match metadata_get_file lines true with
  | Some update => Ok (metadata_update metadata_dir update (tag_list_open metadata_dir))
  | None => Raise (AttributeError "'NoneType' object has no attribute 'items'")
  end.

(** [metadata_dir] of a directory: a copy of the defaults, updated from
    the metadata files that exist along the chain from the base
    directory to this one (or from the one file of an absolute path). *)
Definition directory_metadata (metafiles : list (option (list string))) : result dict :=
  for_each update_from_metafile metafiles metadata_default.

(** [metadata_file], the store that [main] hands to [process_file]: a
    copy of [metadata_dir] updated from the name of the file. *)
Definition file_metadata (metafiles : list (option (list string)))
    (file_name file_ext file_relpath file_reldir : string) : result dict :=
  metadata_dir ← directory_metadata metafiles;
  update ← metadata_get_path file_name file_ext file_relpath file_reldir;
  Ok (metadata_update metadata_dir update (tag_list_open metadata_dir)).

End Layering.

(** ** The loops of [main] *)

(** A file that [os.walk] lists in a directory. *)
Record input_file (pixel : Type) : Type := {
  (** [any(fnmatch.fnmatch(filename, pat) for pat in wildcards)] *)
  in_matches : bool;
  (** [input_path = current_path / filename] *)
  in_path : string;
  (** What [metadata_get_path] derives from [input_path] and [base_dir] *)
  in_name : string;
  in_ext : string;
  in_relpath : string;
  in_reldir : string;
  (** What [process_file] calls outside the script for this file *)
  in_world : world pixel
}.

Arguments in_matches {pixel} _.
Arguments in_path {pixel} _.
Arguments in_name {pixel} _.
Arguments in_ext {pixel} _.
Arguments in_relpath {pixel} _.
Arguments in_reldir {pixel} _.
Arguments in_world {pixel} _.

(** A directory that [os.walk] visits. *)
Record input_dir (pixel : Type) : Type := {
  (** [dir_depth >= 0 and depth > dir_depth] *)
  dir_too_deep : bool;
  (** The metadata files that exist along the chain of the directory,
      or the one file of an absolute path: what each yields, [None]
      when it cannot be read *)
  dir_metafiles : list (option (list string));
  dir_files : list (input_file pixel)
}.

Arguments dir_too_deep {pixel} _.
Arguments dir_metafiles {pixel} _.
Arguments dir_files {pixel} _.

(** [for x in xs: body(x)] with effects on the file system: nothing
    catches what the body raises. *)
Fixpoint io_for_each {A : Type} (body : A -> io unit) (xs : list A) : io unit :=
  match xs with
  | [] => mret tt
  | x :: xs' => _ ← body x; io_for_each body xs'
  end.

Section MainLoops.
Context `{PyBuiltins} {pixel : Type}.

(** The body of [for filename in files:]. The call of [process_file]
    stands in no [try]. *)
Definition main_file (metadata_dir : dict) (output_path : string)
    (file : input_file pixel) : io unit :=
  if in_matches file then
    update ← pure (metadata_get_path (in_name file) (in_ext file) (in_relpath file)
                                     (in_reldir file));
    let metadata_file := metadata_update metadata_dir update (tag_list_open metadata_dir) in
    _ ← process_file (in_world file) (in_path file) output_path metadata_file;
    mret tt
  else mret tt.

(** The body of [for root, dirs, files in os.walk(base_dir):] *)
Definition main_directory (output_path : string) (dir : input_dir pixel) : io unit :=
  if dir_too_deep dir then mret tt
  else
    metadata_dir ← pure (directory_metadata (dir_metafiles dir));
    io_for_each (main_file metadata_dir output_path) (dir_files dir).

(** The walk of [main] over the directories below [base_dir] *)
Definition main_walk (output_path : string) (dirs : list (input_dir pixel)) : io unit :=
  io_for_each (main_directory output_path) dirs.

End MainLoops.

(** ** [scandata-lister.py]: the table of [write_csv]

    [write_csv] collects the keys of all items in order of first
    appearance, moves [File] to the front and hands [csv.writer] the
    header and one row per item. The model stops at the rows handed to
    the writer. *)

(** The body of the inner loop: [if key in columns: continue], then
    [columns.append(key)]. *)
Definition csv_add_key (columns : list string) (key : string) : list string :=
  if existsb (String.eqb key) columns then columns else columns ++ [key].

Definition csv_collect (data : list dict) : list string :=
  fold_left (fun columns item => fold_left csv_add_key (map fst item) columns) data [].

(** [list.index]: the place of the first occurrence, if any. *)
Fixpoint list_index (x : string) (l : list string) : option nat :=
  match l with
  | [] => None
  | y :: l' => if String.eqb y x then Some 0%nat else S <$> list_index x l'
  end.

(** [columns.insert(0, columns.pop(columns.index('File')))] under
    [if 'File' in columns]; the test holds exactly when [index] finds a
    place, at which [pop] finds an entry. *)
Definition csv_file_first (columns : list string) : list string :=
  if existsb (String.eqb "File") columns then
    match list_index "File" columns with
    | Some i =>
        match columns !! i with
        | Some popped => popped :: delete i columns
        | None => columns
        end
    | None => columns
    end
  else columns.

Definition csv_columns (data : list dict) : list string :=
  csv_file_first (csv_collect data).

(** One row: [item.get(column, '')] for each column. *)
Definition csv_row (columns : list string) (item : dict) : list value :=
  map (fun column => dict_get_default column (VStr "") item) columns.

(** What [write_csv] passes to [writer.writerow], the header apart. *)
Definition csv_rows (data : list dict) : list (list value) :=
  map (csv_row (csv_columns data)) data.

(** ** A sample run-time for examples

    An instance of [PyBuiltins] on which the model can be evaluated. It
    covers what the examples below use: [int] and [float] on ASCII
    decimal text, [ast.literal_eval] on numbers and the three constant
    names, and [repr] on the float constants of the source. The theorems
    hold for every instance and do not depend on this one. *)

Module Sample.

Definition digit_value (c : ascii) : option Z :=
  if is_digit c then Some (Z.of_nat (nat_of_ascii c) - 48) else None.

(** The number written by a non-empty string of digits *)
Fixpoint digits_from (acc : Z) (s : string) : option Z :=
  match s with
  | EmptyString => Some acc
  | String c s' =>
      match digit_value c with
      | Some d => digits_from (10 * acc + d) s'
      | None => None
      end
  end.

Definition digits (s : string) : option Z :=
  if Str.nonempty s then digits_from 0 s else None.

(** An optional sign in front of [body] *)
Definition signed {B : Type} (body : string -> option B) (negate : B -> B) (s : string)
  : option B :=
  if Str.startswith s "-" then negate <$> body (Str.drop 1 s)
  else if Str.startswith s "+" then body (Str.drop 1 s)
  else body s.

Definition int_of_text (s : string) : option Z := signed digits Z.opp s.

(** A positive integer as a float, exact below [2^53] *)
Fixpoint float_of_positive (p : positive) : float :=
  match p with
  | xH => 1%float
  | xO p' => (2 * float_of_positive p')%float
  | xI p' => (2 * float_of_positive p' + 1)%float
  end.

Definition float_of_natural (z : Z) : float :=
  match z with
  | Zpos p => float_of_positive p
  | _ => 0%float
  end.

(** [digits[.digits]]: the quotient of two exact floats is the nearest
    binary64 to the decimal, as [float] returns it. *)
Definition unsigned_float (s : string) : option float :=
  match Str.split_first "." s with
  | None => float_of_natural <$> digits s
  | Some (whole, fraction) =>
      w ← digits whole;
      (if Str.nonempty fraction then
         fr ← digits fraction;
         let scale := 10 ^ Z.of_nat (String.length fraction) in
         Some (float_of_natural (w * scale + fr) / float_of_natural scale)%float
       else Some (float_of_natural w))
  end.

Definition float_of_text (s : string) : option float :=
  signed unsigned_float PrimFloat.opp s.

Definition literal_of_text (s : string) : option literal :=
  match int_of_text s with
  | Some z => Some (LInt z)
  | None =>
      match float_of_text s with
      | Some x => Some (LFloat x)
      | None =>
          if String.eqb s "True" then Some (LBool true)
          else if String.eqb s "False" then Some (LBool false)
          else if String.eqb s "None" then Some LNone
          else None
      end
  end.

Definition repr_of_float (x : float) : string :=
  if PrimFloat.eqb x 5.6 then "5.6"
  else if PrimFloat.eqb x 9.0 then "9.0"
  else if PrimFloat.eqb x 34.0 then "34.0"
  else if PrimFloat.eqb x 2.8 then "2.8"
  else "float".

Definition repr_of_text (s : string) : string := "'" +:+ s +:+ "'".

(** The numbers written at the six digit groups of a text that matches
    the date-time pattern *)
Definition field (s : string) (start len : nat) : Z :=
  default 0 (digits (Str.take len (Str.drop start s))).

Definition days_in_month (year month : Z) : Z :=
  if (month =? 4) || (month =? 6) || (month =? 9) || (month =? 11) then 30
  else if month =? 2 then
    if ((year mod 4 =? 0) && negb (year mod 100 =? 0)) || (year mod 400 =? 0)
    then 29 else 28
  else 31.

Definition strptime_accepts (s : string) : bool :=
  let year := field s 0 4 in
  let month := field s 5 2 in
  let day := field s 8 2 in
  datetime_regex_match s
  && (1 <=? year) && (1 <=? month) && (month <=? 12)
  && (1 <=? day) && (day <=? days_in_month year month)
  && (field s 11 2 <=? 23) && (field s 14 2 <=? 59) && (field s 17 2 <=? 61).

#[global] Instance builtins : PyBuiltins := {|
  py_int := int_of_text;
  py_float := float_of_text;
  literal_eval := literal_of_text;
  float_repr := repr_of_float;
  str_repr := repr_of_text;
  strptime_ok := strptime_accepts
|}.

End Sample.

(** ** Notions used in the statements below *)

(** The code of the EXIF flash enumeration that an input denotes: an
    integer that is a key of the enumeration (a boolean counts as the
    integer it equals), or a string that is one of its names. *)
Definition flash_code (v : value) : option Z :=
  match v with
  | Lit (LInt z) => if enum_has exif_flash_enum z then Some z else None
  | Lit (LBool b) => Some (if b then 1 else 0)
  | Lit (LStr s) => enum_key_of exif_flash_enum s
  | _ => None
  end.

(** The enumeration codes that none of the three tuples lists. *)
Definition exif_flash_enum_unlisted : list Z := [13; 15; 80].

(** What one merge step writes under its key, given what the store
    holds there; [None] when the step leaves the store alone. *)
Definition update_value (allow_new_tags : bool) (current : option value)
    (key : string) (value_new : value) : option value :=
  match current with
  | Some value_base =>
      if negb (is_marker SKIP value_base) && negb (is_marker DELETE value_base) then
        match as_sequence value_new, as_sequence value_base with
        | Some (_, items_new), Some (kind, items_old) =>
            Some (make_sequence kind (positional_merge items_old items_new))
        | _, _ => Some value_new
        end
      else None
  | None =>
      if allow_new_tags || Str.startswith key "Extra:" then Some value_new else None
  end.

(** The values that the emission loop can pass through the date-time
    pattern: text, sequences (flattened to text first) and the markers
    handled before the pattern is tried. *)
Definition text_like (v : value) : bool :=
  match v with
  | Lit (LStr _) | Lit (LList _) | Lit (LTuple _) => true
  | Mark DELETE | Mark SKIP | Mark OPTIONAL => true
  | _ => false
  end.

(** A raster of two rows and two columns. *)
Definition raster_2x2 : ndarray Z :=
  {| shape0 := 2; shape1 := 2; rows := [[1; 2]; [3; 4]] |}.

(** What a sample run observes: a clock, a 4x3 image header and the
    scan date kept by the metadata tool. *)
Definition sample_observations : autofill_env :=
  {| now_text := "2025:06:19 10:00:00";
     now_offset := "+0300";
     tiff_imagewidth := Ok 4;
     tiff_imagelength := Ok 3;
     exif_modify_date := Ok "2025:06:01 09:00:00";
     local_offset := fun _ => Ok (Some "+0300") |}.

(** A sample world in which every outside call succeeds: the input is
    copied or transformed, the template is taken as the output name and
    the output goes next to the input. *)
Definition sample_world : world Z :=
  {| resolve_temp_path := Ok "out/roll.tmp";
     scanner_metadata := Ok [];
     format_nested_dict := fun _ => Ok EmptyString;
     imread := Ok raster_2x2;
     imwrite := fun _ => Ok tt;
     restore_tags := Ok tt;
     copy_file := Ok tt;
     observations := sample_observations;
     path_build := fun template _ => Ok template;
     join_input_dir := fun path => "in/" +:+ path;
     move_file := Ok tt;
     exiftool_exe := "exiftool";
     run_exiftool := fun _ => Ok tt |}.

(** The text of the four numbers of a crop token, [<l>-<t>-<w>-<h>] *)
Definition crop_payload (l t w h : Z) : string :=
  int_str l +:+ "-" +:+ int_str t +:+ "-" +:+ int_str w +:+ "-" +:+ int_str h.

(** Any character but the underscore *)
Definition no_underscore (a : ascii) : bool := negb (Ascii.eqb a "_").

(** The pixel in row [y] and column [x] of an image, if there is one *)
Definition pixel_at (a : ndarray (list Z)) (y x : Z) : option (list Z) :=
  if (0 <=? y) && (0 <=? x)
  then rows a !! Z.to_nat y ≫= (fun row => row !! Z.to_nat x)
  else None.

(** The characters that open the operators [=], [^=] and [#=] of an
    argument of the metadata tool *)
Definition is_operator_char (a : ascii) : bool :=
  Ascii.eqb a "=" || Ascii.eqb a "^" || Ascii.eqb a "#".

(** The mask of [find_crop_box] for an image of three axes *)
Definition color_mask (a : ndarray (list Z)) (crop_color : list Z) : list (list bool) :=
  map (map (fun pixel => all_equal pixel crop_color)) (rows a).

(** Every pixel has [shape2] samples. *)
Definition pixels_of_size (shape2 : Z) (a : ndarray (list Z)) : Prop :=
  Forall (Forall (fun pixel => Z.of_nat (length pixel) = shape2)) (rows a).

(** A colour image of two rows and three columns; black is the crop
    colour of the two pixels on the right of the first row and of the
    middle pixel of the second. *)
Definition masked_2x3 : ndarray (list Z) :=
  {| shape0 := 2; shape1 := 3;
     rows := [ [[7; 7; 7]; [0; 0; 0]; [0; 0; 0]];
               [[7; 7; 7]; [0; 0; 0]; [7; 7; 7]] ] |}.

(** A string free of the characters that [path_sanitize_variable]
    replaces *)
Definition path_safe_text (s : string) : bool :=
  Str.all (fun a => negb (is_unsafe_path_char a)) s.

(** A value whose strings, the value itself or the items of a list or a
    tuple, are free of those characters *)
Definition path_safe (v : value) : bool :=
  match v with
  | Lit (LStr s) => path_safe_text s
  | Lit (LList items) | Lit (LTuple items) =>
      forallb (fun x => match x with LStr s => path_safe_text s | _ => true end) items
  | _ => true
  end.

(** A string without white space at its start, and at its end *)
Definition starts_plain (s : string) : bool :=
  match s with
  | String a _ => negb (Str.isspace a)
  | EmptyString => true
  end.

Fixpoint ends_plain (s : string) : bool :=
  match s with
  | EmptyString => true
  | String a EmptyString => negb (Str.isspace a)
  | String _ s' => ends_plain s'
  end.

(** A store whose values are all literals *)
Definition all_literal (d : dict) : Prop :=
  Forall (fun entry => exists l, snd entry = Lit l) d.

(** * Properties *)

(** ** The tag store *)

Lemma dict_get_set_eq (key : string) (v : value) (d : dict) :
  dict_get key (dict_set key v d) = Some v.
Proof.
  induction d as [|[k v'] d IH]; simpl.
  - by rewrite String.eqb_refl.
  - destruct (String.eqb k key) eqn:E; simpl; rewrite E; [done | exact IH].
Qed.

Lemma dict_get_set_ne (key key' : string) (v : value) (d : dict) :
  key ≠ key' -> dict_get key (dict_set key' v d) = dict_get key d.
Proof.
  intros Hne. induction d as [|[k v'] d IH]; simpl.
  - destruct (String.eqb_spec key' key); congruence.
  - destruct (String.eqb_spec k key') as [->|Hk]; simpl.
    + destruct (String.eqb_spec key' key); congruence.
    + destruct (String.eqb_spec k key); [done | exact IH].
Qed.

Lemma dict_set_id (key : string) (v : value) (d : dict) :
  dict_get key d = Some v -> dict_set key v d = d.
Proof.
  induction d as [|[k v'] d IH]; simpl; [done|].
  destruct (String.eqb k key); intros Hget.
  - congruence.
  - by rewrite IH.
Qed.

Lemma dict_set_set (key : string) (v v' : value) (d : dict) :
  dict_set key v (dict_set key v' d) = dict_set key v d.
Proof.
  induction d as [|[k u] d IH]; simpl.
  - by rewrite String.eqb_refl.
  - destruct (String.eqb k key) eqn:E; simpl; rewrite E; [done | by rewrite IH].
Qed.

Lemma set_if_writable_get_ne (key tag : string) (v : value) (d : dict) :
  key ≠ tag -> dict_get key (set_if_writable tag v d) = dict_get key d.
Proof.
  intros Hne. unfold set_if_writable.
  destruct (tag_iswritable tag d); [by apply dict_get_set_ne | done].
Qed.

Lemma set_if_writable_get_eq (tag : string) (v : value) (d : dict) :
  tag_iswritable tag d = true -> dict_get tag (set_if_writable tag v d) = Some v.
Proof.
  intros Hw. unfold set_if_writable. rewrite Hw. apply dict_get_set_eq.
Qed.

(** ** The merge policy never touches a locked tag *)

(** A merge step leaves alone a tag that holds [SKIP] or [DELETE]. *)
Lemma update_item_locked (allow : bool) (base : dict) (entry : string * value)
    (tag : string) (m : Marker) :
  m = SKIP \/ m = DELETE ->
  dict_get tag base = Some (Mark m) ->
  dict_get tag (update_item allow base entry) = Some (Mark m).
Proof.
  intros Hm Hget. destruct entry as [key value_new]. unfold update_item.
  destruct (String.eqb_spec key tag) as [->|Hne].
  - rewrite Hget. unfold tag_iswritable. rewrite Hget.
    by destruct Hm as [-> | ->].
  - assert (Hframe : forall v, dict_get tag (dict_set key v base) = Some (Mark m)).
    { intros v. rewrite dict_get_set_ne; [done | congruence]. }
    destruct (dict_get key base) as [value_base|].
    + destruct (tag_iswritable key base); [|done].
      destruct (as_sequence value_new) as [[? ?]|];
        [destruct (as_sequence value_base) as [[? ?]|]|]; apply Hframe.
    + destruct (allow || Str.startswith key "Extra:"); [apply Hframe | done].
Qed.

(** C5. Whatever the store, the increment and the [allow_new_tags] flag,
    a tag whose current value is the SKIP marker (or the DELETE marker)
    holds the same marker after [metadata_update]. *)
Theorem metadata_update_keeps_locked (base update : dict) (allow_new_tags : bool)
    (tag : string) (m : Marker) :
  m = SKIP \/ m = DELETE ->
  dict_get tag base = Some (Mark m) ->
  dict_get tag (metadata_update base update allow_new_tags) = Some (Mark m).
Proof.
  intros Hm. unfold metadata_update. revert base.
  induction update as [|entry update IH]; intros base Hget; simpl; [done|].
  apply IH. by apply update_item_locked.
Qed.

(** An increment that assigns ['ExposureMode'], which the defaults mark
    SKIP, leaves it as it is. *)
Lemma metadata_update_keeps_locked_witness :
  dict_get "ExposureMode"
    (metadata_update metadata_default
       [("ExposureMode", VStr "Manual"); ("MakerNotes:All", VInt 1)] true)
  = Some (Mark SKIP).
Proof.
  apply (metadata_update_keeps_locked metadata_default _ true "ExposureMode" SKIP).
  - by left.
  - reflexivity.
Defined.

(** ** The flash-fired predicate and the rule that consumes it *)

Lemma enum_key_of_has (enum : list (Z * string)) (name : string) (key : Z) :
  enum_key_of enum name = Some key -> enum_has enum key = true.
Proof.
  unfold enum_has. induction enum as [|[k n] enum IH]; simpl; [done|].
  destruct (String.eqb n name).
  - intros [= ->]. by rewrite Z.eqb_refl.
  - intros Hk. rewrite (IH Hk). apply orb_true_r.
Qed.

Arguments enum_has : simpl never.
Arguments enum_key_of : simpl never.
Arguments Z_in : simpl never.

(** Every code of the enumeration is in exactly one of the four lists. *)
Lemma flash_enum_partition (code : Z) :
  enum_has exif_flash_enum code = true ->
  Z_in code exif_flash_enum_fired
  || Z_in code exif_flash_enum_notfired
  || Z_in code exif_flash_enum_notpresent
  || Z_in code exif_flash_enum_unlisted = true.
Proof.
  unfold enum_has, Z_in, exif_flash_enum, exif_flash_enum_fired,
    exif_flash_enum_notfired, exif_flash_enum_notpresent, exif_flash_enum_unlisted.
  cbn [existsb fst].
  rewrite !orb_true_iff, !Z.eqb_eq. lia.
Qed.

Lemma flash_code_has (v : value) (code : Z) :
  flash_code v = Some code -> enum_has exif_flash_enum code = true.
Proof.
  destruct v as [[| b | z | | s | |]|]; unfold flash_code; try done.
  - intros [= <-]. by destruct b.
  - destruct (enum_has exif_flash_enum z) eqn:E; [|done].
    intros Heq. injection Heq as <-. exact E.
  - apply enum_key_of_has.
Qed.

Section FlashFired.
Context `{PyBuiltins}.

(** [exif_flash_fired] in terms of the code its input denotes. *)
Lemma exif_flash_fired_by_code (v : value) :
  match flash_code v with
  | None => exists msg, exif_flash_fired v = Raise (ValueError msg)
  | Some code =>
      exif_flash_fired v =
        Ok (if Z_in code exif_flash_enum_fired then Some true
            else if Z_in code exif_flash_enum_notfired then Some false
            else if Z_in code exif_flash_enum_notpresent then Some false
            else None)
  end.
Proof.
  unfold exif_flash_fired, flash_code.
  destruct v as [[| b | z | x | s | items | items]|m]; cbn; eauto.
  - by destruct b.
  - destruct (enum_has exif_flash_enum z); cbn; eauto.
    by repeat destruct (Z_in _ _).
  - destruct (enum_key_of exif_flash_enum s); cbn; eauto.
    by repeat destruct (Z_in _ _).
Qed.

Lemma exif_flash_fired_unlisted (v : value) (code : Z) :
  flash_code v = Some code ->
  Z_in code exif_flash_enum_unlisted = true ->
  exif_flash_fired v = Ok None.
Proof.
  intros Hcode Hin. pose proof (exif_flash_fired_by_code v) as Hf.
  rewrite Hcode in Hf. rewrite Hf.
  unfold Z_in, exif_flash_enum_unlisted in Hin. cbn [existsb] in Hin.
  rewrite !orb_true_iff, !Z.eqb_eq in Hin.
  destruct Hin as [-> | [-> | [-> | [=]]]]; reflexivity.
Qed.

(** The aperture that the Panasonic rule writes, given what the flash
    tag holds. *)
Lemma conditional_aperture (metadata : dict) (flash : literal) (fired : option bool) :
  is_str "Panasonic" (dict_get_default "Make" VNone metadata) = true ->
  is_str "C-D325EF" (dict_get_default "Model" VNone metadata)
  || is_str "C-325EF" (dict_get_default "Model" VNone metadata) = true ->
  dict_get "EXIF:Flash" metadata = Some (Lit flash) ->
  exif_flash_fired (Lit flash) = Ok fired ->
  tag_iswritable "FNumber" metadata = true ->
  exists metadata',
    metadata_update_conditional metadata = Ok metadata' /\
    dict_get "FNumber" metadata'
    = Some (if fired_truthy fired then VFloat 5.6 else VFloat 9.0).
Proof.
  intros Hmake Hmodel Hflash Hfired Hw.
  unfold metadata_update_conditional. rewrite Hmake, Hmodel. cbn [andb].
  rewrite Hflash. rewrite andb_false_r.
  rewrite !set_if_writable_get_ne by discriminate.
  rewrite Hflash, Hfired. cbn.
  eexists. split; [reflexivity|].
  rewrite !set_if_writable_get_ne by discriminate.
  rewrite set_if_writable_get_eq; [by destruct (fired_truthy fired)|].
  unfold tag_iswritable in *.
  by rewrite !set_if_writable_get_ne by discriminate.
Qed.

(** C10. [exif_flash_fired] raises a [ValueError] for every input that
    denotes no code of the flash enumeration, returns [True] for the
    codes of the fired tuple and [False] for those of the not-fired and
    no-flash-function tuples, and returns [None] for the enumeration
    codes 13, 15 and 80, which are exactly the codes left over; the
    Panasonic rule of [metadata_update_conditional] then writes for them
    the aperture it writes when the flash did not fire. *)
Theorem exif_flash_fired_cases (v : value) :
  match flash_code v with
  | None => exists msg, exif_flash_fired v = Raise (ValueError msg)
  | Some code =>
      (Z_in code exif_flash_enum_fired = true ->
       exif_flash_fired v = Ok (Some true)) /\
      (Z_in code exif_flash_enum_notfired || Z_in code exif_flash_enum_notpresent = true ->
       exif_flash_fired v = Ok (Some false)) /\
      (Z_in code [13; 15; 80] = true <->
       Z_in code exif_flash_enum_fired = false /\
       Z_in code exif_flash_enum_notfired = false /\
       Z_in code exif_flash_enum_notpresent = false) /\
      (Z_in code [13; 15; 80] = true ->
       exif_flash_fired v = Ok None /\
       forall metadata,
         is_str "Panasonic" (dict_get_default "Make" VNone metadata) = true ->
         is_str "C-D325EF" (dict_get_default "Model" VNone metadata)
         || is_str "C-325EF" (dict_get_default "Model" VNone metadata) = true ->
         dict_get "EXIF:Flash" metadata = Some v ->
         tag_iswritable "FNumber" metadata = true ->
         exists metadata',
           metadata_update_conditional metadata = Ok metadata' /\
           dict_get "FNumber" metadata' = Some (VFloat 9.0))
  end.
Proof.
  pose proof (exif_flash_fired_by_code v) as Hf.
  destruct (flash_code v) as [code|] eqn:Hcode; [|exact Hf].
  pose proof (flash_enum_partition code (flash_code_has v code Hcode)) as Hpart.
  assert (Hunlisted :
    Z_in code [13; 15; 80] = true <->
    Z_in code exif_flash_enum_fired = false /\
    Z_in code exif_flash_enum_notfired = false /\
    Z_in code exif_flash_enum_notpresent = false).
  { clear Hf Hpart. split.
    - unfold Z_in. cbn [existsb]. rewrite !orb_true_iff, !Z.eqb_eq.
      intros [-> | [-> | [-> | [=]]]]; by repeat split.
    - pose proof (flash_enum_partition code (flash_code_has v code Hcode)) as Hp.
      intros (H1 & H2 & H3). rewrite H1, H2, H3 in Hp. exact Hp. }
  split; [|split; [|split; [exact Hunlisted|]]].
  - intros Hin. by rewrite Hf, Hin.
  - intros Hin. rewrite Hf.
    destruct (Z_in code exif_flash_enum_fired) eqn:E1.
    + exfalso. clear Hf Hpart Hunlisted.
      unfold Z_in, exif_flash_enum_fired, exif_flash_enum_notfired,
        exif_flash_enum_notpresent in *. cbn [existsb] in *.
      rewrite !orb_true_iff, !Z.eqb_eq in *. lia.
    + destruct (Z_in code exif_flash_enum_notfired); [done|].
      simpl in Hin. by rewrite Hin.
  - intros Hin. split; [by apply (exif_flash_fired_unlisted v code)|].
    intros metadata Hmake Hmodel Hflash Hw.
    destruct v as [flash|m]; [|done].
    destruct (conditional_aperture metadata flash None Hmake Hmodel Hflash)
      as (metadata' & Hrun & Hget); [|done|].
    + by apply (exif_flash_fired_unlisted (Lit flash) code).
    + exists metadata'. by split.
Qed.

End FlashFired.

(** Flash code 13 ("On, Return not detected") on a Panasonic C-D325EF:
    the predicate returns [None] and the rule writes aperture 9.0. *)
Lemma exif_flash_fired_cases_witness :
  @exif_flash_fired Sample.builtins (VInt 13) = Ok None /\
  exists metadata',
    @metadata_update_conditional Sample.builtins
      [("Make", VStr "Panasonic"); ("Model", VStr "C-D325EF");
       ("EXIF:Flash", VInt 13); ("FNumber", Mark OPTIONAL)] = Ok metadata' /\
    dict_get "FNumber" metadata' = Some (VFloat 9.0).
Proof.
  pose proof (@exif_flash_fired_cases Sample.builtins (VInt 13)) as Hcases.
  cbn in Hcases. destruct Hcases as (_ & _ & _ & Hunlisted).
  destruct (Hunlisted eq_refl) as [Hnone Hrule].
  split; [exact Hnone|].
  apply Hrule; reflexivity.
Defined.

(** ** The geometric transform *)

Lemma slice_all {B : Type} (l : list B) (n : Z) :
  Z.of_nat (length l) = n -> slice 0 (0 + n) l = l.
Proof.
  intros Hn. unfold slice. rewrite Z.add_0_l, Z.sub_0_r. cbn [Z.to_nat drop].
  apply take_ge. lia.
Qed.

Section RasterFacts.
Context {A : Type}.

(** A crop width of 0 is the full width of the raster, whatever the
    left offset. *)
Lemma image_transform_width_0 (image : ndarray A) (left top height : Z)
    (rotate_cw : option Z) (flip_h flip_v : option bool) :
  image_transform image left top 0 height rotate_cw flip_h flip_v
  = image_transform image left top (shape1 image) height rotate_cw flip_h flip_v.
Proof.
  unfold image_transform. cbn [Z.eqb].
  by destruct (shape1 image =? 0) eqn:E; [apply Z.eqb_eq in E; rewrite E|].
Qed.

(** A crop height of 0 is the full height of the raster, whatever the
    top offset. *)
Lemma image_transform_height_0 (image : ndarray A) (left top width : Z)
    (rotate_cw : option Z) (flip_h flip_v : option bool) :
  image_transform image left top width 0 rotate_cw flip_h flip_v
  = image_transform image left top width (shape0 image) rotate_cw flip_h flip_v.
Proof.
  unfold image_transform. cbn [Z.eqb].
  by destruct (shape0 image =? 0) eqn:E; [apply Z.eqb_eq in E; rewrite E|].
Qed.

(** With a width (or height) of 0 and a positive offset on that axis,
    the box sticks out of the raster. *)
Lemma image_transform_offset_outside (image : ndarray A) (left top width height : Z)
    (rotate_cw : option Z) (flip_h flip_v : option bool) :
  0 < shape0 image -> 0 < shape1 image ->
  0 <= width -> 0 <= height ->
  (width = 0 /\ 0 < left) \/ (height = 0 /\ 0 < top) ->
  image_transform image left top width height rotate_cw flip_h flip_v
  = Raise (ValueError "Error! Crop region is outside image boundaries.").
Proof.
  intros H0 H1 Hw Hh Hcase. unfold image_transform.
  destruct (_ || _) eqn:Esize.
  { exfalso. apply orb_true_iff in Esize.
    destruct (width =? 0) eqn:Ew, (height =? 0) eqn:Eh; lia. }
  destruct (_ || _ || _ || _) eqn:Ebox; [done|]. exfalso.
  repeat (apply orb_false_iff in Ebox as [Ebox ?]).
  destruct Hcase as [[-> Hpos] | [-> Hpos]]; cbn [Z.eqb] in *; lia.
Qed.

(** No crop, no rotation, no flip: the raster comes back as it is. *)
Lemma image_transform_identity (image : ndarray A)
    (rotate_cw : option Z) (flip_h flip_v : option bool) :
  well_shaped image ->
  0 < shape0 image -> 0 < shape1 image ->
  rotate_cw = None \/ rotate_cw = Some 0 ->
  flip_h = None \/ flip_h = Some false ->
  flip_v = None \/ flip_v = Some false ->
  image_transform image 0 0 0 0 rotate_cw flip_h flip_v = Ok image.
Proof.
  intros [Hrows Hcols] H0 H1 Hr Hh Hv. unfold image_transform. cbn [Z.eqb].
  replace ((shape1 image <=? 0) || (shape0 image <=? 0)) with false
    by (symmetry; apply orb_false_iff; lia).
  replace ((0 <? 0) || (0 <? 0) || (shape0 image <? 0 + shape0 image)
           || (shape1 image <? 0 + shape1 image)) with false
    by (symmetry; rewrite !orb_false_iff; lia).
  rewrite (slice_all _ _ Hrows).
  assert (Hmap : map (slice 0 (0 + shape1 image)) (rows image) = rows image).
  { clear Hrows. induction Hcols as [|r rs Hr' _ IH]; [done|].
    cbn [map]. by rewrite IH, (slice_all _ _ Hr'). }
  rewrite Hmap.
  assert (Hsame : {| shape0 := shape0 image; shape1 := shape1 image;
                     rows := rows image |} = image) by by destruct image.
  rewrite Hsame.
  destruct Hr as [-> | ->], Hh as [-> | ->], Hv as [-> | ->]; reflexivity.
Qed.

End RasterFacts.

Lemma raster_2x2_well_shaped : well_shaped raster_2x2.
Proof. split; [done|]. by repeat constructor. Qed.

(** C7, as stated, fails: with the left offset 1 inside a raster of
    width 2, a crop width of 0 is not the remaining extent (one column);
    the call raises the range error instead. *)
Lemma image_transform_remaining_extent_counterexample :
  ~ (forall (image : ndarray Z) (left top : Z),
       well_shaped image ->
       0 <= left < shape1 image -> 0 <= top < shape0 image ->
       image_transform image left top 0 0 None None None
       = image_transform image left top (shape1 image - left) (shape0 image - top)
                         None None None).
Proof.
  intros Hclaim.
  specialize (Hclaim raster_2x2 1 0 raster_2x2_well_shaped).
  assert (Hleft : 0 <= 1 < shape1 raster_2x2) by (cbn; lia).
  assert (Htop : 0 <= 0 < shape0 raster_2x2) by (cbn; lia).
  specialize (Hclaim Hleft Htop). vm_compute in Hclaim. discriminate Hclaim.
Qed.

(** C7, amended. A crop width of 0 (height of 0) stands for the full
    width (height) of the raster, not for what remains after the offset:
    the call is the same as with that full size, so with a positive
    offset on that axis it raises the range error. With crop (0,0,0,0),
    no rotation and no flips, a well-shaped raster with at least one row
    and one column is returned as it is. *)
Theorem image_transform_zero_size {A : Type} (image : ndarray A) :
  (forall left top height rotate_cw flip_h flip_v,
     image_transform image left top 0 height rotate_cw flip_h flip_v
     = image_transform image left top (shape1 image) height rotate_cw flip_h flip_v) /\
  (forall left top width rotate_cw flip_h flip_v,
     image_transform image left top width 0 rotate_cw flip_h flip_v
     = image_transform image left top width (shape0 image) rotate_cw flip_h flip_v) /\
  (0 < shape0 image -> 0 < shape1 image ->
   forall left top width height rotate_cw flip_h flip_v,
     0 <= width -> 0 <= height ->
     (width = 0 /\ 0 < left) \/ (height = 0 /\ 0 < top) ->
     image_transform image left top width height rotate_cw flip_h flip_v
     = Raise (ValueError "Error! Crop region is outside image boundaries.")) /\
  (well_shaped image -> 0 < shape0 image -> 0 < shape1 image ->
   forall rotate_cw flip_h flip_v,
     rotate_cw = None \/ rotate_cw = Some 0 ->
     flip_h = None \/ flip_h = Some false ->
     flip_v = None \/ flip_v = Some false ->
     image_transform image 0 0 0 0 rotate_cw flip_h flip_v = Ok image).
Proof.
  split; [|split; [|split]].
  - intros. apply image_transform_width_0.
  - intros. apply image_transform_height_0.
  - intros H0 H1 **. by apply image_transform_offset_outside.
  - intros Hwf H0 H1 **. by apply image_transform_identity.
Qed.

(** On the 2x2 raster: offset 1 with width 0 raises, and the crop
    (0,0,0,0) returns the raster. *)
Lemma image_transform_zero_size_witness :
  image_transform raster_2x2 1 0 0 0 None None None
  = Raise (ValueError "Error! Crop region is outside image boundaries.") /\
  image_transform raster_2x2 0 0 0 0 (Some 0) (Some false) (Some false)
  = Ok raster_2x2.
Proof.
  destruct (image_transform_zero_size raster_2x2) as (_ & _ & Houtside & Hsame).
  split.
  - apply Houtside; [reflexivity | reflexivity | lia | lia | left; lia].
  - apply Hsame;
      [exact raster_2x2_well_shaped | reflexivity | reflexivity
      | by right | by right | by right].
Defined.

(** ** Auto-fill of the shutter-speed and aperture-value tags *)

Section AutofillFacts.
Context `{PyBuiltins}.

(** Splits on the outcome of every fallible step and on every test of a
    block of [metadata_autofill], and reads the tag [key] back through
    the assignments to other tags. *)
Ltac frame :=
  intros;
  repeat match goal with
         | Heq : context [match ?x with _ => _ end] |- _ =>
             destruct x eqn:?; try discriminate Heq
         | Heq : Ok _ = Ok _ |- _ => injection Heq as <-
         end;
  rewrite ?dict_get_set_ne by congruence; try done.

Lemma autofill_document_name_frame (key : string) (metadata metadata' : dict) :
  key ≠ "DocumentName" ->
  autofill_document_name metadata = Ok metadata' ->
  dict_get key metadata' = dict_get key metadata.
Proof. unfold autofill_document_name, mbind, result_bind. frame. Qed.

Lemma autofill_modify_date_frame (env : autofill_env) (key : string) (metadata : dict) :
  key ≠ "ModifyDate" -> key ≠ "OffsetTime" ->
  dict_get key (autofill_modify_date env metadata) = dict_get key metadata.
Proof.
  intros. unfold autofill_modify_date.
  repeat case_match; rewrite ?dict_get_set_ne by congruence; done.
Qed.

Lemma autofill_shutter_speed_frame (key : string) (metadata : dict) :
  key ≠ "ShutterSpeedValue" ->
  dict_get key (autofill_shutter_speed metadata) = dict_get key metadata.
Proof.
  intros. unfold autofill_shutter_speed.
  case_match; rewrite ?dict_get_set_ne by congruence; done.
Qed.

Lemma autofill_aperture_frame (key : string) (metadata : dict) :
  key ≠ "ApertureValue" ->
  dict_get key (autofill_aperture metadata) = dict_get key metadata.
Proof.
  intros. unfold autofill_aperture.
  case_match; rewrite ?dict_get_set_ne by congruence; done.
Qed.

Lemma autofill_image_size_frame (env : autofill_env) (key : string)
    (metadata metadata' : dict) :
  key ≠ "ExifImageWidth" -> key ≠ "ExifImageHeight" ->
  autofill_image_size env metadata = Ok metadata' ->
  dict_get key metadata' = dict_get key metadata.
Proof. unfold autofill_image_size, mbind, result_bind. frame. Qed.

Lemma autofill_create_date_frame (env : autofill_env) (key : string)
    (metadata metadata' : dict) :
  key ≠ "CreateDate" -> key ≠ "OffsetTimeDigitized" ->
  autofill_create_date env metadata = Ok metadata' ->
  dict_get key metadata' = dict_get key metadata.
Proof. unfold autofill_create_date, mbind, result_bind. frame. Qed.

Lemma autofill_from_text_frame (ref_tag tag positive negative text error key : string)
    (metadata metadata' : dict) :
  key ≠ ref_tag -> key ≠ tag ->
  autofill_from_text ref_tag tag positive negative text error metadata = Ok metadata' ->
  dict_get key metadata' = dict_get key metadata.
Proof. unfold autofill_from_text, mbind, result_bind. frame. Qed.

Lemma autofill_from_number_frame (ref_tag tag : string) (allow_int : bool)
    (positive negative v : value) (error key : string) (metadata metadata' : dict) :
  key ≠ ref_tag -> key ≠ tag ->
  autofill_from_number ref_tag tag allow_int positive negative v error metadata
  = Ok metadata' ->
  dict_get key metadata' = dict_get key metadata.
Proof. unfold autofill_from_number. frame. Qed.

Lemma autofill_latitude_frame (key : string) (metadata metadata' : dict) :
  key ≠ "GPSLatitudeRef" -> key ≠ "GPSLatitude" ->
  autofill_latitude metadata = Ok metadata' ->
  dict_get key metadata' = dict_get key metadata.
Proof.
  unfold autofill_latitude. intros Hr Ht Hrun.
  repeat case_match; simplify_eq;
    eauto using autofill_from_text_frame, autofill_from_number_frame;
    by rewrite ?dict_get_set_ne by congruence.
Qed.

Lemma autofill_longitude_frame (key : string) (metadata metadata' : dict) :
  key ≠ "GPSLongitudeRef" -> key ≠ "GPSLongitude" ->
  autofill_longitude metadata = Ok metadata' ->
  dict_get key metadata' = dict_get key metadata.
Proof.
  unfold autofill_longitude. intros Hr Ht Hrun.
  repeat case_match; simplify_eq;
    eauto using autofill_from_text_frame, autofill_from_number_frame;
    by rewrite ?dict_get_set_ne by congruence.
Qed.

Lemma autofill_altitude_frame (key : string) (metadata metadata' : dict) :
  key ≠ "GPSAltitudeRef" -> key ≠ "GPSAltitude" ->
  autofill_altitude metadata = Ok metadata' ->
  dict_get key metadata' = dict_get key metadata.
Proof.
  unfold autofill_altitude. intros Hr Ht Hrun.
  repeat case_match; simplify_eq;
    eauto using autofill_from_number_frame;
    by rewrite ?dict_get_set_ne by congruence.
Qed.

Lemma autofill_processing_method_frame (key : string) (metadata : dict) :
  key ≠ "GPSProcessingMethod" ->
  dict_get key (autofill_processing_method metadata) = dict_get key metadata.
Proof.
  intros. unfold autofill_processing_method.
  repeat case_match; rewrite ?dict_get_set_ne by congruence; done.
Qed.

End AutofillFacts.

(** C9, as stated, fails: in the compiled-in defaults the exposure-time
    tag holds the OPTIONAL marker, not a literal, and auto-fill leaves
    the shutter-speed tag with that marker, not with SKIP. *)
Lemma metadata_autofill_skip_counterexample :
  ~ (forall (env : autofill_env) (metadata metadata' : dict),
       @metadata_autofill Sample.builtins env metadata = Ok metadata' ->
       dict_get "ShutterSpeedValue" metadata = Some (Mark AUTO) ->
       (forall l, dict_get "ExposureTime" metadata ≠ Some (Lit l)) ->
       dict_get "ShutterSpeedValue" metadata' = Some (Mark SKIP)).
Proof.
  intros Hclaim.
  destruct (@metadata_autofill Sample.builtins sample_observations metadata_default)
    as [metadata'|] eqn:Hrun; [|by vm_compute in Hrun].
  specialize (Hclaim sample_observations metadata_default metadata' Hrun eq_refl).
  assert (Hmarker : forall l, dict_get "ExposureTime" metadata_default ≠ Some (Lit l))
    by (intros l; vm_compute; discriminate).
  specialize (Hclaim Hmarker).
  vm_compute in Hrun. injection Hrun as <-.
  vm_compute in Hclaim. discriminate Hclaim.
Qed.

Section AutofillCopies.
Context `{PyBuiltins}.

(** C9, amended. When auto-fill returns and the shutter-speed tag held
    the AUTO marker, that tag holds afterwards whatever the
    exposure-time tag held, literal or marker alike, and the SKIP marker
    only when the store had no exposure-time tag at all; likewise the
    aperture-value tag from the f-number tag. *)
Theorem metadata_autofill_copies (env : autofill_env) (metadata metadata' : dict) :
  metadata_autofill env metadata = Ok metadata' ->
  (dict_get "ShutterSpeedValue" metadata = Some (Mark AUTO) ->
   dict_get "ShutterSpeedValue" metadata'
   = Some (dict_get_default "ExposureTime" (Mark SKIP) metadata)) /\
  (dict_get "ApertureValue" metadata = Some (Mark AUTO) ->
   dict_get "ApertureValue" metadata'
   = Some (dict_get_default "FNumber" (Mark SKIP) metadata)).
Proof.
  unfold metadata_autofill, mbind, result_bind. intros Hrun.
  destruct (autofill_document_name metadata) as [m1|] eqn:E1; [|done].
  remember (autofill_modify_date env m1) as m2 eqn:E2.
  remember (autofill_shutter_speed m2) as m3 eqn:E3.
  remember (autofill_aperture m3) as m4 eqn:E4.
  destruct (autofill_image_size env m4) as [m5|] eqn:E5; [|done].
  destruct (autofill_create_date env m5) as [m6|] eqn:E6; [|done].
  destruct (autofill_latitude m6) as [m7|] eqn:E7; [|done].
  destruct (autofill_longitude m7) as [m8|] eqn:E8; [|done].
  destruct (autofill_altitude m8) as [m9|] eqn:E9; [|done].
  injection Hrun as <-.
  assert (Hafter : forall key,
    key = "ShutterSpeedValue" \/ key = "ApertureValue" ->
    dict_get key (autofill_processing_method m9) = dict_get key m4).
  { intros key Hkey.
    rewrite autofill_processing_method_frame by (destruct Hkey; by subst).
    rewrite (autofill_altitude_frame key m8 m9) by (done || destruct Hkey; by subst).
    rewrite (autofill_longitude_frame key m7 m8) by (done || destruct Hkey; by subst).
    rewrite (autofill_latitude_frame key m6 m7) by (done || destruct Hkey; by subst).
    rewrite (autofill_create_date_frame env key m5 m6)
      by (done || destruct Hkey; by subst).
    by rewrite (autofill_image_size_frame env key m4 m5)
      by (done || destruct Hkey; by subst). }
  assert (Hbefore : forall key,
    key ≠ "DocumentName" -> key ≠ "ModifyDate" -> key ≠ "OffsetTime" ->
    dict_get key m2 = dict_get key metadata).
  { intros key ? ? ?. subst m2. rewrite autofill_modify_date_frame by done.
    by apply autofill_document_name_frame. }
  split; intros Hauto.
  - rewrite Hafter by by left. subst m4 m3.
    rewrite autofill_aperture_frame by done.
    unfold autofill_shutter_speed, holds_auto, dict_get_default.
    rewrite !Hbefore by done. rewrite Hauto. cbn [is_marker Marker_eqb].
    apply dict_get_set_eq.
  - rewrite Hafter by by right. subst m4.
    unfold autofill_aperture, holds_auto, dict_get_default.
    subst m3. rewrite !autofill_shutter_speed_frame by done.
    rewrite !Hbefore by done. rewrite Hauto. cbn [is_marker Marker_eqb].
    apply dict_get_set_eq.
Qed.

End AutofillCopies.

(** On the compiled-in defaults with an exposure time of 1/250 s set,
    auto-fill returns and copies that literal into the shutter-speed
    tag; the f-number is unset, and its OPTIONAL marker is what the
    aperture-value tag receives. *)
Lemma metadata_autofill_copies_witness :
  exists metadata',
    @metadata_autofill Sample.builtins sample_observations
      (dict_set "ExposureTime" (VStr "1/250") metadata_default) = Ok metadata' /\
    dict_get "ShutterSpeedValue" metadata' = Some (VStr "1/250") /\
    dict_get "ApertureValue" metadata' = Some (Mark OPTIONAL).
Proof.
  destruct (@metadata_autofill Sample.builtins sample_observations
              (dict_set "ExposureTime" (VStr "1/250") metadata_default))
    as [metadata'|] eqn:Hrun; [|by vm_compute in Hrun].
  exists metadata'. split; [reflexivity|].
  destruct (@metadata_autofill_copies Sample.builtins sample_observations _ _ Hrun)
    as [Hshutter Haperture].
  split; [exact (Hshutter eq_refl) | exact (Haperture eq_refl)].
Defined.

(** ** Directory metadata files never yield a marker *)

Section MetadataFileFacts.
Context `{PyBuiltins}.

Lemma marker_fold_frame (key value k : string) (markers : list Marker) (result : dict) :
  k ≠ key ->
  dict_get k (fold_left (marker_step key value) markers result) = dict_get k result.
Proof.
  intros Hne. revert result.
  induction markers as [|m markers IH]; intros result; cbn [fold_left]; [done|].
  rewrite IH. unfold marker_step.
  destruct (String.eqb value (marker_value m)); [by apply dict_get_set_ne | done].
Qed.

(** A line of the file adds no marker to the dictionary: whatever the
    loop over the markers stored under the key is overwritten by the
    assignment that follows the loop. *)
Lemma metadata_file_line_no_marker (strip_whitespace : bool) (result : dict)
    (line : string) :
  (forall k m, dict_get k result ≠ Some (Mark m)) ->
  forall k m, dict_get k (metadata_file_line strip_whitespace result line)
              ≠ Some (Mark m).
Proof.
  intros Hresult k m. unfold metadata_file_line.
  destruct (0 <? String.length line)%nat; [|apply Hresult].
  destruct (_ || _); [apply Hresult|].
  destruct (Str.split_first "=" line) as [[key value]|]; [|apply Hresult].
  set (key' := if strip_whitespace then Str.strip key else key).
  set (value' := if strip_whitespace then Str.strip value else value).
  assert (Hset : forall x : literal,
    dict_get k (dict_set key' (Lit x)
                  (fold_left (marker_step key' value') Marker_members result))
    ≠ Some (Mark m)).
  { intros x. destruct (String.eqb_spec k key') as [->|Hne].
    - by rewrite dict_get_set_eq.
    - rewrite dict_get_set_ne, marker_fold_frame by done. apply Hresult. }
  destruct (literal_eval value'); apply Hset.
Qed.

Lemma metadata_file_lines_no_marker (strip_whitespace : bool) (lines : list string)
    (result : dict) :
  (forall k m, dict_get k result ≠ Some (Mark m)) ->
  forall k m,
    dict_get k (fold_left (metadata_file_line strip_whitespace) lines result)
    ≠ Some (Mark m).
Proof.
  revert result. induction lines as [|line lines IH]; intros result Hresult;
    cbn [fold_left]; [done|].
  apply IH. by apply metadata_file_line_no_marker.
Qed.

(** C2 (the code falls short of it). Whatever the lines of a directory
    metadata file, and whatever [ast.literal_eval] makes of their
    values, [metadata_get_file] returns a dictionary in which no key
    maps to a marker: a value equal to a marker's display form is not
    kept as that marker. *)
Theorem metadata_get_file_yields_no_marker (lines : list string)
    (strip_whitespace : bool) :
  exists result,
    metadata_get_file (Some lines) strip_whitespace = Some result /\
    forall key m, dict_get key result ≠ Some (Mark m).
Proof.
  eexists. split; [reflexivity|]. intros key m. unfold enable_transform.
  assert (Hloop := metadata_file_lines_no_marker strip_whitespace lines []
                     (fun k m => ltac:(discriminate))).
  destruct (negb _); [|apply Hloop].
  destruct (existsb _ _); [|apply Hloop].
  destruct (String.eqb_spec key "ImageTransform:Enabled") as [->|Hne].
  - by rewrite dict_get_set_eq.
  - rewrite dict_get_set_ne by done. apply Hloop.
Qed.

End MetadataFileFacts.

(** The line [Make=<MANDATORY>] gives the string, not the marker. *)
Example metadata_get_file_marker_line :
  @metadata_get_file Sample.builtins (Some ["Make=<MANDATORY>" +:+ newline]) true
  = Some [("Make", VStr "<MANDATORY>")].
Proof. reflexivity. Qed.

(** ** Python string operations *)

Lemma startswith_char (c d : ascii) (s : string) :
  Str.startswith (String c s) (String d EmptyString) = Ascii.eqb d c.
Proof.
  unfold Str.startswith. cbn [String.prefix].
  destruct (ascii_dec d c) as [->|Hne].
  - rewrite Ascii.eqb_refl. by destruct s.
  - symmetry. by apply Ascii.eqb_neq.
Qed.

Lemma append_cons (a : ascii) (l r : string) :
  String a l +:+ r = String a (l +:+ r).
Proof. reflexivity. Qed.

Lemma prefix_append (p r : string) : String.prefix p (p +:+ r) = true.
Proof.
  induction p as [|a p IH]; simpl; [by destruct r|].
  destruct (ascii_dec a a); [exact IH | done].
Qed.

Lemma prefix_drop (p s : string) :
  String.prefix p s = true -> s = p +:+ Str.drop (String.length p) s.
Proof.
  revert s. induction p as [|a p IH]; intros s; [done|].
  destruct s as [|b s]; simpl; [done|].
  destruct (ascii_dec a b) as [->|]; [|done].
  intros Hp. change (String b s = String b (p +:+ Str.drop (String.length p) s)).
  f_equal. by apply IH.
Qed.

Lemma split_last_spec (sep s l r : string) :
  Str.split_last sep s = Some (l, r) -> s = l +:+ sep +:+ r.
Proof.
  revert l. induction s as [|a s IH]; intros l; cbn [Str.split_last]; [done|].
  destruct (Str.split_last sep s) as [[l0 r0]|].
  - intros [= <- <-]. rewrite append_cons. f_equal. by apply IH.
  - destruct (String.prefix sep (String a s)) eqn:Hp; [|done].
    intros [= <- <-]. by apply prefix_drop.
Qed.

Lemma split_last_occurs (sep l r : string) :
  sep ≠ EmptyString -> Str.split_last sep (l +:+ sep +:+ r) ≠ None.
Proof.
  intros Hsep. induction l as [|a l IH].
  - destruct sep as [|c sep]; [done|].
    change (EmptyString +:+ String c sep +:+ r) with (String c (sep +:+ r)).
    cbn [Str.split_last].
    destruct (Str.split_last _ _) as [[? ?]|]; [done|].
    change (String c (sep +:+ r)) with (String c sep +:+ r).
    by rewrite prefix_append.
  - rewrite append_cons. cbn [Str.split_last].
    destruct (Str.split_last sep (l +:+ sep +:+ r)) as [[? ?]|]; done.
Qed.

(** [split_last] splits at the last occurrence: no occurrence of the
    separator starts further right. *)
Lemma split_last_is_last (sep s l r l' r' : string) :
  sep ≠ EmptyString ->
  Str.split_last sep s = Some (l, r) ->
  s = l' +:+ sep +:+ r' ->
  (String.length l' <= String.length l)%nat.
Proof.
  intros Hsep. revert l l'.
  induction s as [|a s IH]; intros l l'; cbn [Str.split_last]; [done|].
  destruct (Str.split_last sep s) as [[l0 r0]|] eqn:Hs.
  - intros [= <- <-] Heq. destruct l' as [|b l']; cbn [String.length]; [lia|].
    rewrite append_cons in Heq. injection Heq as <- Heq.
    specialize (IH l0 l' eq_refl Heq). lia.
  - destruct (String.prefix sep (String a s)); [|done].
    intros [= <- <-] Heq. destruct l' as [|b l']; cbn [String.length]; [lia|].
    rewrite append_cons in Heq. injection Heq as <- Heq. subst s.
    by destruct (split_last_occurs sep l' r' Hsep).
Qed.

Lemma contains_split_last (sep s : string) :
  sep ≠ EmptyString ->
  Str.contains sep s = true <-> Str.split_last sep s ≠ None.
Proof.
  intros Hsep. unfold Str.contains.
  induction s as [|a s IH]; cbn [String.index Str.split_last].
  - by destruct sep.
  - destruct (String.prefix sep (String a s)).
    + split; [|done]. intros _. by destruct (Str.split_last sep s) as [[? ?]|].
    + destruct (String.index 0 sep s), (Str.split_last sep s) as [[? ?]|];
        split; try done; intros Hx.
      * by apply IH in Hx.
      * by apply IH.
Qed.

(** ** The filename grammar decoder *)

Lemma Ok_inj {B : Type} (x y : B) : Ok x = Ok y -> x = y.
Proof. intros Heq. by injection Heq. Qed.

Lemma set_if_None {B : Type} (key : string) (to_value : B -> value) (d : dict) :
  set_if key None to_value d = d.
Proof. reflexivity. Qed.

Lemma set_if_get_ne {B : Type} (k key : string) (x : option B) (to_value : B -> value)
    (d : dict) :
  k ≠ key -> dict_get k (set_if key x to_value d) = dict_get k d.
Proof. intros Hne. destruct x; [by apply dict_get_set_ne | done]. Qed.

Section DecoderFacts.
Context `{PyBuiltins}.

(** A token whose first character is [N] is decoded by the image-number
    rule. *)
Lemma decode_entry_N (f : fields) (payload : string) :
  decode_entry f (String "N" payload) = rule_image_number f payload.
Proof. unfold decode_entry. by rewrite !startswith_char. Qed.

(** Closes the case of one rule of the token loop: the rule's outcome is
    split along its tests and fallible steps, and the variable
    [image_description] is read back through the assignments. *)
Ltac rule_keeps_description :=
  unfold rule_film, rule_strip, rule_image_number, rule_crop, rule_rotate,
    rule_compression, rule_exposure_time, rule_aperture, rule_iso, rule_flash,
    rule_orientation, rule_focal_length, rule_camera, rule_datetime, rule_gnss,
    mbind, result_bind;
  intros; repeat case_match; simplify_eq;
  try reflexivity;
  match goal with f : fields |- _ => destruct f; reflexivity end.

(** No rule that the token loop can reach assigns [image_description]. *)
Lemma decode_entry_keeps_description (f f' : fields) (entry : string) :
  decode_entry f entry = Ok f' -> image_description f' = image_description f.
Proof.
  unfold decode_entry.
  destruct (Str.startswith entry "F"); [rule_keeps_description|].
  destruct (Str.startswith entry "S"); [rule_keeps_description|].
  destruct (Str.startswith entry "N"); [rule_keeps_description|].
  destruct (Str.startswith entry "C"); [rule_keeps_description|].
  destruct (Str.startswith entry "R"); [rule_keeps_description|].
  destruct (Str.startswith entry "Z"); [rule_keeps_description|].
  destruct (Str.startswith entry "T"); [rule_keeps_description|].
  destruct (Str.startswith entry "A"); [rule_keeps_description|].
  destruct (Str.startswith entry "I"); [rule_keeps_description|].
  destruct (Str.startswith entry "X"); [rule_keeps_description|].
  destruct (Str.startswith entry "O"); [rule_keeps_description|].
  destruct (Str.startswith entry "L"); [rule_keeps_description|].
  destruct (Str.startswith entry "M"); [rule_keeps_description|].
  destruct (Str.startswith entry "D"); [rule_keeps_description|].
  destruct (Str.startswith entry "G"); [rule_keeps_description|].
  destruct (Str.startswith entry "H"); [rule_keeps_description|].
  destruct (Str.startswith entry "U"); rule_keeps_description.
Qed.

Lemma decode_entries_keep_description (entries : list string) (f f' : fields) :
  for_each decode_entry entries f = Ok f' ->
  image_description f' = image_description f.
Proof.
  revert f. induction entries as [|entry entries IH]; intros f; cbn [for_each].
  - by intros [= ->].
  - unfold mbind, result_bind.
    destruct (decode_entry f entry) as [f1|] eqn:Hstep; [|done].
    intros Hrest. rewrite (IH _ Hrest).
    by apply (decode_entry_keeps_description f f1 entry).
Qed.

(** The result carries ['ImageDescription'] only for a decoded
    [image_description]. *)
Lemma build_result_description (file_id : option string)
    (file_name file_ext file_relpath file_reldir : string) (f : fields) (result : dict) :
  image_description f = None ->
  build_result file_id file_name file_ext file_relpath file_reldir f = Ok result ->
  dict_get "ImageDescription" result = None.
Proof.
  intros Hnone. unfold build_result, mbind, result_bind. rewrite Hnone.
  repeat match goal with
         | |- context [match ?x with Ok _ => _ | Raise _ => _ end] =>
             destruct x; [|discriminate]
         end.
  intros Heq%Ok_inj. subst result.
  rewrite !set_if_get_ne by discriminate.
  rewrite set_if_None.
  repeat first [ rewrite set_if_get_ne by discriminate
               | rewrite dict_get_set_ne by discriminate ].
  reflexivity.
Qed.

End DecoderFacts.

(** C3, as stated, fails: the stem [F7-3] has no double underscore, and
    the decoder does not take it as the metadata segment with the
    FileID absent. *)
Lemma split_basename_whole_stem_counterexample :
  ~ (forall file_name : string,
       Str.contains "__" file_name = false ->
       split_basename file_name = Ok (None, file_name)).
Proof.
  intros Hclaim. specialize (Hclaim "F7-3" eq_refl).
  vm_compute in Hclaim. discriminate Hclaim.
Qed.

Section SplitBasename.
Context `{PyBuiltins}.

(** C3, amended. A stem with no double underscore is the FileID as a
    whole and its metadata segment is empty, so the decoded increment
    holds the five file tags and nothing else. A stem with a double
    underscore is split at the last occurrence: the right part is the
    metadata segment that the token loop decodes, the left part is the
    FileID, which is absent when the left part is empty. *)
Theorem split_basename_cases (file_name file_ext file_relpath file_reldir : string) :
  (Str.contains "__" file_name = false ->
   split_basename file_name = Ok (Some file_name, EmptyString) /\
   metadata_get_path file_name file_ext file_relpath file_reldir
   = Ok [ ("Extra:FileID", VStr file_name);
          ("Extra:FileNameBase", VStr file_name);
          ("Extra:FileNameExtension", VStr file_ext);
          ("Extra:FilePath", VStr file_relpath);
          ("Extra:FileDirectory", VStr file_reldir) ]) /\
  (Str.contains "__" file_name = true ->
   exists base meta,
     file_name = base +:+ "__" +:+ meta /\
     (forall base' meta',
        file_name = base' +:+ "__" +:+ meta' ->
        (String.length base' <= String.length base)%nat) /\
     split_basename file_name
     = Ok (if Str.nonempty base then Some base else None, meta) /\
     metadata_get_path file_name file_ext file_relpath file_reldir
     = (f ← for_each decode_entry (Str.split_char "_" meta) fields_init;
        build_result (if Str.nonempty base then Some base else None)
                     file_name file_ext file_relpath file_reldir f)).
Proof.
  split; intros Hcontains.
  - assert (Hsplit : split_basename file_name = Ok (Some file_name, EmptyString)).
    { unfold split_basename. by rewrite Hcontains. }
    split; [exact Hsplit|].
    unfold metadata_get_path. rewrite Hsplit. reflexivity.
  - assert (Hsep : "__" ≠ EmptyString) by discriminate.
    destruct (Str.split_last "__" file_name) as [[base meta]|] eqn:Hlast;
      [|by apply (contains_split_last "__" file_name Hsep) in Hcontains].
    assert (Hsplit : split_basename file_name
                     = Ok (if Str.nonempty base then Some base else None, meta)).
    { unfold split_basename, Str.rsplit1. by rewrite Hcontains, Hlast. }
    exists base, meta. split; [by apply split_last_spec|]. split.
    + intros base' meta'. by apply (split_last_is_last "__" file_name base meta).
    + split; [exact Hsplit|]. unfold metadata_get_path. by rewrite Hsplit.
Qed.

End SplitBasename.

(** The stem [F7-3] is a FileID and nothing else; the stem
    [roll12__F7-3] has the FileID [roll12] and the segment [F7-3]. *)
Lemma split_basename_cases_witness :
  split_basename "F7-3" = Ok (Some "F7-3", EmptyString) /\
  exists base meta,
    "roll12__F7-3" = base +:+ "__" +:+ meta /\
    split_basename "roll12__F7-3"
    = Ok (if Str.nonempty base then Some base else None, meta).
Proof.
  split.
  - apply (@split_basename_cases Sample.builtins "F7-3" "tif" "F7-3.tif" ".").
    reflexivity.
  - destruct (@split_basename_cases Sample.builtins "roll12__F7-3" "tif"
                "roll12__F7-3.tif" ".") as [_ Hsplit].
    destruct (Hsplit eq_refl) as (base & meta & Heq & _ & Hbase & _).
    exists base, meta. by split.
Defined.

(** ** The positional merge of two sequences *)

Lemma positional_fold (value_new value_old : list literal) (i n : nat) :
  (i + n <= length value_new)%nat ->
  fold_left (positional_step value_new) (seq i n)
            (take i value_new ++ drop i value_old)
  = take (i + n) value_new ++ drop (i + n) value_old.
Proof.
  revert i. induction n as [|n IH]; intros i Hlen; cbn [seq fold_left].
  - by rewrite Nat.add_0_r.
  - destruct (lookup_lt_is_Some_2 value_new i ltac:(lia)) as [x Hx].
    assert (Hstep :
      positional_step value_new (take i value_new ++ drop i value_old) i
      = take (S i) value_new ++ drop (S i) value_old).
    { unfold positional_step. rewrite Hx.
      rewrite (take_S_r _ _ _ Hx).
      assert (Hi : length (take i value_new) = i) by (rewrite length_take; lia).
      destruct (Nat.ltb_spec i (length (take i value_new ++ drop i value_old)))
        as [Hlt|Hge]; rewrite length_app, length_drop, Hi in *.
      - destruct (lookup_lt_is_Some_2 value_old i ltac:(lia)) as [y Hy].
        rewrite (drop_S _ _ _ Hy).
        replace i with (length (take i value_new) + 0)%nat at 1 by lia.
        rewrite insert_app_r. cbn. by rewrite <- app_assoc.
      - rewrite !drop_ge by lia. by rewrite !app_nil_r. }
    rewrite Hstep, IH by lia. by replace (S i + n)%nat with (i + S n)%nat by lia.
Qed.

(** The loop of the positional merge in closed form: the increment's
    elements, then the base's elements beyond the increment's length. *)
Lemma positional_merge_closed (value_old value_new : list literal) :
  positional_merge value_old value_new
  = value_new ++ drop (length value_new) value_old.
Proof.
  unfold positional_merge.
  pose proof (positional_fold value_new value_old 0 (length value_new)) as Hfold.
  rewrite take_0, drop_0 in Hfold. cbn [app Nat.add] in Hfold.
  rewrite Hfold by lia. by rewrite firstn_all.
Qed.

Lemma positional_merge_length (value_old value_new : list literal) :
  length (positional_merge value_old value_new)
  = Nat.max (length value_old) (length value_new).
Proof. rewrite positional_merge_closed, length_app, length_drop. lia. Qed.

Lemma positional_merge_lookup (value_old value_new : list literal) (i : nat) :
  positional_merge value_old value_new !! i
  = if (i <? length value_new)%nat then value_new !! i else value_old !! i.
Proof.
  rewrite positional_merge_closed.
  destruct (Nat.ltb_spec i (length value_new)) as [Hlt|Hge].
  - by rewrite lookup_app_l.
  - rewrite lookup_app_r, lookup_drop by done. f_equal. lia.
Qed.

Lemma positional_merge_again (value_old value_new : list literal) :
  positional_merge (positional_merge value_old value_new) value_new
  = positional_merge value_old value_new.
Proof.
  rewrite !positional_merge_closed. f_equal.
  by rewrite drop_app_length.
Qed.

Lemma positional_merge_self (items : list literal) :
  positional_merge items items = items.
Proof.
  rewrite positional_merge_closed, drop_all. apply app_nil_r.
Qed.

(** ** Merging the same increment twice *)

Lemma update_item_value (allow : bool) (base : dict) (key : string) (value_new : value) :
  update_item allow base (key, value_new)
  = match update_value allow (dict_get key base) key value_new with
    | Some x => dict_set key x base
    | None => base
    end.
Proof.
  unfold update_item, update_value, tag_iswritable.
  destruct (dict_get key base) as [value_base|]; repeat case_match; done.
Qed.

Lemma update_item_get_ne (allow : bool) (base : dict) (key k : string)
    (value_new : value) :
  k ≠ key -> dict_get k (update_item allow base (key, value_new)) = dict_get k base.
Proof.
  intros Hne. rewrite update_item_value.
  destruct (update_value _ _ _ _); [by apply dict_get_set_ne | done].
Qed.

Lemma make_sequence_as_sequence (v : value) (kind : bool) (items : list literal) :
  as_sequence v = Some (kind, items) -> make_sequence kind items = v.
Proof. destruct v as [[]|]; intros [= <- <-]; reflexivity. Qed.

Lemma as_sequence_make_sequence (kind : bool) (items : list literal) :
  as_sequence (make_sequence kind items) = Some (kind, items).
Proof. by destruct kind. Qed.

Lemma update_value_literal (allow : bool) (key : string) (value_new : value) :
  update_value allow (Some value_new) key value_new = None \/
  update_value allow (Some value_new) key value_new = Some value_new.
Proof.
  unfold update_value. destruct (negb _ && negb _); [|by left]. right.
  destruct (as_sequence value_new) as [[kind items]|] eqn:Hseq; [|done].
  by rewrite positional_merge_self, (make_sequence_as_sequence _ _ _ Hseq).
Qed.

(** Once a step has written [x], the same step writes [x] again or
    nothing. *)
Lemma update_value_settled (allow : bool) (current : option value) (key : string)
    (value_new x : value) :
  update_value allow current key value_new = Some x ->
  update_value allow (Some x) key value_new = None \/
  update_value allow (Some x) key value_new = Some x.
Proof.
  unfold update_value at 1.
  destruct current as [value_base|].
  - destruct (negb _ && negb _); [|done].
    destruct (as_sequence value_new) as [[kind_new items_new]|] eqn:Hnew;
      [destruct (as_sequence value_base) as [[kind items_old]|] eqn:Hold|].
    + intros [= <-]. right. unfold update_value.
      rewrite Hnew, as_sequence_make_sequence, positional_merge_again.
      by destruct kind.
    + intros [= <-]. apply update_value_literal.
    + intros [= <-]. apply update_value_literal.
  - destruct (_ || _); [|done]. intros [= <-]. apply update_value_literal.
Qed.

(** A merge step applied twice is the step applied once. *)
Lemma update_item_twice (allow : bool) (base : dict) (entry : string * value) :
  update_item allow (update_item allow base entry) entry = update_item allow base entry.
Proof.
  destruct entry as [key value_new]. rewrite (update_item_value allow base).
  destruct (update_value allow (dict_get key base) key value_new) as [x|] eqn:Hx.
  - rewrite update_item_value, dict_get_set_eq.
    destruct (update_value_settled _ _ _ _ _ Hx) as [-> | ->]; [done|].
    apply dict_set_set.
  - by rewrite update_item_value, Hx.
Qed.

(** A step that changes nothing still changes nothing after a step on
    another key. *)
Lemma update_item_absorbed_frame (allow : bool) (base : dict)
    (entry entry' : string * value) :
  fst entry' ≠ fst entry ->
  update_item allow base entry = base ->
  update_item allow (update_item allow base entry') entry
  = update_item allow base entry'.
Proof.
  destruct entry as [key value_new], entry' as [key' value_new'].
  cbn [fst]. intros Hne Habsorbed.
  rewrite update_item_value in Habsorbed.
  rewrite (update_item_value allow (update_item allow base (key', value_new'))).
  rewrite update_item_get_ne by congruence.
  destruct (update_value allow (dict_get key base) key value_new) as [x|]; [|done].
  apply dict_set_id. rewrite update_item_get_ne by congruence.
  rewrite <- Habsorbed. apply dict_get_set_eq.
Qed.

Lemma metadata_update_absorbed_frame (allow : bool) (update : dict) (base : dict)
    (entry : string * value) :
  (forall entry', entry' ∈ update -> fst entry' ≠ fst entry) ->
  update_item allow base entry = base ->
  update_item allow (metadata_update base update allow) entry
  = metadata_update base update allow.
Proof.
  unfold metadata_update. revert base.
  induction update as [|entry' update IH]; intros base Hkeys Habsorbed;
    cbn [fold_left]; [done|].
  apply IH.
  - intros e He. apply Hkeys. by right.
  - apply update_item_absorbed_frame; [|done]. apply Hkeys. by left.
Qed.

(** After the merge of an increment with distinct keys, none of its
    steps changes the store any more. *)
Lemma metadata_update_absorbs (allow : bool) (update : dict) (base : dict)
    (entry : string * value) :
  NoDup (map fst update) ->
  entry ∈ update ->
  update_item allow (metadata_update base update allow) entry
  = metadata_update base update allow.
Proof.
  revert base. induction update as [|entry0 update IH]; intros base Hnodup Hin.
  - by apply elem_of_nil in Hin.
  - cbn [map] in Hnodup. apply NoDup_cons in Hnodup as [Hfresh Hnodup].
    change (metadata_update base (entry0 :: update) allow)
      with (metadata_update (update_item allow base entry0) update allow).
    apply elem_of_cons in Hin as [-> | Hin].
    + apply metadata_update_absorbed_frame; [|apply update_item_twice].
      intros entry' Hin' Heq. apply Hfresh. rewrite <- Heq.
      apply list_elem_of_fmap. by exists entry'.
    + by apply IH.
Qed.

Lemma metadata_update_fixed (allow : bool) (update : dict) (base : dict) :
  (forall entry, entry ∈ update -> update_item allow base entry = base) ->
  metadata_update base update allow = base.
Proof.
  unfold metadata_update. induction update as [|entry update IH]; intros Hall;
    cbn [fold_left]; [done|].
  rewrite Hall by by left. apply IH. intros e He. apply Hall. by right.
Qed.

(** C6. Merging the same increment twice yields the same store as
    merging it once, for every store, every increment (a dictionary:
    its keys are distinct) and every value of the flag; list tags
    included. When the tag holds a list or a tuple and the increment
    brings a list or a tuple for it, the merge is positional: the
    increment's elements replace the base's by index, its extra elements
    are appended, the length is the larger of the two, and the container
    kind is the base's. *)
Theorem metadata_update_idempotent :
  (forall (base update : dict) (allow_new_tags : bool),
     NoDup (map fst update) ->
     metadata_update (metadata_update base update allow_new_tags) update allow_new_tags
     = metadata_update base update allow_new_tags) /\
  (forall (base : dict) (key : string) (allow_new_tags : bool)
          (kind kind_new : bool) (items_old items_new : list literal) (value_new : value),
     dict_get key base = Some (make_sequence kind items_old) ->
     as_sequence value_new = Some (kind_new, items_new) ->
     exists merged,
       metadata_update base [(key, value_new)] allow_new_tags
       = dict_set key (make_sequence kind merged) base /\
       length merged = Nat.max (length items_old) (length items_new) /\
       (forall i, (i < length items_new)%nat -> merged !! i = items_new !! i) /\
       (forall i, (length items_new <= i)%nat -> merged !! i = items_old !! i)).
Proof.
  split.
  - intros base update allow Hnodup. apply metadata_update_fixed.
    intros entry Hin. by apply metadata_update_absorbs.
  - intros base key allow kind kind_new items_old items_new value_new Hget Hnew.
    exists (positional_merge items_old items_new). split; [|split; [|split]].
    + unfold metadata_update. cbn [fold_left]. unfold update_item, tag_iswritable.
      rewrite Hget, Hnew, as_sequence_make_sequence. by destruct kind.
    + apply positional_merge_length.
    + intros i Hi. rewrite positional_merge_lookup.
      by destruct (Nat.ltb_spec i (length items_new)); [|lia].
    + intros i Hi. rewrite positional_merge_lookup.
      by destruct (Nat.ltb_spec i (length items_new)); [lia|].
Qed.

(** A crop token with two components, merged twice into the defaults,
    gives what one merge gives; and it replaces the first two of the four
    default crop components. *)
Lemma metadata_update_idempotent_witness :
  metadata_update
    (metadata_update metadata_default
       [("ImageTransform:Crop", Lit (LList [LInt 10; LInt 20])); ("Make", VStr "Nikon")]
       true)
    [("ImageTransform:Crop", Lit (LList [LInt 10; LInt 20])); ("Make", VStr "Nikon")]
    true
  = metadata_update metadata_default
      [("ImageTransform:Crop", Lit (LList [LInt 10; LInt 20])); ("Make", VStr "Nikon")]
      true /\
  exists merged,
    metadata_update metadata_default
      [("ImageTransform:Crop", Lit (LList [LInt 10; LInt 20]))] false
    = dict_set "ImageTransform:Crop" (Lit (LList merged)) metadata_default /\
    length merged = 4%nat.
Proof.
  destruct metadata_update_idempotent as [Htwice Hpositional].
  split.
  - apply Htwice. apply (bool_decide_unpack _). by vm_compute.
  - destruct (Hpositional metadata_default "ImageTransform:Crop" false false false
                [LInt 0; LInt 0; LInt 4096; LInt 2656] [LInt 10; LInt 20]
                (Lit (LList [LInt 10; LInt 20])) eq_refl eq_refl)
      as (merged & Hmerge & Hlength & _).
    exists merged. by split.
Defined.

(** ** Emission and terminal validation *)

Lemma for_each_cons {A S : Type} (step : S -> A -> result S) (x : A) (xs : list A)
    (acc : S) :
  for_each step (x :: xs) acc
  = match step acc x with
    | Ok acc' => for_each step xs acc'
    | Raise e => Raise e
    end.
Proof. reflexivity. Qed.

Lemma run_bind {A B : Type} (m : io A) (k : A -> io B) (fs : filesystem) :
  run (m ≫= k) fs
  = match run m fs with
    | (fs', Ok a) => run (k a) fs'
    | (fs', Raise e) => (fs', Raise e)
    end.
Proof. reflexivity. Qed.

Lemma run_pure {A : Type} (r : result A) (fs : filesystem) : run (pure r) fs = (fs, r).
Proof. reflexivity. Qed.

Section EmissionFacts.
Context `{PyBuiltins}.

Lemma flatten_value_text (v : value) :
  text_like v = true -> (forall m, v ≠ Mark m) ->
  exists s, flatten_value v = VStr s.
Proof.
  intros Htext Hlit. unfold flatten_value.
  destruct v as [[| | | | s | items | items]|m]; try done; cbn; eauto.
  by destruct (Hlit m).
Qed.

(** A literal never fails the mandatory check; the only exception it can
    meet in the loop body is the type error of the date-time pattern,
    which a literal that is no text meets on a date-time tag. *)
Lemma exif_arg_literal (tag_name : string) (l : literal) (e : exn) :
  exif_arg tag_name (Lit l) = Raise e ->
  is_datetime_tag tag_name = true /\ text_like (Lit l) = false /\
  e = pattern_type_error (Lit l).
Proof.
  destruct (text_like (Lit l)) eqn:Htext.
  - destruct (flatten_value_text (Lit l) Htext) as [s Hs]; [done|].
    unfold exif_arg. rewrite Hs. unfold VStr.
    destruct (is_str "" _); [done|]. destruct (is_datetime_tag tag_name); [|done].
    by destruct (_ && _).
  - unfold exif_arg.
    assert (Hflat : flatten_value (Lit l) = Lit l) by by destruct l.
    rewrite Hflat. destruct (is_str "" _); [done|].
    destruct (is_datetime_tag tag_name); [|done].
    destruct l; try discriminate Htext; by intros [= <-].
Qed.

Lemma exif_arg_not_text (tag_name : string) (l : literal) :
  is_datetime_tag tag_name = true -> text_like (Lit l) = false ->
  exif_arg tag_name (Lit l) = Raise (pattern_type_error (Lit l)).
Proof.
  intros Hdate Htext. unfold exif_arg.
  assert (Hflat : flatten_value (Lit l) = Lit l) by by destruct l.
  rewrite Hflat, Hdate. by destruct l.
Qed.

Lemma exif_arg_ok (tag_name : string) (v : value) :
  v ≠ Mark MANDATORY ->
  (is_datetime_tag tag_name = true -> text_like v = true) ->
  exists arg, exif_arg tag_name v = Ok arg.
Proof.
  intros Hmandatory Hdate. unfold exif_arg.
  destruct v as [l|[]]; try done; eauto.
  - destruct (is_str "" _); [eauto|].
    destruct (is_datetime_tag tag_name); [|eauto].
    destruct (flatten_value_text (Lit l) (Hdate eq_refl)) as [s ->]; [done|].
    unfold VStr. by destruct (datetime_regex_match s && negb (strptime_ok s)); eauto.
  - destruct (is_str "" _); [eauto|].
    destruct (is_datetime_tag tag_name); [|eauto].
    by specialize (Hdate eq_refl).
Qed.

Lemma exif_args_loop_mandatory (metadata : dict) (tag : string) (args : list string) :
  (tag, Mark MANDATORY) ∈ metadata ->
  exists e, for_each exif_args_step metadata args = Raise e.
Proof.
  revert args. induction metadata as [|[k v] metadata IH]; intros args Hin.
  - by apply elem_of_nil in Hin.
  - rewrite for_each_cons.
    apply elem_of_cons in Hin as [[= <- <-] | Hin]; [by eexists|].
    destruct (exif_args_step args (k, v)) as [args'|e]; [|by eexists].
    apply IH, Hin.
Qed.

Lemma exif_args_loop_ok (metadata : dict) (args : list string) :
  (forall k v, (k, v) ∈ metadata ->
     v ≠ Mark MANDATORY /\ (is_datetime_tag k = true -> text_like v = true)) ->
  exists args', for_each exif_args_step metadata args = Ok args'.
Proof.
  revert args. induction metadata as [|[k v] metadata IH]; intros args Hall.
  - by eexists.
  - rewrite for_each_cons.
    destruct (Hall k v ltac:(by left)) as [Hm Hd].
    destruct (exif_arg_ok k v Hm Hd) as [arg Harg].
    unfold exif_args_step at 1, mbind, result_bind. cbn [fst snd]. rewrite Harg.
    apply IH. intros k' v' Hin. apply Hall. by right.
Qed.

(** What [emit_tags] does, by the outcome of the argument loop. *)
Lemma emit_tags_run {pixel : Type} (w : world pixel) (metadata : dict)
    (output_path : string) (fs : filesystem) :
  run (emit_tags w metadata output_path) fs
  = match exif_args metadata output_path with
    | Raise e => (fs, Raise e)
    | Ok args =>
        match run_exiftool w (exiftool_exe w :: args) with
        | Ok _ => (fs_tag output_path (Tagged args) fs, Ok output_path)
        | Raise e => (fs_tag output_path (ToolFailed args) fs, Raise e)
        end
    end.
Proof.
  unfold emit_tags. rewrite run_bind, run_pure.
  destruct (exif_args metadata output_path) as [args|e]; [|done].
  rewrite run_bind. unfold tag_file. cbn [run].
  by destruct (run_exiftool w (exiftool_exe w :: args)).
Qed.

End EmissionFacts.


Section Validation.
Context `{PyBuiltins}.

(** What [main] does with an exception of [process_file]: the walk
    ends with it at the first file that raises. *)
Lemma main_walk_raises {pixel : Type} (w_dir : input_dir pixel)
    (dirs : list (input_dir pixel))
    (file : input_file pixel) (files : list (input_file pixel))
    (metadata_dir update : dict) (main_output : string) (fs fs1 : filesystem)
    (e : exn) :
  dir_too_deep w_dir = false ->
  directory_metadata (dir_metafiles w_dir) = Ok metadata_dir ->
  dir_files w_dir = file :: files ->
  in_matches file = true ->
  metadata_get_path (in_name file) (in_ext file) (in_relpath file) (in_reldir file)
  = Ok update ->
  run (process_file (in_world file) (in_path file) main_output
         (metadata_update metadata_dir update (tag_list_open metadata_dir))) fs
  = (fs1, Raise e) ->
  run (main_walk main_output (w_dir :: dirs)) fs = (fs1, Raise e).
Proof.
  intros Hdepth Hdir Hfiles Hmatches Hupdate Hprocess.
  unfold main_walk. cbn [io_for_each]. rewrite run_bind.
  unfold main_directory at 1. rewrite Hdepth, Hfiles, run_bind, run_pure, Hdir.
  cbn [io_for_each]. rewrite run_bind.
  unfold main_file at 1. rewrite Hmatches, run_bind, run_pure, Hupdate.
  by rewrite run_bind, Hprocess.
Qed.

Lemma exif_args_loop_raises (metadata : dict) (tag : string) (v : value) (e : exn)
    (args : list string) :
  (tag, v) ∈ metadata -> exif_arg tag v = Raise e ->
  exists e', for_each exif_args_step metadata args = Raise e'.
Proof.
  intros Hin Hraise. revert args.
  induction metadata as [|[k x] metadata IH]; intros args.
  - by apply elem_of_nil in Hin.
  - rewrite for_each_cons. unfold exif_args_step at 1, mbind, result_bind. cbn [fst snd].
    apply elem_of_cons in Hin as [[= <- <-] | Hin].
    + rewrite Hraise. by eexists.
    + destruct (exif_arg k x); [by apply IH | by eexists].
Qed.

Lemma dict_set_elem_of (key : string) (v : value) (d : dict) :
  (key, v) ∈ dict_set key v d.
Proof.
  induction d as [|[k x] d IH]; cbn [dict_set]; [by left|].
  destruct (String.eqb_spec k key) as [->|_]; [by left | by right].
Qed.

(** With every tag before the assigned one passing, the loop ends at
    the assigned tag. *)
Lemma exif_args_loop_set_raises (metadata : dict) (tag : string) (v : value) (e : exn)
    (args : list string) :
  exif_arg tag v = Raise e ->
  (forall k x, (k, x) ∈ dict_set tag v metadata -> k ≠ tag ->
     x ≠ Mark MANDATORY /\ (is_datetime_tag k = true -> text_like x = true)) ->
  for_each exif_args_step (dict_set tag v metadata) args = Raise e.
Proof.
  intros Hraise. revert args.
  induction metadata as [|[k x] metadata IH]; intros args Hothers; cbn [dict_set].
  - rewrite for_each_cons. unfold exif_args_step, mbind, result_bind. cbn [fst snd].
    by rewrite Hraise.
  - destruct (String.eqb_spec k tag) as [->|Hne]; rewrite for_each_cons;
      unfold exif_args_step at 1, mbind, result_bind; cbn [fst snd].
    + by rewrite Hraise.
    + assert (Hin : (k, x) ∈ dict_set tag v ((k, x) :: metadata)).
      { cbn [dict_set]. destruct (String.eqb_spec k tag); [done | by left]. }
      destruct (Hothers k x Hin Hne) as [Hmandatory Hdate].
      destruct (exif_arg_ok k x Hmandatory Hdate) as [arg ->].
      apply IH. intros k' x' Hin' Hne'. apply Hothers; [|done].
      cbn [dict_set]. destruct (String.eqb_spec k tag); [done | by right].
Qed.


End Validation.


(** ** The order of moving and tagging in [process_file] *)

Lemma run_ret {A : Type} (a : A) (fs : filesystem) : run (mret a) fs = (fs, Ok a).
Proof. reflexivity. Qed.

Lemma run_file_op (outcome : result unit) (change : filesystem -> filesystem)
    (fs : filesystem) :
  run (file_op outcome change) fs
  = match outcome with
    | Ok _ => (change fs, Ok tt)
    | Raise e => (fs, Raise e)
    end.
Proof. reflexivity. Qed.

Lemma fs_move_lookup (src dst : string) (f : file) (fs : filesystem) :
  fs !! src = Some f -> fs_move src dst fs !! dst = Some f.
Proof. intros Hsrc. unfold fs_move. rewrite Hsrc. apply lookup_insert_eq. Qed.

Section ProcessFileFacts.
Context `{PyBuiltins} {pixel : Type}.

Lemma stage_copied_temp (w : world pixel) (input_path temp_path : string)
    (metadata metadata' : dict) (fs fs' : filesystem) :
  run (stage_copied w input_path temp_path metadata) fs = (fs', Ok metadata') ->
  fs' !! temp_path
  = Some {| source := input_path; transformed := false; tags := NotTagged |}.
Proof.
  unfold stage_copied. rewrite run_bind, run_file_op.
  destruct (copy_file w); [|done]. rewrite run_ret. intros [= <- _].
  apply lookup_insert_eq.
Qed.

Lemma stage_transformed_temp (w : world pixel) (input_path temp_path : string)
    (metadata metadata' : dict) (fs fs' : filesystem) :
  run (stage_transformed w input_path temp_path metadata) fs = (fs', Ok metadata') ->
  fs' !! temp_path
  = Some {| source := input_path; transformed := true; tags := NotTagged |}.
Proof.
  unfold stage_transformed, dict_pop.
  rewrite run_bind, run_pure. destruct (imread w) as [image|]; [|done].
  rewrite run_bind, run_pure.
  match goal with
  | |- match ?r with Ok _ => _ | Raise _ => _ end = _ -> _ =>
      destruct r as [image'|]; [|done]
  end.
  rewrite run_bind, run_file_op. destruct (imwrite w image'); [|done].
  rewrite run_bind, run_pure. destruct (restore_tags w); [|done].
  rewrite run_ret. intros [= <- _]. apply lookup_insert_eq.
Qed.

(** A fallible step without file effects at the head of a hypothesis
    about a run: the run goes on only when the step returns. *)
Ltac step_pure :=
  rewrite run_bind, run_pure;
  match goal with
  | |- match ?r with Ok _ => _ | Raise _ => _ end = _ -> _ =>
      destruct r; [|done]
  end.

(** When staging returns, the staged file is at the output path, not
    yet touched by the tag-writing call. *)
Lemma stage_file_moved (w : world pixel) (input_path output_path : string)
    (metadata metadata1 : dict) (out : string) (fs fs1 : filesystem) :
  run (stage_file w input_path output_path metadata) fs = (fs1, Ok (metadata1, out)) ->
  exists f, fs1 !! out = Some f /\ source f = input_path /\ tags f = NotTagged.
Proof.
  unfold stage_file, dict_pop.
  step_pure. step_pure. step_pure. step_pure.
  rewrite run_bind.
  match goal with
  | |- (let (_, _) := run ?m fs in _) = _ -> _ =>
      destruct (run m fs) as [fs' [metadata2|]] eqn:Hstage; [|done]
  end.
  assert (Htemp : exists f, fs' !! a = Some f /\ source f = input_path
                            /\ tags f = NotTagged).
  { destruct (truthy _).
    - apply stage_transformed_temp in Hstage. by eexists.
    - apply stage_copied_temp in Hstage. by eexists. }
  destruct Htemp as (f & Htemp & Hsource & Htags).
  step_pure. step_pure.
  rewrite run_bind, run_file_op. destruct (move_file w); [|done].
  rewrite run_ret. intros [= <- <- <-].
  exists f. split; [by apply fs_move_lookup | done].
Qed.

(** C1, amended. Once staging (scanner merge, conditional rules, copy or
    transform, auto-fill, path rendering) has returned, the staged file
    is already at the final output path, moved there before the tag
    store is validated and the metadata tool is run; what is left of
    [process_file] works on the file at that path. If terminal
    validation fails, the file stays at the output path untouched by the
    tag-writing call; if the tool is run, the file at the output path is
    what the tool made of it, whether it succeeded or failed. *)
Theorem process_file_moves_first (w : world pixel) (input_path output_path : string)
    (metadata metadata1 : dict) (out : string) (fs fs1 : filesystem) :
  run (stage_file w input_path output_path metadata) fs = (fs1, Ok (metadata1, out)) ->
  (exists f, fs1 !! out = Some f /\ source f = input_path /\ tags f = NotTagged) /\
  run (process_file w input_path output_path metadata) fs
  = run (write_exif w metadata1 out) fs1 /\
  (forall e,
     exif_args (delete_keys_with_prefixes metadata1 stripped_prefixes) out = Raise e ->
     run (process_file w input_path output_path metadata) fs = (fs1, Raise e)) /\
  (forall args,
     exif_args (delete_keys_with_prefixes metadata1 stripped_prefixes) out = Ok args ->
     exists fs2 f t,
       run (process_file w input_path output_path metadata) fs
       = (fs2, match run_exiftool w (exiftool_exe w :: args) with
               | Ok _ => Ok out
               | Raise e => Raise e
               end) /\
       fs2 !! out = Some f /\ source f = input_path /\ tags f = t /\
       t = match run_exiftool w (exiftool_exe w :: args) with
           | Ok _ => Tagged args
           | Raise _ => ToolFailed args
           end).
Proof.
  intros Hstage.
  destruct (stage_file_moved _ _ _ _ _ _ _ _ Hstage) as (f & Hout & Hsource & Htags).
  assert (Hrun : run (process_file w input_path output_path metadata) fs
                 = run (write_exif w metadata1 out) fs1).
  { unfold process_file. by rewrite run_bind, Hstage. }
  split; [by exists f|]. split; [exact Hrun|]. split.
  - intros e Hargs. rewrite Hrun. unfold write_exif. by rewrite emit_tags_run, Hargs.
  - intros args Hargs. rewrite Hrun. unfold write_exif.
    rewrite emit_tags_run, Hargs. unfold fs_tag. rewrite Hout.
    destruct (run_exiftool w (exiftool_exe w :: args));
      eexists _, _, _; (split; [reflexivity|]);
      rewrite lookup_insert_eq; by repeat split.
Qed.

End ProcessFileFacts.

(** C1, as stated, fails: on the compiled-in defaults, whose make is
    still MANDATORY, terminal validation raises, and the staged file is
    nevertheless at the output path, away from its temporary path and
    without the tags of the store. *)
Lemma process_file_failure_leaves_output_counterexample :
  ~ (forall (w : world Z) (input_path output_path : string) (metadata : dict)
            (fs' : filesystem) (e : exn),
       run (@process_file Sample.builtins Z w input_path output_path metadata) ∅
       = (fs', Raise e) ->
       forall (path : string) (f : file),
         fs' !! path = Some f -> resolve_temp_path w = Ok path).
Proof.
  intros Hclaim.
  destruct (run (@process_file Sample.builtins Z sample_world "in/roll.tif"
                   "roll_out.tif" metadata_default) ∅) as [fs' r] eqn:Hrun.
  assert (Hr : r = Raise (ValueError "Error! Mandatory tag 'Make' value not assigned.")).
  { apply (f_equal snd) in Hrun. vm_compute in Hrun. congruence. }
  assert (Hfile : fs' !! "in/roll_out.tif"
                  = Some {| source := "in/roll.tif"; transformed := false;
                            tags := NotTagged |}).
  { apply (f_equal fst) in Hrun. cbn [fst] in Hrun. subst fs'. by vm_compute. }
  subst r. specialize (Hclaim _ _ _ _ _ _ Hrun _ _ Hfile).
  vm_compute in Hclaim. discriminate Hclaim.
Qed.

(** The same run, through the theorem: staging returns, the file is at
    ["in/roll_out.tif"], and validation fails with the file left there. *)
Lemma process_file_moves_first_witness :
  exists fs1 f,
    run (@process_file Sample.builtins Z sample_world "in/roll.tif" "roll_out.tif"
           metadata_default) ∅
    = (fs1, Raise (ValueError "Error! Mandatory tag 'Make' value not assigned.")) /\
    fs1 !! "in/roll_out.tif" = Some f /\ tags f = NotTagged.
Proof.
  destruct (run (@stage_file Sample.builtins Z sample_world "in/roll.tif"
                   "roll_out.tif" metadata_default) ∅)
    as [fs1 [[metadata1 out]|e]] eqn:Hstage;
    [|apply (f_equal snd) in Hstage; by vm_compute in Hstage].
  destruct (@process_file_moves_first Sample.builtins Z sample_world "in/roll.tif"
              "roll_out.tif" metadata_default metadata1 out ∅ fs1 Hstage)
    as ((f & Hout & _ & Htags) & _ & Hfail & _).
  pose proof Hstage as Hvalue. apply (f_equal snd) in Hvalue.
  vm_compute in Hvalue. injection Hvalue as Hmetadata Hpath.
  exists fs1, f. subst out. split; [|by split].
  apply Hfail. subst metadata1. reflexivity.
Defined.

(** ** Further properties of the merge policy, the rules and the decoder *)

Lemma set_if_writable_absent (k tag : string) (v : value) (d : dict) :
  dict_get k d = None -> dict_get k (set_if_writable tag v d) = None.
Proof.
  intros Habsent. unfold set_if_writable, tag_iswritable.
  destruct (String.eqb_spec k tag) as [->|Hne].
  - by rewrite Habsent.
  - destruct (dict_get tag d) as [u|]; [|done].
    destruct (negb _ && negb _); [by rewrite dict_get_set_ne | done].
Qed.

Section RulesCreateNoTag.
Context `{PyBuiltins}.

(** X1. The conditional device rules never create a tag: a tag that the
    store does not have before [metadata_update_conditional], it does
    not have afterwards. *)
Theorem metadata_update_conditional_creates_no_tag (metadata metadata' : dict)
    (tag : string) :
  metadata_update_conditional metadata = Ok metadata' ->
  dict_get tag metadata = None ->
  dict_get tag metadata' = None.
Proof.
  unfold metadata_update_conditional. intros Hrun Habsent.
  destruct (_ && _); [|by injection Hrun as <-].
  unfold mbind, result_bind in Hrun.
  match type of Hrun with
  | context [dict_get "EXIF:Flash" ?d] =>
      assert (Hfirst : dict_get tag d = None)
  end.
  { do 2 apply set_if_writable_absent.
    destruct (tag_iswritable "EXIF:Flash" metadata && _) eqn:Hflash; [|done].
    destruct (String.eqb_spec tag "EXIF:Flash") as [->|Hne].
    - unfold tag_iswritable in Hflash. by rewrite Habsent in Hflash.
    - by rewrite dict_get_set_ne. }
  match type of Hrun with
  | match ?r with Ok _ => _ | Raise _ => _ end = _ => destruct r; [|done]
  end.
  apply Ok_inj in Hrun. subst metadata'.
  by do 7 apply set_if_writable_absent.
Qed.

End RulesCreateNoTag.

(** The Panasonic rule on a store without lens tags adds none. *)
Lemma metadata_update_conditional_creates_no_tag_witness :
  exists metadata',
    @metadata_update_conditional Sample.builtins
      [("Make", VStr "Panasonic"); ("Model", VStr "C-325EF")] = Ok metadata' /\
    dict_get "LensMake" metadata' = None.
Proof.
  destruct (@metadata_update_conditional Sample.builtins
              [("Make", VStr "Panasonic"); ("Model", VStr "C-325EF")])
    as [metadata'|] eqn:Hrun; [|by vm_compute in Hrun].
  exists metadata'. split; [reflexivity|].
  by apply (@metadata_update_conditional_creates_no_tag Sample.builtins _ _ _ Hrun).
Defined.

(** X2. With [allow_new_tags] false, [metadata_update] inserts no tag
    that the store lacks, except the tags of the [Extra:] group. *)
Theorem metadata_update_inserts_nothing (base update : dict) (tag : string) :
  dict_get tag base = None ->
  Str.startswith tag "Extra:" = false ->
  dict_get tag (metadata_update base update false) = None.
Proof.
  intros Habsent Hextra. unfold metadata_update. revert base Habsent.
  induction update as [|[key value_new] update IH]; intros base Habsent;
    cbn [fold_left]; [done|].
  apply IH. destruct (String.eqb_spec tag key) as [->|Hne].
  - unfold update_item. by rewrite Habsent, Hextra.
  - by rewrite update_item_get_ne.
Qed.

(** With the tag list locked, a scanner tag is not inserted and a file
    identifier is. *)
Lemma metadata_update_inserts_nothing_witness :
  dict_get "Scanner:Model"
    (metadata_update metadata_default
       [("Scanner:Model", VStr "LS-50"); ("Extra:Note", VStr "x")] false) = None /\
  dict_get "Extra:Note"
    (metadata_update metadata_default
       [("Scanner:Model", VStr "LS-50"); ("Extra:Note", VStr "x")] false)
  = Some (VStr "x").
Proof.
  split; [|reflexivity].
  apply (metadata_update_inserts_nothing metadata_default _ "Scanner:Model");
    reflexivity.
Defined.

(** A run of the decoder: the stem
    [roll12__F7-3_S2-1_C10-20-100-200_R90CW_A2.8] decodes to film 7,
    frame 3, strip 2, frame 1 on the strip, crop (10, 20, 100, 200),
    rotation 90 and aperture 2.8. *)
Example metadata_get_path_example :
  exists result,
    @metadata_get_path Sample.builtins "roll12__F7-3_S2-1_C10-20-100-200_R90CW_A2.8"
      "tif" "roll12__F7-3_S2-1_C10-20-100-200_R90CW_A2.8.tif" "." = Ok result /\
    dict_get "Extra:FileID" result = Some (VStr "roll12") /\
    dict_get "Extra:FilmID" result = Some (VStr "7") /\
    dict_get "Extra:FilmFrameNumber" result = Some (VInt 3) /\
    dict_get "Extra:StripID" result = Some (VStr "2") /\
    dict_get "Extra:StripFrameNumber" result = Some (VInt 1) /\
    dict_get "ImageTransform:Crop" result
    = Some (Lit (LList [LInt 10; LInt 20; LInt 100; LInt 200])) /\
    dict_get "ImageTransform:Rotate" result = Some (VInt 90) /\
    dict_get "FNumber" result = Some (VFloat 2.8).
Proof. eexists. split; [vm_compute; reflexivity|]. by vm_compute. Qed.

(** ** Stripping the internal tags *)

Lemma fold_dict_del_cons (keys : list string) (k : string) (v : value) (d : dict) :
  Forall (fun key => key ≠ k) keys ->
  fold_left (fun d key => dict_del key d) keys ((k, v) :: d)
  = (k, v) :: fold_left (fun d key => dict_del key d) keys d.
Proof.
  intros Hkeys. revert d.
  induction Hkeys as [|key keys Hne _ IH]; intros d; cbn [fold_left]; [done|].
  cbn [dict_del]. destruct (String.eqb_spec k key) as [->|_]; [done|]. apply IH.
Qed.

(** What is left is the store filtered on the other keys. *)
Lemma delete_keys_with_prefixes_filter_eq (dictionary : dict) (prefixes : list string) :
  delete_keys_with_prefixes dictionary prefixes
  = List.filter (fun entry => negb (existsb (Str.startswith (fst entry)) prefixes))
                dictionary.
Proof.
  unfold delete_keys_with_prefixes.
  induction dictionary as [|[k v] d IH]; [done|].
  cbn [map fst List.filter].
  destruct (existsb (Str.startswith k) prefixes) eqn:Hk; cbn [negb fold_left dict_del].
  - by rewrite String.eqb_refl.
  - rewrite fold_dict_del_cons; [by rewrite IH|].
    apply List.Forall_forall. intros key Hin Heq. subst key.
    apply List.filter_In in Hin as [_ Hin]. congruence.
Qed.

(** A tag with one of the prefixes is gone, any other is as it was. *)
Lemma delete_keys_with_prefixes_get (dictionary : dict) (prefixes : list string)
    (key : string) :
  dict_get key (delete_keys_with_prefixes dictionary prefixes)
  = if existsb (Str.startswith key) prefixes then None else dict_get key dictionary.
Proof.
  rewrite delete_keys_with_prefixes_filter_eq.
  induction dictionary as [|[k v] d IH]; [by destruct (existsb _ _)|].
  cbn [List.filter fst dict_get].
  destruct (String.eqb_spec k key) as [->|Hne].
  - destruct (existsb (Str.startswith key) prefixes) eqn:Hkey; cbn [negb].
    + by rewrite IH.
    + cbn [dict_get]. by rewrite String.eqb_refl.
  - destruct (negb (existsb (Str.startswith k) prefixes)); [|done].
    cbn [dict_get]. by destruct (String.eqb_spec k key).
Qed.

(** X3. [delete_keys_with_prefixes] removes exactly the tags whose name
    starts with one of the prefixes: the other tags keep their order
    and their values, and a tag with such a name is no longer there. *)
Theorem delete_keys_with_prefixes_spec (dictionary : dict) (prefixes : list string) :
  map fst (delete_keys_with_prefixes dictionary prefixes)
  = List.filter (fun key => negb (existsb (Str.startswith key) prefixes))
                (map fst dictionary) /\
  forall key,
    dict_get key (delete_keys_with_prefixes dictionary prefixes)
    = if existsb (Str.startswith key) prefixes then None else dict_get key dictionary.
Proof.
  split; [|apply delete_keys_with_prefixes_get].
  rewrite delete_keys_with_prefixes_filter_eq.
  induction dictionary as [|[k v] d IH]; [done|]. cbn [List.filter map fst].
  destruct (negb _); cbn [map fst]; by rewrite IH.
Qed.

(** ** The merge policy keeps the tags of the store in their order *)

Lemma dict_set_keys (key : string) (v : value) (d : dict) :
  map fst (dict_set key v d)
  = map fst d ++ (if dict_in key d then [] else [key]).
Proof.
  unfold dict_in. induction d as [|[k u] d IH]; [done|].
  cbn [dict_set dict_get]. destruct (String.eqb k key) eqn:E; cbn [map fst].
  - by rewrite app_nil_r.
  - by rewrite IH.
Qed.

Lemma update_item_keys (allow : bool) (base : dict) (entry : string * value) :
  exists added,
    map fst (update_item allow base entry) = map fst base ++ added /\
    forall k, In k added -> k = fst entry.
Proof.
  destruct entry as [key value_new]. unfold update_item.
  assert (Hset : forall v, exists added,
             map fst (dict_set key v base) = map fst base ++ added /\
             forall k, In k added -> k = key).
  { intros v. rewrite dict_set_keys. eexists. split; [done|].
    intros k. destruct (dict_in key base); cbn; intuition. }
  assert (Hsame : exists added,
             map fst base = map fst base ++ added /\ forall k, In k added -> k = key).
  { exists []. split; [by rewrite app_nil_r | by intros k []]. }
  cbn [fst]. destruct (dict_get key base) as [value_base|].
  - destruct (tag_iswritable key base); [|done].
    destruct (as_sequence value_new) as [[? ?]|];
      [destruct (as_sequence value_base) as [[? ?]|]|]; apply Hset.
  - destruct (allow || Str.startswith key "Extra:"); [apply Hset | done].
Qed.

(** X4. [metadata_update] removes and reorders nothing: the tags of the
    store keep their places, and what comes after them are tags of the
    increment. *)
Theorem metadata_update_keeps_order (base update : dict) (allow_new_tags : bool) :
  exists added,
    map fst (metadata_update base update allow_new_tags) = map fst base ++ added /\
    forall k, In k added -> In k (map fst update).
Proof.
  unfold metadata_update. revert base.
  induction update as [|entry update IH]; intros base; cbn [fold_left].
  - exists []. split; [by rewrite app_nil_r | by intros k []].
  - destruct (update_item_keys allow_new_tags base entry) as (added1 & Hkeys1 & Hin1).
    destruct (IH (update_item allow_new_tags base entry)) as (added2 & Hkeys2 & Hin2).
    exists (added1 ++ added2). split.
    + by rewrite Hkeys2, Hkeys1, app_assoc.
    + intros k Hin. cbn [map]. apply List.in_app_or in Hin as [Hin|Hin].
      * left. symmetry. by apply Hin1.
      * right. by apply Hin2.
Qed.

(** ** Shape and turns of the geometric transform *)

Lemma omap_Forall2 {B C : Type} (f : B -> option C) (l : list B) (l' : list C) :
  Forall2 (fun x y => f x = Some y) l l' -> omap f l = l'.
Proof.
  induction 1 as [|x y l l' Hxy _ IH]; [done|]. cbn. by rewrite Hxy, IH.
Qed.

Lemma slice_length {B : Type} (start size : Z) (l : list B) :
  0 <= start -> 0 <= size -> start + size <= Z.of_nat (length l) ->
  Z.of_nat (length (slice start (start + size) l)) = size.
Proof.
  intros Hstart Hsize Hfit. unfold slice.
  rewrite length_take, length_drop. lia.
Qed.

Section RasterShape.
Context {A : Type}.

(** X5. [image_transform] returns a raster exactly when the crop box,
    with a width or height of 0 read as the full extent, has a positive
    size and lies inside the raster, and the angle, if given, is a
    multiple of 90; otherwise it raises. *)
Theorem image_transform_succeeds (image : ndarray A)
    (crop_left crop_top crop_width crop_height : Z)
    (rotate_cw : option Z) (flip_horizontal flip_vertical : option bool) :
  (exists image_result,
     image_transform image crop_left crop_top crop_width crop_height rotate_cw
                     flip_horizontal flip_vertical = Ok image_result) <->
  0 < (if crop_width =? 0 then shape1 image else crop_width) /\
  0 < (if crop_height =? 0 then shape0 image else crop_height) /\
  0 <= crop_left /\ 0 <= crop_top /\
  crop_left + (if crop_width =? 0 then shape1 image else crop_width) <= shape1 image /\
  crop_top + (if crop_height =? 0 then shape0 image else crop_height) <= shape0 image /\
  match rotate_cw with Some angle => angle mod 90 = 0 | None => True end.
Proof.
  unfold image_transform.
  set (w := if crop_width =? 0 then shape1 image else crop_width).
  set (h := if crop_height =? 0 then shape0 image else crop_height).
  destruct ((w <=? 0) || (h <=? 0)) eqn:Esize.
  { split; [by intros [? ?]|]. apply orb_true_iff in Esize. lia. }
  apply orb_false_iff in Esize.
  destruct (_ || _ || _ || _) eqn:Ebox.
  { split; [by intros [? ?]|]. rewrite !orb_true_iff in Ebox. lia. }
  rewrite !orb_false_iff in Ebox.
  destruct rotate_cw as [angle|]; cbn [mbind result_bind].
  - destruct (angle =? 0) eqn:E0.
    { apply Z.eqb_eq in E0. subst angle. split; [intros _|by eexists].
      repeat split; try lia. }
    destruct (angle mod 90 =? 0) eqn:E90; cbn [negb].
    + split; [intros _; repeat split; lia|]. intros _.
      destruct (negb _); by eexists.
    + split; [by intros [? ?]|]. lia.
  - split; [intros _; repeat split; lia | by eexists].
Qed.

(** Column [j] of rows that are all at least [j + 1] long. *)
Lemma column_Forall2 (rs : list (list A)) (n : Z) (j : nat) :
  Forall (fun r => Z.of_nat (length r) = n) rs -> Z.of_nat j < n ->
  exists col, omap (fun r => r !! j) rs = col /\
              Forall2 (fun r y => r !! j = Some y) rs col.
Proof.
  intros Hrs Hj. induction Hrs as [|r rs Hr _ (col & Hcol & Hall)].
  - exists []. by split.
  - destruct (lookup_lt_is_Some_2 r j) as [y Hy]; [lia|].
    exists (y :: col). cbn. rewrite Hy, Hcol. split; [done|]. by constructor.
Qed.

Lemma transpose_rows_lookup (m : ndarray A) (j : nat) :
  well_shaped m -> Z.of_nat j < shape1 m ->
  exists col, rows (transpose m) !! j = Some col /\
              Forall2 (fun r y => r !! j = Some y) (rows m) col.
Proof.
  intros [_ Hcols] Hj.
  destruct (column_Forall2 (rows m) (shape1 m) j Hcols Hj) as (col & Hcol & Hall).
  exists col. split; [|done]. cbn [transpose rows].
  rewrite list_lookup_fmap, lookup_seq_lt by lia. cbn. by rewrite Hcol.
Qed.

Lemma fliplr_well_shaped (m : ndarray A) : well_shaped m -> well_shaped (fliplr m).
Proof.
  intros [Hrows Hcols]. split; cbn; [by rewrite length_map|].
  apply Forall_fmap. eapply Forall_impl; [exact Hcols|].
  intros r Hr. cbn. by rewrite length_rev.
Qed.

Lemma flipud_well_shaped (m : ndarray A) : well_shaped m -> well_shaped (flipud m).
Proof.
  intros [Hrows Hcols]. split; cbn; [by rewrite length_rev|].
  by apply Forall_rev.
Qed.

Lemma transpose_well_shaped (m : ndarray A) :
  well_shaped m -> 0 <= shape1 m -> well_shaped (transpose m).
Proof.
  intros Hm H1. split; cbn [transpose shape0 shape1 rows].
  - rewrite length_map, length_seq. lia.
  - apply Forall_fmap, Forall_forall. intros j Hj%elem_of_seq. cbn.
    destruct Hm as [Hrows Hcols].
    destruct (column_Forall2 (rows m) (shape1 m) j Hcols) as (col & -> & Hall); [lia|].
    apply Forall2_length in Hall. lia.
Qed.

Lemma transpose_transpose (m : ndarray A) :
  well_shaped m -> 0 <= shape1 m -> transpose (transpose m) = m.
Proof.
  intros Hm H1. pose proof Hm as [Hrows Hcols].
  destruct m as [n0 n1 rs]. cbn [shape0 shape1 rows] in *.
  unfold transpose at 1. cbn [shape0 shape1]. f_equal.
  cbn [transpose shape0 shape1].
  set (m := {| shape0 := n0; shape1 := n1; rows := rs |}) in *.
  apply list_eq. intros i. rewrite list_lookup_fmap.
  destruct (decide (i < length rs)%nat) as [Hi|Hi].
  - rewrite lookup_seq_lt by lia. cbn.
    destruct (lookup_lt_is_Some_2 rs i Hi) as [r Hr]. rewrite Hr. f_equal.
    apply omap_Forall2.
    assert (Hlen : Z.of_nat (length r) = n1).
    { exact (Forall_lookup_1 _ _ _ _ Hcols Hr). }
    apply Forall2_same_length_lookup. split.
    + cbn. rewrite length_map, length_seq. lia.
    + intros j col y Hcol Hy.
      assert (Hj : Z.of_nat j < n1).
      { apply lookup_lt_Some in Hy. lia. }
      destruct (transpose_rows_lookup m j Hm Hj) as (col' & Hcol' & Hall).
      unfold m, transpose in Hcol'. cbn [rows shape1] in Hcol'.
      rewrite Hcol in Hcol'. injection Hcol' as <-.
      destruct (Forall2_lookup_l _ _ _ _ _ Hall Hr) as (y' & Hy' & Hry).
      rewrite Hry in Hy. by injection Hy as ->.
  - rewrite lookup_seq_ge by lia. cbn. symmetry. apply lookup_ge_None. lia.
Qed.

Lemma fliplr_fliplr (m : ndarray A) : fliplr (fliplr m) = m.
Proof.
  destruct m as [n0 n1 rs]. unfold fliplr. cbn. f_equal.
  rewrite map_map. rewrite <- (map_id rs) at 2. apply map_ext. apply rev_involutive.
Qed.

Lemma crop_well_shaped (image : ndarray A) (l t w h : Z) :
  well_shaped image ->
  0 <= l -> 0 <= t -> 0 <= w -> 0 <= h ->
  t + h <= shape0 image -> l + w <= shape1 image ->
  well_shaped {| shape0 := h; shape1 := w;
                 rows := map (slice l (l + w)) (slice t (t + h) (rows image)) |}.
Proof.
  intros [Hrows Hcols] Hl Ht Hw Hh Hfit0 Hfit1. split; cbn [shape0 shape1 rows].
  - rewrite length_map. apply slice_length; lia.
  - apply Forall_fmap. unfold slice at 2.
    apply Forall_take, Forall_drop. eapply Forall_impl; [exact Hcols|].
    intros r Hr. cbn beta in Hr |- *. apply slice_length; lia.
Qed.

Lemma rot90_well_shaped (m : ndarray A) (k : Z) :
  well_shaped m -> 0 <= shape0 m -> 0 <= shape1 m ->
  well_shaped (rot90 m k) /\
  (shape0 (rot90 m k), shape1 (rot90 m k))
  = if (k =? 1) || (k =? 3) then (shape1 m, shape0 m) else (shape0 m, shape1 m).
Proof.
  intros Hm H0 H1. unfold rot90.
  destruct (k =? 1) eqn:E1; [|destruct (k =? 2) eqn:E2; [|destruct (k =? 3) eqn:E3]];
    cbn [orb].
  - split; [|done]. apply transpose_well_shaped; [by apply fliplr_well_shaped | done].
  - assert ((k =? 3) = false) as -> by lia.
    split; [|done]. by apply flipud_well_shaped, fliplr_well_shaped.
  - split; [|done]. by apply fliplr_well_shaped, transpose_well_shaped.
  - by split.
Qed.

Lemma quarter_turns_odd (angle : Z) :
  angle mod 90 = 0 ->
  ((- angle / 90) mod 4 =? 1) || ((- angle / 90) mod 4 =? 3) = Z.odd (angle / 90).
Proof.
  intros Hmod. apply Z.mod_divide in Hmod as [q ->]; [|lia].
  rewrite <- Z.mul_opp_l, !Z.div_mul by lia.
  pose proof (Z.mod_pos_bound (- q) 4 ltac:(lia)) as Hk.
  pose proof (Z.div_mod (- q) 4 ltac:(lia)) as Hq.
  destruct (Z.odd q) eqn:Eodd.
  - apply Z.odd_spec in Eodd as [p ->]. apply orb_true_iff. lia.
  - rewrite <- Z.negb_even in Eodd. apply negb_false_iff, Z.even_spec in Eodd as [p ->].
    apply orb_false_iff. lia.
Qed.

(** X6. What [image_transform] returns for a well-shaped raster is
    well shaped, and its shape is the crop size: height by width, or
    width by height after an odd number of quarter turns. *)
Theorem image_transform_well_shaped (image image_result : ndarray A)
    (crop_left crop_top crop_width crop_height : Z)
    (rotate_cw : option Z) (flip_horizontal flip_vertical : option bool) :
  well_shaped image ->
  image_transform image crop_left crop_top crop_width crop_height rotate_cw
                  flip_horizontal flip_vertical = Ok image_result ->
  well_shaped image_result /\
  (shape0 image_result, shape1 image_result)
  = (if match rotate_cw with Some angle => Z.odd (angle / 90) | None => false end
     then (if crop_width =? 0 then shape1 image else crop_width,
           if crop_height =? 0 then shape0 image else crop_height)
     else (if crop_height =? 0 then shape0 image else crop_height,
           if crop_width =? 0 then shape1 image else crop_width)).
Proof.
  intros Hm. unfold image_transform.
  set (w := if crop_width =? 0 then shape1 image else crop_width).
  set (h := if crop_height =? 0 then shape0 image else crop_height).
  destruct ((w <=? 0) || (h <=? 0)) eqn:Esize; [done|].
  apply orb_false_iff in Esize.
  destruct (_ || _ || _ || _) eqn:Ebox; [done|].
  rewrite !orb_false_iff in Ebox.
  set (cropped := {| shape0 := h; shape1 := w; rows := _ |}).
  assert (Hcropped : well_shaped cropped) by (apply crop_well_shaped; lia || done).
  assert (Hflips : forall m : ndarray A,
             well_shaped m ->
             well_shaped
               (if default false flip_vertical
                then flipud (if default false flip_horizontal then fliplr m else m)
                else if default false flip_horizontal then fliplr m else m) /\
             (shape0 (if default false flip_vertical
                then flipud (if default false flip_horizontal then fliplr m else m)
                else if default false flip_horizontal then fliplr m else m),
              shape1 (if default false flip_vertical
                then flipud (if default false flip_horizontal then fliplr m else m)
                else if default false flip_horizontal then fliplr m else m))
             = (shape0 m, shape1 m)).
  { intros m Hwf. destruct (default false flip_vertical), (default false flip_horizontal);
      (split; [|done]); auto using fliplr_well_shaped, flipud_well_shaped. }
  assert (Hplain : forall r : ndarray A,
             (let image_result0 := cropped in
              let image_result1 :=
                if default false flip_horizontal then fliplr image_result0
                else image_result0 in
              let image_result2 :=
                if default false flip_vertical then flipud image_result1
                else image_result1 in
              Ok image_result2) = Ok r ->
             well_shaped r /\ (shape0 r, shape1 r) = (h, w)).
  { intros r Hr. cbv zeta in Hr. injection Hr as <-. apply (Hflips cropped Hcropped). }
  destruct rotate_cw as [angle|]; cbn [mbind result_bind]; [|apply Hplain].
  destruct (angle =? 0) eqn:E0.
  { apply Z.eqb_eq in E0. subst angle. cbn [Z.div Z.odd]. apply Hplain. }
  destruct (angle mod 90 =? 0) eqn:E90; cbn [negb]; [|done].
  apply Z.eqb_eq in E90. rewrite <- (quarter_turns_odd angle E90).
  set (k := (- angle / 90) mod 4).
  destruct (rot90_well_shaped cropped k Hcropped) as [Hturned Hshape];
    [cbn; lia | cbn; lia |].
  destruct (k =? 0) eqn:Ek; cbn [negb].
  - apply Z.eqb_eq in Ek. rewrite Ek. cbn [Z.eqb orb]. apply Hplain.
  - intros Hr. cbv zeta in Hr. injection Hr as <-.
    destruct (Hflips (rot90 cropped k) Hturned) as [Hwf Hsame].
    split; [done|]. rewrite Hsame, Hshape. by destruct (_ || _).
Qed.

Lemma flipud_flipud (m : ndarray A) : flipud (flipud m) = m.
Proof. destruct m as [n0 n1 rs]. unfold flipud. cbn. by rewrite rev_involutive. Qed.

Lemma flipud_fliplr (m : ndarray A) : flipud (fliplr m) = fliplr (flipud m).
Proof. destruct m as [n0 n1 rs]. unfold flipud, fliplr. cbn. by rewrite map_rev. Qed.

(** A turn by [k] quarters followed by a turn by [4 - k] quarters. *)
Lemma rot90_back (m : ndarray A) (k : Z) :
  well_shaped m -> 0 <= shape0 m -> 0 <= shape1 m -> 0 <= k < 4 ->
  rot90 (rot90 m k) ((4 - k) mod 4) = m.
Proof.
  intros Hm H0 H1 Hk.
  assert (Hcases : k = 0 \/ k = 1 \/ k = 2 \/ k = 3) by lia.
  destruct Hcases as [-> | [-> | [-> | ->]]];
    [change ((4 - 0) mod 4) with 0 | change ((4 - 1) mod 4) with 3
    | change ((4 - 2) mod 4) with 2 | change ((4 - 3) mod 4) with 1];
    unfold rot90; cbn [Z.eqb Pos.eqb].
  - done.
  - rewrite transpose_transpose; [apply fliplr_fliplr | by apply fliplr_well_shaped | done].
  - rewrite (flipud_fliplr m), fliplr_fliplr. apply flipud_flipud.
  - rewrite fliplr_fliplr. by apply transpose_transpose.
Qed.

(** The whole raster, turned. *)
Lemma image_transform_whole (image : ndarray A) (angle : Z) :
  well_shaped image -> 0 < shape0 image -> 0 < shape1 image ->
  image_transform image 0 0 0 0 (Some angle) None None
  = if negb (angle mod 90 =? 0)
    then Raise (ValueError "Error! Rotate can only be performed by multiple of 90 degrees.")
    else Ok (rot90 image ((- angle / 90) mod 4)).
Proof.
  intros [Hrows Hcols] H0 H1. unfold image_transform. cbn [Z.eqb].
  replace ((shape1 image <=? 0) || (shape0 image <=? 0)) with false
    by (symmetry; apply orb_false_iff; lia).
  replace ((0 <? 0) || (0 <? 0) || (shape0 image <? 0 + shape0 image)
           || (shape1 image <? 0 + shape1 image)) with false
    by (symmetry; rewrite !orb_false_iff; lia).
  rewrite (slice_all _ _ Hrows).
  assert (Hmap : map (slice 0 (0 + shape1 image)) (rows image) = rows image).
  { clear Hrows. induction Hcols as [|r rs Hr' _ IH]; [done|].
    cbn [map]. by rewrite IH, (slice_all _ _ Hr'). }
  rewrite Hmap.
  assert (Hsame : {| shape0 := shape0 image; shape1 := shape1 image;
                     rows := rows image |} = image) by by destruct image.
  rewrite Hsame. cbn [mbind result_bind default].
  destruct (angle =? 0) eqn:E0.
  { apply Z.eqb_eq in E0. by subst angle. }
  destruct (negb (angle mod 90 =? 0)); [done|].
  destruct ((- angle / 90) mod 4 =? 0) eqn:Ek; cbn [negb mbind result_bind]; [|done].
  apply Z.eqb_eq in Ek. by rewrite Ek.
Qed.

Lemma image_transform_size (image image_result : ndarray A)
    (rotate_cw : option Z) (flip_h flip_v : option bool) :
  image_transform image 0 0 0 0 rotate_cw flip_h flip_v = Ok image_result ->
  0 < shape0 image /\ 0 < shape1 image.
Proof.
  unfold image_transform. cbn [Z.eqb].
  destruct (_ || _) eqn:Esize; [done|]. apply orb_false_iff in Esize. lia.
Qed.

(** X7. Turning the whole raster by an angle and the result by the
    opposite angle gives the raster back. *)
Theorem image_transform_turn_back (image turned : ndarray A) (angle : Z) :
  well_shaped image ->
  image_transform image 0 0 0 0 (Some angle) None None = Ok turned ->
  image_transform turned 0 0 0 0 (Some (- angle)) None None = Ok image.
Proof.
  intros Hm Hrun. destruct (image_transform_size _ _ _ _ _ Hrun) as [H0 H1].
  rewrite image_transform_whole in Hrun by done.
  destruct (angle mod 90 =? 0) eqn:E90; [|done]. cbn [negb] in Hrun.
  apply Ok_inj in Hrun. apply Z.eqb_eq in E90.
  set (k := (- angle / 90) mod 4) in *.
  assert (Hk : 0 <= k < 4) by (apply Z.mod_pos_bound; lia).
  destruct (rot90_well_shaped image k Hm) as [Hturned Hshape]; [lia | lia |].
  rewrite Hrun in Hturned, Hshape.
  assert (Hpos : 0 < shape0 turned /\ 0 < shape1 turned).
  { destruct (_ || _); injection Hshape as -> ->; lia. }
  rewrite image_transform_whole by (done || lia).
  assert (Hback : (- angle) mod 90 = 0).
  { apply Z.mod_divide in E90 as [q ->]; [|lia].
    rewrite <- Z.mul_opp_l. by apply Z.mod_mul. }
  rewrite Hback. cbn [Z.eqb negb]. f_equal.
  assert (Hk' : (- - angle / 90) mod 4 = (4 - k) mod 4).
  { rewrite Z.opp_involutive. subst k.
    apply Z.mod_divide in E90 as [q ->]; [|lia].
    rewrite <- Z.mul_opp_l, !Z.div_mul by lia.
    pose proof (Z.div_mod (- q) 4 ltac:(lia)) as Hq.
    replace (4 - (- q) mod 4) with (q + (- q / 4 + 1) * 4) by lia.
    by rewrite Z.mod_add. }
  rewrite Hk', <- Hrun. apply rot90_back; (done || lia).
Qed.

End RasterShape.

(** The first column of the 2x2 raster, turned by 90 degrees, is one row
    of two pixels. *)
Lemma image_transform_well_shaped_witness :
  exists image_result,
    image_transform raster_2x2 0 0 1 0 (Some 90) None None = Ok image_result /\
    well_shaped image_result /\
    (shape0 image_result, shape1 image_result) = (1, 2).
Proof.
  eexists. split; [reflexivity|].
  exact (image_transform_well_shaped raster_2x2 _ 0 0 1 0 (Some 90) None None
           raster_2x2_well_shaped eq_refl).
Defined.

(** The 2x2 raster turned by 90 degrees and back. *)
Lemma image_transform_turn_back_witness :
  exists turned,
    image_transform raster_2x2 0 0 0 0 (Some 90) None None = Ok turned /\
    image_transform turned 0 0 0 0 (Some (- 90)) None None = Ok raster_2x2.
Proof.
  eexists. split; [reflexivity|].
  exact (image_transform_turn_back raster_2x2 _ 90 raster_2x2_well_shaped eq_refl).
Defined.

(** ** What auto-fill resolves and what it leaves

    The two offset tags are filled in only together with their date
    tag, and the shutter-speed and aperture tags receive a copy, so
    these four can come out of auto-fill with the AUTO marker. *)

Section AutofillResolves.
Context `{PyBuiltins}.

Lemma holds_auto_set (k k' : string) (v : value) (m : dict) :
  is_marker AUTO v = false -> holds_auto k m = false ->
  holds_auto k (dict_set k' v m) = false.
Proof.
  intros Hv Hk. unfold holds_auto, dict_get_default in *.
  destruct (String.eqb_spec k k') as [->|Hne].
  - by rewrite dict_get_set_eq.
  - by rewrite dict_get_set_ne.
Qed.

Lemma holds_auto_set_eq (k : string) (v : value) (m : dict) :
  is_marker AUTO v = false -> holds_auto k (dict_set k v m) = false.
Proof.
  intros Hv. unfold holds_auto, dict_get_default. by rewrite dict_get_set_eq.
Qed.

Lemma holds_auto_frame (k : string) (m m' : dict) :
  dict_get k m' = dict_get k m -> holds_auto k m = false -> holds_auto k m' = false.
Proof. unfold holds_auto, dict_get_default. by intros ->. Qed.

Lemma split_sign_literal (allow_int : bool) (v negated : value) (sign : bool) :
  split_sign allow_int v = Some (sign, negated) -> is_marker AUTO negated = false.
Proof.
  unfold split_sign. intros Hsplit. repeat case_match; by simplify_eq.
Qed.

(** Splits a block of [metadata_autofill] on its tests and outcomes and
    follows the marker test of [k] through the assignments. *)
Ltac resolve :=
  intros;
  repeat match goal with
         | Heq : context [match ?x with _ => _ end] |- _ =>
             destruct x eqn:?; try discriminate Heq
         | Heq : Ok _ = Ok _ |- _ => injection Heq as <-
         | |- context [match ?x with _ => _ end] => destruct x eqn:?
         end;
  repeat first [ done
               | apply holds_auto_set_eq; [done|]
               | apply holds_auto_set_eq; done
               | apply holds_auto_set; [done|] ].

Lemma autofill_document_name_keeps (k : string) (m m' : dict) :
  autofill_document_name m = Ok m' ->
  holds_auto k m = false \/ k = "DocumentName" -> holds_auto k m' = false.
Proof.
  unfold autofill_document_name, mbind, result_bind. intros Hrun [Hk | ->]; resolve.
Qed.

Lemma autofill_modify_date_keeps (env : autofill_env) (k : string) (m : dict) :
  holds_auto k m = false \/ k = "ModifyDate" ->
  holds_auto k (autofill_modify_date env m) = false.
Proof.
  unfold autofill_modify_date. intros [Hk | ->]; resolve.
Qed.

Lemma autofill_image_size_keeps (env : autofill_env) (k : string) (m m' : dict) :
  autofill_image_size env m = Ok m' ->
  holds_auto k m = false \/ k = "ExifImageWidth" \/ k = "ExifImageHeight" ->
  holds_auto k m' = false.
Proof.
  unfold autofill_image_size, mbind, result_bind. intros Hrun [Hk | [-> | ->]]; resolve.
Qed.

Lemma autofill_create_date_keeps (env : autofill_env) (k : string) (m m' : dict) :
  autofill_create_date env m = Ok m' ->
  holds_auto k m = false \/ k = "CreateDate" -> holds_auto k m' = false.
Proof.
  unfold autofill_create_date, mbind, result_bind. intros Hrun [Hk | ->]; resolve.
Qed.

Lemma autofill_from_text_keeps (ref_tag tag positive negative text error k : string)
    (m m' : dict) :
  autofill_from_text ref_tag tag positive negative text error m = Ok m' ->
  holds_auto k m = false \/ k = ref_tag -> holds_auto k m' = false.
Proof.
  unfold autofill_from_text, mbind, result_bind. intros Hrun [Hk | ->]; resolve.
Qed.

Lemma autofill_from_number_keeps (ref_tag tag : string) (allow_int : bool)
    (positive negative v : value) (error k : string) (m m' : dict) :
  is_marker AUTO positive = false -> is_marker AUTO negative = false ->
  autofill_from_number ref_tag tag allow_int positive negative v error m = Ok m' ->
  holds_auto k m = false \/ k = ref_tag -> holds_auto k m' = false.
Proof.
  unfold autofill_from_number. intros Hp Hn Hrun Hk.
  destruct (split_sign allow_int v) as [[[] negated]|] eqn:Hsplit; [| |done];
    apply Ok_inj in Hrun; subst m'.
  - destruct Hk as [Hk | ->]; [by apply holds_auto_set | by apply holds_auto_set_eq].
  - apply split_sign_literal in Hsplit.
    destruct Hk as [Hk | ->].
    + by do 2 (apply holds_auto_set; [done|]).
    + apply holds_auto_set; [done|]. by apply holds_auto_set_eq.
Qed.

Lemma autofill_latitude_keeps (k : string) (m m' : dict) :
  autofill_latitude m = Ok m' ->
  holds_auto k m = false \/ k = "GPSLatitudeRef" -> holds_auto k m' = false.
Proof.
  unfold autofill_latitude. intros Hrun Hk.
  destruct (holds_auto "GPSLatitudeRef" m) eqn:Href.
  - repeat case_match; simplify_eq;
      try (by eapply autofill_from_text_keeps; [eassumption | exact Hk]);
      try (by eapply autofill_from_number_keeps; [| | eassumption | exact Hk]);
      destruct Hk as [Hk | ->];
      (by apply holds_auto_set) || (by apply holds_auto_set_eq).
  - apply Ok_inj in Hrun. subst m'. by destruct Hk as [Hk | ->].
Qed.

Lemma autofill_longitude_keeps (k : string) (m m' : dict) :
  autofill_longitude m = Ok m' ->
  holds_auto k m = false \/ k = "GPSLongitudeRef" -> holds_auto k m' = false.
Proof.
  unfold autofill_longitude. intros Hrun Hk.
  destruct (holds_auto "GPSLongitudeRef" m) eqn:Href.
  - repeat case_match; simplify_eq;
      try (by eapply autofill_from_text_keeps; [eassumption | exact Hk]);
      try (by eapply autofill_from_number_keeps; [| | eassumption | exact Hk]);
      destruct Hk as [Hk | ->];
      (by apply holds_auto_set) || (by apply holds_auto_set_eq).
  - apply Ok_inj in Hrun. subst m'. by destruct Hk as [Hk | ->].
Qed.

Lemma autofill_altitude_keeps (k : string) (m m' : dict) :
  autofill_altitude m = Ok m' ->
  holds_auto k m = false \/ k = "GPSAltitudeRef" -> holds_auto k m' = false.
Proof.
  unfold autofill_altitude. intros Hrun Hk.
  destruct (holds_auto "GPSAltitudeRef" m) eqn:Href.
  - repeat case_match; simplify_eq;
      try (by eapply autofill_from_number_keeps; [| | eassumption | exact Hk]);
      destruct Hk as [Hk | ->];
      (by apply holds_auto_set) || (by apply holds_auto_set_eq).
  - apply Ok_inj in Hrun. subst m'. by destruct Hk as [Hk | ->].
Qed.

Lemma autofill_processing_method_keeps (k : string) (m : dict) :
  holds_auto k m = false \/ k = "GPSProcessingMethod" ->
  holds_auto k (autofill_processing_method m) = false.
Proof.
  unfold autofill_processing_method. intros [Hk | ->]; resolve.
Qed.

(** X8. When auto-fill returns, none of the tags [DocumentName],
    [ModifyDate], [ExifImageWidth], [ExifImageHeight], [CreateDate],
    [GPSLatitudeRef], [GPSLongitudeRef], [GPSAltitudeRef] and
    [GPSProcessingMethod] holds the AUTO marker any more. *)
Theorem metadata_autofill_resolves (env : autofill_env) (metadata metadata' : dict)
    (key : string) :
  metadata_autofill env metadata = Ok metadata' ->
  In key ["DocumentName"; "ModifyDate"; "ExifImageWidth"; "ExifImageHeight";
          "CreateDate"; "GPSLatitudeRef"; "GPSLongitudeRef"; "GPSAltitudeRef";
          "GPSProcessingMethod"] ->
  holds_auto key metadata' = false.
Proof.
  unfold metadata_autofill, mbind, result_bind. intros Hrun Hkey.
  destruct (autofill_document_name metadata) as [m1|] eqn:E1; [|done].
  remember (autofill_modify_date env m1) as m2 eqn:E2.
  remember (autofill_shutter_speed m2) as m3 eqn:E3.
  remember (autofill_aperture m3) as m4 eqn:E4.
  destruct (autofill_image_size env m4) as [m5|] eqn:E5; [|done].
  destruct (autofill_create_date env m5) as [m6|] eqn:E6; [|done].
  destruct (autofill_latitude m6) as [m7|] eqn:E7; [|done].
  destruct (autofill_longitude m7) as [m8|] eqn:E8; [|done].
  destruct (autofill_altitude m8) as [m9|] eqn:E9; [|done].
  injection Hrun as <-.
  assert (H34 : key ≠ "ShutterSpeedValue" -> key ≠ "ApertureValue" ->
                holds_auto key m2 = false -> holds_auto key m4 = false).
  { intros Hs Ha. subst m4 m3. apply holds_auto_frame.
    by rewrite autofill_aperture_frame, autofill_shutter_speed_frame. }
  pose proof (autofill_document_name_keeps key _ _ E1) as K1.
  pose proof (autofill_modify_date_keeps env key m1) as K2. rewrite <- E2 in K2.
  pose proof (autofill_image_size_keeps env key _ _ E5) as K5.
  pose proof (autofill_create_date_keeps env key _ _ E6) as K6.
  pose proof (autofill_latitude_keeps key _ _ E7) as K7.
  pose proof (autofill_longitude_keeps key _ _ E8) as K8.
  pose proof (autofill_altitude_keeps key _ _ E9) as K9.
  pose proof (autofill_processing_method_keeps key m9) as K10.
  cbn [In] in Hkey.
  repeat destruct Hkey as [<- | Hkey]; [..|done];
    repeat match goal with
           | K : _ -> holds_auto _ ?m = false |- holds_auto _ ?m = false =>
               apply K; try (right; by auto); left
           | |- holds_auto _ m4 = false => apply H34; [done | done |]
           end.
Qed.

End AutofillResolves.

(** Auto-fill of the compiled-in defaults resolves the scan date. *)
Lemma metadata_autofill_resolves_witness :
  exists metadata',
    @metadata_autofill Sample.builtins sample_observations metadata_default
    = Ok metadata' /\
    holds_auto "CreateDate" metadata' = false.
Proof.
  destruct (@metadata_autofill Sample.builtins sample_observations metadata_default)
    as [metadata'|] eqn:Hrun; [|by vm_compute in Hrun].
  exists metadata'. split; [reflexivity|].
  apply (@metadata_autofill_resolves Sample.builtins _ _ _ _ Hrun).
  do 4 right. by left.
Defined.

Section AutofillLeaves.
Context `{PyBuiltins}.

Lemma holds_auto_get (k : string) (m m' : dict) :
  dict_get k m' = dict_get k m -> holds_auto k m' = holds_auto k m.
Proof. unfold holds_auto, dict_get_default. by intros ->. Qed.

(** X9. The offset tags are filled in only inside the blocks of their
    date tags: when [ModifyDate] does not hold the AUTO marker, an AUTO
    marker in [OffsetTime] comes out of auto-fill as it is, and the
    emission loop then writes the text [Marker.AUTO] into the tag;
    likewise [OffsetTimeDigitized] with [CreateDate]. *)
Theorem metadata_autofill_leaves_offset (env : autofill_env) (metadata metadata' : dict) :
  metadata_autofill env metadata = Ok metadata' ->
  (holds_auto "ModifyDate" metadata = false ->
   dict_get "OffsetTime" metadata = Some (Mark AUTO) ->
   dict_get "OffsetTime" metadata' = Some (Mark AUTO) /\
   exif_arg "OffsetTime" (Mark AUTO) = Ok (Some "-OffsetTime=Marker.AUTO")) /\
  (holds_auto "CreateDate" metadata = false ->
   dict_get "OffsetTimeDigitized" metadata = Some (Mark AUTO) ->
   dict_get "OffsetTimeDigitized" metadata' = Some (Mark AUTO) /\
   exif_arg "OffsetTimeDigitized" (Mark AUTO)
   = Ok (Some "-OffsetTimeDigitized=Marker.AUTO")).
Proof.
  unfold metadata_autofill, mbind, result_bind. intros Hrun.
  destruct (autofill_document_name metadata) as [m1|] eqn:E1; [|done].
  remember (autofill_modify_date env m1) as m2 eqn:E2.
  remember (autofill_shutter_speed m2) as m3 eqn:E3.
  remember (autofill_aperture m3) as m4 eqn:E4.
  destruct (autofill_image_size env m4) as [m5|] eqn:E5; [|done].
  destruct (autofill_create_date env m5) as [m6|] eqn:E6; [|done].
  destruct (autofill_latitude m6) as [m7|] eqn:E7; [|done].
  destruct (autofill_longitude m7) as [m8|] eqn:E8; [|done].
  destruct (autofill_altitude m8) as [m9|] eqn:E9; [|done].
  injection Hrun as <-.
  assert (Hafter : forall key,
    key = "OffsetTime" \/ key = "OffsetTimeDigitized" ->
    dict_get key (autofill_processing_method m9) = dict_get key m6).
  { intros key Hkey.
    rewrite autofill_processing_method_frame by (destruct Hkey; by subst).
    rewrite (autofill_altitude_frame key m8 m9) by (done || destruct Hkey; by subst).
    rewrite (autofill_longitude_frame key m7 m8) by (done || destruct Hkey; by subst).
    by rewrite (autofill_latitude_frame key m6 m7) by (done || destruct Hkey; by subst). }
  assert (Hmiddle : forall key,
    key ≠ "ShutterSpeedValue" -> key ≠ "ApertureValue" ->
    key ≠ "ExifImageWidth" -> key ≠ "ExifImageHeight" ->
    dict_get key m5 = dict_get key m2).
  { intros key ? ? ? ?.
    rewrite (autofill_image_size_frame env key m4 m5) by done. subst m4 m3.
    by rewrite autofill_aperture_frame, autofill_shutter_speed_frame. }
  split; intros Hdate Hoffset; (split; [|reflexivity]).
  - rewrite Hafter by by left.
    rewrite (autofill_create_date_frame env _ m5 m6) by done.
    rewrite Hmiddle by done. subst m2. unfold autofill_modify_date.
    rewrite (holds_auto_get "ModifyDate" metadata m1), Hdate
      by by apply autofill_document_name_frame.
    by rewrite (autofill_document_name_frame _ metadata m1).
  - rewrite Hafter by by right.
    assert (Hbefore : forall key,
      key = "CreateDate" \/ key = "OffsetTimeDigitized" ->
      dict_get key m5 = dict_get key metadata).
    { intros key Hkey. rewrite Hmiddle by (destruct Hkey; by subst). subst m2.
      rewrite autofill_modify_date_frame by (destruct Hkey; by subst).
      apply autofill_document_name_frame; [destruct Hkey; by subst | done]. }
    unfold autofill_create_date in E6.
    rewrite (holds_auto_get "CreateDate" metadata m5), Hdate in E6
      by (apply Hbefore; by left).
    apply Ok_inj in E6. subst m6. rewrite Hbefore by by right. done.
Qed.

End AutofillLeaves.

(** With the modification date given in the defaults, the offset keeps
    its AUTO marker. *)
Lemma metadata_autofill_leaves_offset_witness :
  exists metadata',
    @metadata_autofill Sample.builtins sample_observations
      (dict_set "ModifyDate" (VStr "2025:06:19 10:00:00") metadata_default)
    = Ok metadata' /\
    dict_get "OffsetTime" metadata' = Some (Mark AUTO).
Proof.
  destruct (@metadata_autofill Sample.builtins sample_observations
              (dict_set "ModifyDate" (VStr "2025:06:19 10:00:00") metadata_default))
    as [metadata'|] eqn:Hrun; [|by vm_compute in Hrun].
  exists metadata'. split; [reflexivity|].
  destruct (@metadata_autofill_leaves_offset Sample.builtins _ _ _ Hrun) as [Hoffset _].
  by destruct (Hoffset eq_refl eq_refl).
Defined.

(** ** The internal tags never reach the metadata tool *)

Section EmittedTags.
Context `{PyBuiltins}.

(** An emitted argument is the name of its tag between a dash and one
    of the operators [=], [^=] and [#=]. *)
Lemma exif_arg_names_tag (tag_name : string) (tag_value : value) (arg : string) :
  exif_arg tag_name tag_value = Ok (Some arg) ->
  exists (op : ascii) (text : string),
    arg = "-" +:+ tag_name +:+ String op text /\ is_operator_char op = true.
Proof.
  unfold exif_arg. intros Harg.
  repeat case_match; simplify_eq;
    first [ by exists "="%char, EmptyString
          | by exists "^"%char, "="
          | by eexists "#"%char, _
          | by eexists "="%char, _ ].
Qed.

(** A name that does not start with a prefix, followed by an operator
    that the prefix does not contain, still does not start with it. *)
Lemma startswith_operator (name prefix text : string) (op : ascii) :
  Str.startswith name prefix = false ->
  Str.all (fun a => negb (is_operator_char a)) prefix = true ->
  is_operator_char op = true ->
  Str.startswith (name +:+ String op text) prefix = false.
Proof.
  unfold Str.startswith. intros Hname Hfree Hop. revert prefix Hname Hfree.
  induction name as [|b name IH]; intros [|a prefix]; try done; cbn [Str.all].
  - intros _ [Ha _]%andb_true_iff. change (EmptyString +:+ String op text)
      with (String op text). cbn [String.prefix].
    destruct (ascii_dec a op) as [->|]; [|done]. by rewrite Hop in Ha.
  - intros Hname [_ Hfree]%andb_true_iff. rewrite append_cons.
    cbn [String.prefix] in Hname |- *.
    destruct (ascii_dec a b); [by apply IH | done].
Qed.

Lemma exif_arg_no_prefix (tag_name : string) (tag_value : value) (arg : string) :
  exif_arg tag_name tag_value = Ok (Some arg) ->
  existsb (Str.startswith tag_name) stripped_prefixes = false ->
  existsb (fun prefix => Str.startswith arg ("-" +:+ prefix)) stripped_prefixes = false.
Proof.
  intros (op & text & -> & Hop)%exif_arg_names_tag Hname.
  assert (Hstep : forall prefix,
             Str.startswith tag_name prefix = false ->
             Str.all (fun a => negb (is_operator_char a)) prefix = true ->
             Str.startswith ("-" +:+ tag_name +:+ String op text) ("-" +:+ prefix)
             = false).
  { intros prefix Hprefix Hfree.
    pose proof (startswith_operator tag_name prefix text op Hprefix Hfree Hop) as Hstart.
    unfold Str.startswith in *.
    change ("-" +:+ tag_name +:+ String op text)
      with (String "-" (tag_name +:+ String op text)).
    change ("-" +:+ prefix) with (String "-" prefix).
    cbn [String.prefix]. by destruct (ascii_dec "-" "-"). }
  unfold stripped_prefixes in *. cbn [existsb] in Hname |- *.
  repeat (apply orb_false_iff in Hname as [? Hname]).
  by rewrite !Hstep.
Qed.

Lemma exif_args_loop_names (metadata : dict) (args args' : list string) :
  for_each exif_args_step metadata args = Ok args' ->
  exists tag_args,
    args' = args ++ tag_args /\
    Forall (fun arg => exists name value,
              (name, value) ∈ metadata /\ exif_arg name value = Ok (Some arg)) tag_args.
Proof.
  revert args. induction metadata as [|[k v] metadata IH]; intros args.
  - intros [= <-]. exists []. by rewrite app_nil_r.
  - rewrite for_each_cons. unfold exif_args_step at 1, mbind, result_bind. cbn [fst snd].
    destruct (exif_arg k v) as [arg|] eqn:Harg; [|done]. intros Hloop.
    destruct (IH _ Hloop) as (tag_args & -> & Hall).
    assert (Hall' : Forall (fun arg => exists name value,
              (name, value) ∈ (k, v) :: metadata /\ exif_arg name value = Ok (Some arg))
              tag_args).
    { eapply Forall_impl; [exact Hall|]. intros a (name & value & Hin & Ha).
      exists name, value. split; [by right | done]. }
    destruct arg as [a|].
    + exists (a :: tag_args). split; [by rewrite <- app_assoc|].
      constructor; [|done]. exists k, v. split; [by left | done].
    + by exists tag_args.
Qed.

(** X10. The arguments that [process_file] builds after stripping the
    internal tags are the two options, the arguments of the emitted
    tags and the path of the file. Each argument of a tag is the one
    that the loop body makes of a tag of the store whose name starts
    with none of [ImageTransform:], [Script:], [Scanner:],
    [ImageHistory:] and [Extra:], and its text does not start with a
    dash and one of these prefixes: no argument addresses an internal
    tag. *)
Theorem write_exif_names_no_internal_tag (metadata : dict) (output_path : string)
    (args : list string) :
  exif_args (delete_keys_with_prefixes metadata stripped_prefixes) output_path = Ok args ->
  exists tag_args,
    args = ["-E"; "-overwrite_original"] ++ tag_args ++ [output_path] /\
    Forall (fun arg =>
              existsb (fun prefix => Str.startswith arg ("-" +:+ prefix))
                      stripped_prefixes = false /\
              exists name value,
                (name, value) ∈ metadata /\
                existsb (Str.startswith name) stripped_prefixes = false /\
                exif_arg name value = Ok (Some arg)) tag_args.
Proof.
  rewrite delete_keys_with_prefixes_filter_eq. unfold exif_args, mbind, result_bind.
  destruct (for_each _ _ _) as [args'|] eqn:Hloop; [|done]. intros [= <-].
  destruct (exif_args_loop_names _ _ _ Hloop) as (tag_args & -> & Hall).
  exists tag_args. split; [by rewrite <- app_assoc|].
  eapply Forall_impl; [exact Hall|]. intros a (name & value & Hin & Harg).
  apply list_elem_of_In, List.filter_In in Hin as [Hin Hkeep%negb_true_iff].
  cbn [fst] in Hkeep. split; [by apply (exif_arg_no_prefix name value)|].
  exists name, value. split; [by apply list_elem_of_In | done].
Qed.

End EmittedTags.

(** A store of one internal and one regular tag: the one argument of a
    tag is [-Artist=me]. *)
Lemma write_exif_names_no_internal_tag_witness :
  exists tag_args,
    ["-E"; "-overwrite_original"; "-Artist=me"; "out.tif"]
    = ["-E"; "-overwrite_original"] ++ tag_args ++ ["out.tif"] /\
    Forall (fun arg =>
              existsb (fun prefix => Str.startswith arg ("-" +:+ prefix))
                      stripped_prefixes = false /\
              exists name value,
                (name, value) ∈ [("Extra:FileID", VStr "a"); ("Artist", VStr "me")] /\
                existsb (Str.startswith name) stripped_prefixes = false /\
                @exif_arg Sample.builtins name value = Ok (Some arg)) tag_args.
Proof.
  exact (@write_exif_names_no_internal_tag Sample.builtins
           [("Extra:FileID", VStr "a"); ("Artist", VStr "me")] "out.tif" _ eq_refl).
Defined.

(** ** More facts on Python strings *)

Lemma append_assoc (a b c : string) : (a +:+ b) +:+ c = a +:+ (b +:+ c).
Proof. induction a as [|x a IH]; [done|]. rewrite !append_cons. by rewrite IH. Qed.

Lemma append_nil_r (a : string) : a +:+ EmptyString = a.
Proof. induction a as [|x a IH]; [done|]. by rewrite append_cons, IH. Qed.

Lemma length_append (a b : string) :
  String.length (a +:+ b) = (String.length a + String.length b)%nat.
Proof. induction a as [|x a IH]; [done|]. rewrite append_cons. cbn. by rewrite IH. Qed.

Lemma all_append (p : ascii -> bool) (a b : string) :
  Str.all p (a +:+ b) = Str.all p a && Str.all p b.
Proof.
  induction a as [|x a IH]; [done|]. rewrite append_cons. cbn [Str.all].
  by rewrite IH, andb_assoc.
Qed.

Lemma drop_append (a b : string) : Str.drop (String.length a) (a +:+ b) = b.
Proof. induction a as [|x a IH]; [by destruct b|]. by rewrite append_cons. Qed.

Lemma split_char_nonempty (c : ascii) (s : string) : Str.split_char c s ≠ [].
Proof.
  induction s as [|a s IH]; [done|]. cbn [Str.split_char].
  destruct (Ascii.eqb a c); [done|]. by destruct (Str.split_char c s).
Qed.

Lemma split_char_whole (c : ascii) (s : string) :
  Str.all (fun a => negb (Ascii.eqb a c)) s = true -> Str.split_char c s = [s].
Proof.
  induction s as [|a s IH]; [done|]. cbn [Str.all Str.split_char].
  intros [Ha Hs]%andb_true_iff. apply negb_true_iff in Ha. rewrite Ha.
  by rewrite IH.
Qed.

Lemma split_char_append (c : ascii) (x y : string) :
  Str.split_char c (x +:+ String c y) = Str.split_char c x ++ Str.split_char c y.
Proof.
  induction x as [|a x IH].
  - change (EmptyString +:+ String c y) with (String c y).
    cbn [Str.split_char]. by rewrite Ascii.eqb_refl.
  - rewrite append_cons. cbn [Str.split_char]. rewrite IH.
    destruct (Ascii.eqb a c); [done|].
    pose proof (split_char_nonempty c x).
    by destruct (Str.split_char c x).
Qed.

(** [split_last] finds the separator in front of [r] when it occurs
    nowhere further right. *)
Lemma split_last_append (sep l r : string) :
  sep ≠ EmptyString ->
  Str.split_last sep (Str.drop 1 (sep +:+ r)) = None ->
  Str.split_last sep (l +:+ sep +:+ r) = Some (l, r).
Proof.
  intros Hsep Hlast. induction l as [|a l IH].
  - destruct sep as [|c sep]; [done|].
    change (EmptyString +:+ String c sep +:+ r) with (String c (sep +:+ r)).
    cbn [Str.split_last].
    change (Str.drop 1 (String c sep +:+ r)) with (sep +:+ r) in Hlast.
    rewrite Hlast.
    change (String c (sep +:+ r)) with (String c sep +:+ r).
    by rewrite prefix_append, drop_append.
  - rewrite append_cons. cbn [Str.split_last]. by rewrite IH.
Qed.

(** The converse: to the right of the split point the separator does
    not occur again. *)
Lemma split_last_rest (sep s l r : string) :
  sep ≠ EmptyString ->
  Str.split_last sep s = Some (l, r) ->
  Str.split_last sep (Str.drop 1 (sep +:+ r)) = None.
Proof.
  intros Hsep. revert l. induction s as [|a s IH]; intros l; cbn [Str.split_last]; [done|].
  destruct (Str.split_last sep s) as [[l0 r0]|] eqn:Hs.
  - intros [= <- <-]. by apply (IH l0).
  - destruct (String.prefix sep (String a s)) eqn:Hp; [|done].
    intros [= <- <-]. apply prefix_drop in Hp. rewrite <- Hp.
    cbn [Str.drop]. exact Hs.
Qed.

Lemma split_last_no_underscore (r : string) :
  Str.all no_underscore r = true ->
  Str.split_last "__" r = None /\ Str.split_last "__" (String "_" r) = None.
Proof.
  induction r as [|a r IH]; [done|]. cbn [Str.all].
  intros [Ha Hr]%andb_true_iff. destruct (IH Hr) as [IH1 IH2].
  assert (Hne : a ≠ "_"%char).
  { intros ->. done. }
  split.
  - cbn [Str.split_last]. rewrite IH1. cbn [String.prefix].
    destruct (ascii_dec "_" a); [congruence | done].
  - change (Str.split_last "__" (String "_" (String a r)))
      with (match Str.split_last "__" (String a r) with
            | Some (l, r') => Some (String "_" l, r')
            | None => if String.prefix "__" (String "_" (String a r))
                      then Some (EmptyString, Str.drop 2 (String "_" (String a r)))
                      else None
            end).
    cbn [Str.split_last]. rewrite IH1. cbn [String.prefix].
    destruct (ascii_dec "_" a); [congruence|].
    destruct (ascii_dec "_" "_"); [|done]. by destruct (ascii_dec "_" a).
Qed.

(** ** From the crop box in a file name back to the box *)

Lemma all_impl (p q : ascii -> bool) (s : string) :
  (forall a, p a = true -> q a = true) -> Str.all p s = true -> Str.all q s = true.
Proof.
  intros Hpq. induction s as [|a s IH]; [done|]. cbn [Str.all].
  intros [Ha Hs]%andb_true_iff. by rewrite (Hpq a Ha), IH.
Qed.

Lemma string_of_uint_digits (d : Decimal.uint) :
  Str.all is_digit (NilEmpty.string_of_uint d) = true.
Proof. induction d; cbn [NilEmpty.string_of_uint Str.all]; by rewrite ?IHd. Qed.

(** [str(z)] of a natural number is a non-empty run of digits. *)
Lemma int_str_digits (z : Z) :
  0 <= z -> exists a s, int_str z = String a s /\ Str.all is_digit (String a s) = true.
Proof.
  intros Hz. unfold int_str. destruct z as [|p|p]; [by exists "0"%char, EmptyString| |lia].
  cbn [Z.to_int NilZero.string_of_int]. unfold NilZero.string_of_uint.
  pose proof (string_of_uint_digits (Pos.to_uint p)) as Hdigits.
  destruct (Pos.to_uint p) eqn:Hp; eexists _, _; (split; [reflexivity | exact Hdigits]).
Qed.

Lemma is_digit_plain (a : ascii) :
  is_digit a = true ->
  a ≠ "_"%char /\ a ≠ "-"%char /\ a ≠ "m"%char.
Proof. destruct a as [[] [] [] [] [] [] [] []]; by cbn. Qed.

Section CropToken.
Context `{PyBuiltins}.

Lemma str2int_int_str (z : Z) :
  0 <= z -> py_int (int_str z) = Some z -> str2int (int_str z) = Ok z.
Proof.
  intros Hz Hread. destruct (int_str_digits z Hz) as (a & s & Hstr & Hdigits).
  unfold str2int. rewrite Hstr in *. rewrite startswith_char.
  cbn [Str.all] in Hdigits. apply andb_true_iff in Hdigits as [Ha _].
  destruct (is_digit_plain a Ha) as (_ & _ & Hm).
  destruct (Ascii.eqb_spec "m" a) as [<-|_]; [done|]. by rewrite Hread.
Qed.

Lemma crop_payload_eq (l t w h : Z) :
  crop_payload l t w h
  = int_str l +:+ String "-" (int_str t +:+ String "-" (int_str w +:+ String "-"
                                                         (int_str h))).
Proof. reflexivity. Qed.

Lemma int_str_no (c : ascii) (z : Z) :
  0 <= z -> c = "_"%char \/ c = "-"%char ->
  Str.all (fun a => negb (Ascii.eqb a c)) (int_str z) = true.
Proof.
  intros Hz Hc. destruct (int_str_digits z Hz) as (a & s & -> & Hdigits).
  eapply all_impl; [|exact Hdigits]. intros b Hb. cbn beta.
  destruct (is_digit_plain b Hb) as (H1 & H2 & _).
  apply negb_true_iff, Ascii.eqb_neq. by destruct Hc as [-> | ->].
Qed.

Lemma crop_payload_split (l t w h : Z) :
  0 <= l -> 0 <= t -> 0 <= w -> 0 <= h ->
  Str.split_char "-" (crop_payload l t w h) = [int_str l; int_str t; int_str w; int_str h].
Proof.
  intros Hl Ht Hw Hh. rewrite crop_payload_eq.
  rewrite !split_char_append.
  rewrite !split_char_whole by (apply int_str_no; [done | by right]). done.
Qed.

Lemma crop_payload_no_underscore (l t w h : Z) :
  0 <= l -> 0 <= t -> 0 <= w -> 0 <= h ->
  Str.all no_underscore (String "C" (crop_payload l t w h)) = true.
Proof.
  intros Hl Ht Hw Hh. rewrite crop_payload_eq. cbn [Str.all].
  pose proof (fun z Hz => int_str_no "_" z Hz (or_introl eq_refl)) as Hno.
  fold no_underscore in Hno.
  repeat (rewrite all_append; cbn [Str.all]). by rewrite !Hno by done.
Qed.

Lemma crop_payload_nonempty (l t w h : Z) :
  0 <= l -> Str.nonempty (crop_payload l t w h) = true.
Proof.
  intros Hl. unfold crop_payload.
  by destruct (int_str_digits l Hl) as (a & s & -> & _).
Qed.

(** The token of a crop box is decoded by the crop rule to the box. *)
Lemma decode_entry_crop (f : fields) (l t w h : Z) :
  0 <= l -> 0 <= t -> 0 <= w -> 0 <= h ->
  (forall z, In z [l; t; w; h] -> py_int (int_str z) = Some z) ->
  decode_entry f (String "C" (crop_payload l t w h))
  = Ok (set_crop (Some [l; t; w; h]) f).
Proof.
  intros Hl Ht Hw Hh Hread. unfold decode_entry. rewrite !startswith_char.
  cbn [Ascii.eqb Bool.eqb Str.drop]. unfold rule_crop.
  rewrite crop_payload_nonempty, crop_payload_split by done.
  cbn [map_result mbind result_bind].
  rewrite !str2int_int_str by (done || apply Hread; cbn; tauto).
  unfold mbind, result_bind. cbn [existsb].
  replace (l <? 0) with false by lia. replace (t <? 0) with false by lia.
  replace (w <? 0) with false by lia. replace (h <? 0) with false by lia.
  done.
Qed.

End CropToken.

Lemma for_each_app {A S : Type} (step : S -> A -> result S) (xs ys : list A) (acc : S) :
  for_each step (xs ++ ys) acc = for_each step xs acc ≫= for_each step ys.
Proof.
  revert acc. induction xs as [|x xs IH]; intros acc; [done|].
  cbn [app for_each]. unfold mbind, result_bind.
  destruct (step acc x) as [acc'|]; [apply IH | done].
Qed.

Lemma set_if_get_same {B : Type} (key : string) (x : option B) (v : value) (d : dict) :
  dict_get key d = Some v -> dict_get key (set_if key x (fun _ => v) d) = Some v.
Proof. intros Hget. destruct x; [apply dict_get_set_eq | done]. Qed.

Lemma set_if_get_some {B : Type} (key : string) (b : B) (to_value : B -> value)
    (d : dict) :
  dict_get key (set_if key (Some b) to_value d) = Some (to_value b).
Proof. apply dict_get_set_eq. Qed.

Lemma endswith_char_append (c : ascii) (x y : string) :
  y ≠ EmptyString -> Str.endswith_char c (x +:+ y) = Str.endswith_char c y.
Proof.
  intros Hy. induction x as [|a x IH]; [done|]. rewrite append_cons.
  cbn [Str.endswith_char]. destruct (x +:+ y) eqn:Hxy; [|exact IH].
  destruct x; [by destruct y | done].
Qed.

Lemma endswith_char_split (c : ascii) (s : string) :
  Str.endswith_char c s = true -> exists x, s = x +:+ String c EmptyString.
Proof.
  induction s as [|a s IH]; [done|]. cbn [Str.endswith_char].
  destruct s as [|b s].
  - intros ->%Ascii.eqb_eq. by exists EmptyString.
  - intros [x ->]%IH. by exists (String a x).
Qed.

(** Without a final underscore in [x], an underscore and a token
    without underscores bring no double underscore. *)
Lemma split_last_extend (x y : string) :
  Str.split_last "__" x = None ->
  Str.endswith_char "_" x = false ->
  Str.all no_underscore y = true ->
  Str.split_last "__" (x +:+ String "_" y) = None.
Proof.
  intros Hx Hend Hy. destruct (split_last_no_underscore y Hy) as [Hy1 Hy2].
  induction x as [|a x IH]; [exact Hy2|].
  rewrite append_cons. cbn [Str.split_last] in Hx |- *.
  destruct (Str.split_last "__" x) as [[? ?]|] eqn:Hx'; [done|].
  destruct x as [|b x].
  - cbn [Str.endswith_char] in Hend. apply Ascii.eqb_neq in Hend.
    change (EmptyString +:+ String "_" y) with (String "_" y). rewrite Hy2.
    cbn [String.prefix]. by destruct (ascii_dec "_" a).
  - rewrite IH; [|done|exact Hend].
    rewrite append_cons. cbn [String.prefix] in Hx |- *.
    destruct (ascii_dec "_" a); [|done]. destruct (ascii_dec "_" b); [|done].
    by destruct x.
Qed.

Section BuildResultCrop.
Context `{PyBuiltins}.

(** The tail of [metadata_get_path] on variables that differ in the
    crop alone: it fails on neither or on both. *)
Lemma build_result_crop (file_id file_id' : option string)
    (file_name file_name' file_ext file_relpath file_relpath' file_reldir : string)
    (f : fields) (c : list Z) (old : dict) :
  build_result file_id file_name file_ext file_relpath file_reldir f = Ok old ->
  exists new,
    build_result file_id' file_name' file_ext file_relpath' file_reldir
                 (set_crop (Some c) f) = Ok new /\
    dict_get "ImageTransform:Crop" new = Some (Lit (LList (map LInt c))) /\
    dict_get "ImageTransform:Enabled" new = Some (VBool true).
Proof.
  destruct f as [f0 f1 f2 f3 f4 f5 f6 f7 f8 f9 f10 f11 f12 f13 f14 f15 f16 f17 f18 f19
                 f20 f21 f22 f23 f24].
  unfold build_result, set_crop, mbind, result_bind.
  cbn [film_id film_frame strip_id strip_frame image_number crop rotate flip
       compression exposure_time aperture iso flash orientation lens_focal_length
       camera_maker camera_model datetime_original datetime_original_offset
       gnss_latitude gnss_longitude gnss_altitude image_description image_title
       user_comment].
  intros Hold.
  repeat match type of Hold with
         | context [match ?x with Ok _ => _ | Raise _ => _ end] =>
             destruct x; [|discriminate Hold]
         end.
  clear Hold. eexists. split; [reflexivity|]. split.
  - rewrite !set_if_get_ne by discriminate.
    apply (set_if_get_some "ImageTransform:Crop" c).
  - repeat lazymatch goal with
           | |- dict_get _ (set_if "ImageTransform:Enabled" (Some _) _ _) = _ => fail
           | |- _ => first [ rewrite set_if_get_ne by discriminate
                           | apply set_if_get_same ]
           end.
    apply (set_if_get_some "ImageTransform:Enabled" c (fun _ => VBool true)).
Qed.

End BuildResultCrop.

Section RenameThenDecode.
Context `{PyBuiltins}.

(** A name that ends in a double underscore and the token of a crop box
    decodes to that box. *)
Lemma metadata_get_path_crop_token (x : string) (l t w h : Z)
    (file_ext file_relpath file_reldir : string) :
  0 <= l -> 0 <= t -> 0 <= w -> 0 <= h ->
  (forall z, In z [l; t; w; h] -> py_int (int_str z) = Some z) ->
  exists new,
    metadata_get_path (x +:+ "__" +:+ String "C" (crop_payload l t w h))
                      file_ext file_relpath file_reldir = Ok new /\
    dict_get "ImageTransform:Crop" new
    = Some (Lit (LList [LInt l; LInt t; LInt w; LInt h])) /\
    dict_get "ImageTransform:Enabled" new = Some (VBool true).
Proof.
  intros Hl Ht Hw Hh Hread.
  set (token := String "C" (crop_payload l t w h)).
  assert (Htoken : Str.all no_underscore token = true)
    by by apply crop_payload_no_underscore.
  destruct (split_last_no_underscore token Htoken) as [_ Hlast].
  assert (Hsplit : Str.split_last "__" (x +:+ "__" +:+ token) = Some (x, token))
    by by apply split_last_append.
  unfold metadata_get_path, split_basename, Str.rsplit1.
  assert (Hcontains : Str.contains "__" (x +:+ "__" +:+ token) = true).
  { apply contains_split_last; [done|]. by rewrite Hsplit. }
  rewrite Hcontains, Hsplit. cbn [negb mbind result_bind].
  rewrite (split_char_whole "_" token Htoken). cbn [for_each].
  pose proof (decode_entry_crop fields_init l t w h Hl Ht Hw Hh Hread) as Hdecode.
  fold token in Hdecode. rewrite Hdecode. cbn [mbind result_bind].
  assert (Hinit : exists old,
             build_result None EmptyString file_ext EmptyString file_reldir fields_init
             = Ok old) by by eexists.
  destruct Hinit as [old Hold].
  apply (build_result_crop _ _ _ _ _ _ _ _ _ [l; t; w; h] _ Hold).
Qed.

(** X11. The name that [crop-finder.py] gives a file carries the crop
    box in the form that [exif-writer.py] decodes: when the old name
    decodes, so does the new one, and the decoded crop is the box of the
    row, with the transform enabled. [int] has to read back the four
    numbers as [str] printed them. The stem [new_stem] is the stem of
    the new name whenever the file has an extension. *)
Theorem rename_name_decodes (stem suffix : string) (left top width height : cell)
    (new_name : string) (l t w h : Z)
    (file_ext file_relpath file_relpath' file_reldir : string) (old : dict) :
  rename_name stem suffix left top width height = Some new_name ->
  cell_int left = Some l -> cell_int top = Some t ->
  cell_int width = Some w -> cell_int height = Some h ->
  (forall z, In z [l; t; w; h] -> py_int (int_str z) = Some z) ->
  metadata_get_path stem file_ext file_relpath file_reldir = Ok old ->
  exists new_stem new,
    new_name = new_stem +:+ suffix /\
    metadata_get_path new_stem file_ext file_relpath' file_reldir = Ok new /\
    dict_get "ImageTransform:Crop" new
    = Some (Lit (LList [LInt l; LInt t; LInt w; LInt h])) /\
    dict_get "ImageTransform:Enabled" new = Some (VBool true).
Proof.
  intros Hname Hcl Hct Hcw Hch Hread Hold. unfold rename_name in Hname.
  destruct (negb (forallb _ _)); [done|]. rewrite Hcl, Hct, Hcw, Hch in Hname.
  destruct (_ || _ || _ || _) eqn:Hbox; [done|].
  rewrite !orb_false_iff in Hbox. destruct Hbox as (((Hl & Ht) & Hw) & Hh).
  assert (0 <= l) by lia. assert (0 <= t) by lia.
  assert (0 <= w) by lia. assert (0 <= h) by lia.
  injection Hname as <-.
  set (token := String "C" (crop_payload l t w h)).
  change (crop_suffix l t w h) with (String "_" token).
  destruct (Str.contains "__" stem) eqn:Hcontains; cbn [negb].
  - (* the name carries metadata already *)
    destruct (Str.endswith_char "_" stem) eqn:Hend.
    + apply endswith_char_split in Hend as [x ->].
      destruct (metadata_get_path_crop_token x l t w h file_ext file_relpath'
                  file_reldir) as (new & Hnew); [done..|].
      exists (x +:+ "__" +:+ token), new. by rewrite !append_assoc.
    + cut (exists new,
              metadata_get_path (stem +:+ String "_" token) file_ext file_relpath'
                                file_reldir = Ok new /\
              dict_get "ImageTransform:Crop" new
              = Some (Lit (LList [LInt l; LInt t; LInt w; LInt h])) /\
              dict_get "ImageTransform:Enabled" new = Some (VBool true)).
      { intros (new & Hnew). exists (stem +:+ String "_" token), new.
        by rewrite append_assoc. }
      revert Hold. unfold metadata_get_path, split_basename, Str.rsplit1.
      rewrite Hcontains. cbn [negb].
      destruct (Str.split_last "__" stem) as [[base meta]|] eqn:Hsplit; [|done].
      cbn [mbind result_bind].
      destruct (for_each decode_entry (Str.split_char "_" meta) fields_init)
        as [f|] eqn:Hloop; [|done].
      intros Hold.
      assert (Htoken : Str.all no_underscore token = true)
        by by apply crop_payload_no_underscore.
      pose proof (split_last_spec _ _ _ _ Hsplit) as Hstem.
      assert (Hnew : Str.split_last "__" (stem +:+ String "_" token)
                     = Some (base, meta +:+ String "_" token)).
      { rewrite Hstem, !append_assoc. apply split_last_append; [done|].
        change (Str.drop 1 ("__" +:+ meta +:+ String "_" token))
          with (String "_" meta +:+ String "_" token).
        apply split_last_extend; [| |done].
        - by apply (split_last_rest "__" stem base meta).
        - rewrite Hstem in Hend.
          change (base +:+ "__" +:+ meta)
            with (base +:+ String "_" EmptyString +:+ String "_" meta) in Hend.
          rewrite <- append_assoc in Hend.
          by rewrite endswith_char_append in Hend. }
      assert (Hhas : Str.contains "__" (stem +:+ String "_" token) = true).
      { apply contains_split_last; [done|]. by rewrite Hnew. }
      rewrite Hhas, Hnew. cbn [negb mbind result_bind].
      change (meta +:+ String "_" token) with (meta +:+ String "_"%char token).
      rewrite split_char_append, for_each_app, Hloop. cbn [mbind result_bind].
      rewrite (split_char_whole "_" token Htoken). cbn [for_each].
      pose proof (decode_entry_crop f l t w h ltac:(done) ltac:(done) ltac:(done)
                    ltac:(done) Hread) as Hdecode.
      fold token in Hdecode. rewrite Hdecode. cbn [mbind result_bind].
      apply (build_result_crop _ _ _ _ _ _ _ _ _ [l; t; w; h] _ Hold).
  - (* a plain name *)
    destruct (metadata_get_path_crop_token stem l t w h file_ext file_relpath'
                file_reldir) as (new & Hnew); [done..|].
    exists (stem +:+ "__" +:+ token), new. by rewrite !append_assoc.
Qed.

End RenameThenDecode.

(** The file [scan01.tif] with the box (10, 20, 100, 200). *)
Lemma rename_name_decodes_witness :
  exists new_stem new,
    "scan01__C10-20-100-200.tif" = new_stem +:+ ".tif" /\
    @metadata_get_path Sample.builtins new_stem "tif" "scan01__C10-20-100-200.tif" "."
    = Ok new /\
    dict_get "ImageTransform:Crop" new
    = Some (Lit (LList [LInt 10; LInt 20; LInt 100; LInt 200])) /\
    dict_get "ImageTransform:Enabled" new = Some (VBool true).
Proof.
  destruct (@metadata_get_path Sample.builtins "scan01" "tif" "scan01.tif" ".")
    as [old|] eqn:Hold; [|by vm_compute in Hold].
  apply (@rename_name_decodes Sample.builtins "scan01" ".tif"
           (CInt 10) (CInt 20) (CInt 100) (CInt 200) _ 10 20 100 200
           "tif" "scan01.tif" _ "." old); try reflexivity; [|exact Hold].
  intros z Hz. cbn [In] in Hz.
  destruct Hz as [<- | [<- | [<- | [<- | []]]]]; reflexivity.
Defined.

(** ** Which crop rows rename a file *)

Section RenameAccepts.
Context `{PyBuiltins}.

(** X12. A row of integers, as the search of the same run produces it,
    renames the file exactly when all four numbers are positive: a box
    that touches the left or the top edge (offset 0) is refused as
    incomplete. A row of non-empty texts, as read from a CSV file,
    renames the file exactly when the offsets are not negative and the
    sizes are positive. *)
Theorem rename_name_accepts (stem suffix : string) :
  (forall l t w h,
     is_Some (rename_name stem suffix (CInt l) (CInt t) (CInt w) (CInt h))
     <-> 0 < l /\ 0 < t /\ 0 < w /\ 0 < h) /\
  (forall sl st sw sh l t w h,
     Str.nonempty sl = true -> Str.nonempty st = true ->
     Str.nonempty sw = true -> Str.nonempty sh = true ->
     py_int sl = Some l -> py_int st = Some t ->
     py_int sw = Some w -> py_int sh = Some h ->
     is_Some (rename_name stem suffix (CStr sl) (CStr st) (CStr sw) (CStr sh))
     <-> 0 <= l /\ 0 <= t /\ 0 < w /\ 0 < h).
Proof.
  split.
  - intros l t w h. unfold rename_name. cbn [forallb cell_truthy cell_int].
    destruct (l =? 0) eqn:El, (t =? 0) eqn:Et, (w =? 0) eqn:Ew, (h =? 0) eqn:Eh;
      cbn [negb andb];
      try (split; [by intros [? ?] | lia]).
    destruct (_ || _ || _ || _) eqn:Hbox.
    + rewrite !orb_true_iff in Hbox. split; [by intros [? ?] | lia].
    + rewrite !orb_false_iff in Hbox. split; [lia | by eexists].
  - intros sl st sw sh l t w h Hl Ht Hw Hh Hsl Hst Hsw Hsh.
    unfold rename_name. cbn [forallb cell_truthy cell_int].
    rewrite Hl, Ht, Hw, Hh, Hsl, Hst, Hsw, Hsh. cbn [negb andb].
    destruct (_ || _ || _ || _) eqn:Hbox.
    + rewrite !orb_true_iff in Hbox. split; [by intros [? ?] | lia].
    + rewrite !orb_false_iff in Hbox. split; [lia | by eexists].
Qed.

End RenameAccepts.

(** The box (0, 20, 100, 200) renames the file when it is read from a
    CSV file and not when it comes from the search. *)
Lemma rename_name_accepts_witness :
  ~ is_Some (@rename_name Sample.builtins "scan01" ".tif"
               (CInt 0) (CInt 20) (CInt 100) (CInt 200)) /\
  is_Some (@rename_name Sample.builtins "scan01" ".tif"
             (CStr "0") (CStr "20") (CStr "100") (CStr "200")).
Proof.
  destruct (@rename_name_accepts Sample.builtins "scan01" ".tif") as [Hint Htext].
  split.
  - intros Hsome. apply Hint in Hsome. lia.
  - apply (Htext "0" "20" "100" "200" 0 20 100 200); try reflexivity. lia.
Defined.

(** ** Removing the crop box from a file name *)

Lemma drop_digits_boundary (t u : string) :
  drop_digits (t +:+ String "_" u) = drop_digits t +:+ String "_" u.
Proof.
  induction t as [|a t IH]; [done|]. rewrite append_cons. cbn [drop_digits].
  destruct (is_digit a); [exact IH | done].
Qed.

Lemma match_digits_boundary (t u : string) :
  match_digits (t +:+ String "_" u) = (fun r => r +:+ String "_" u) <$> match_digits t.
Proof.
  destruct t as [|a t]; [done|]. rewrite append_cons. cbn [match_digits].
  destruct (is_digit a); [|done]. cbn. by rewrite drop_digits_boundary.
Qed.

Lemma match_char_boundary (c : ascii) (t u : string) :
  c ≠ "_"%char \/ t ≠ EmptyString ->
  match_char c (t +:+ String "_" u) = (fun r => r +:+ String "_" u) <$> match_char c t.
Proof.
  intros Hc. destruct t as [|a t].
  - destruct Hc as [Hc|]; [|done].
    change (EmptyString +:+ String "_" u) with (String "_" u). cbn [match_char].
    by destruct (Ascii.eqb_spec "_" c) as [<-|].
  - rewrite append_cons. cbn [match_char]. by destruct (Ascii.eqb a c).
Qed.

(** A match that starts before an underscore ends before it. *)
Lemma match_crop_pattern_boundary (t u : string) :
  t ≠ EmptyString ->
  match_crop_pattern (t +:+ String "_" u)
  = (fun r => r +:+ String "_" u) <$> match_crop_pattern t.
Proof.
  intros Ht. unfold match_crop_pattern.
  rewrite match_char_boundary by by right.
  destruct (match_char "_" t) as [t1|]; [|done]. cbn [fmap option_fmap option_map mbind option_bind].
  rewrite match_char_boundary by by left.
  destruct (match_char "C" t1) as [t2|]; [|done]. cbn [fmap option_fmap option_map mbind option_bind].
  rewrite match_digits_boundary.
  destruct (match_digits t2) as [t3|]; [|done]. cbn [fmap option_fmap option_map mbind option_bind].
  rewrite match_char_boundary by by left.
  destruct (match_char "-" t3) as [t4|]; [|done]. cbn [fmap option_fmap option_map mbind option_bind].
  rewrite match_digits_boundary.
  destruct (match_digits t4) as [t5|]; [|done]. cbn [fmap option_fmap option_map mbind option_bind].
  rewrite match_char_boundary by by left.
  destruct (match_char "-" t5) as [t6|]; [|done]. cbn [fmap option_fmap option_map mbind option_bind].
  rewrite match_digits_boundary.
  destruct (match_digits t6) as [t7|]; [|done]. cbn [fmap option_fmap option_map mbind option_bind].
  rewrite match_char_boundary by by left.
  destruct (match_char "-" t7) as [t8|]; [|done]. cbn [fmap option_fmap option_map mbind option_bind].
  apply match_digits_boundary.
Qed.

Lemma drop_digits_length (s : string) :
  (String.length (drop_digits s) <= String.length s)%nat.
Proof.
  induction s as [|a s IH]; [done|]. cbn [drop_digits].
  destruct (is_digit a); cbn [String.length]; lia.
Qed.

Lemma match_digits_length (s r : string) :
  match_digits s = Some r -> (String.length r < String.length s)%nat.
Proof.
  destruct s as [|a s]; [done|]. cbn [match_digits].
  destruct (is_digit a); [|done]. intros [= <-].
  pose proof (drop_digits_length s). cbn [String.length]. lia.
Qed.

Lemma match_char_length (c : ascii) (s r : string) :
  match_char c s = Some r -> (String.length r < String.length s)%nat.
Proof.
  destruct s as [|a s]; [done|]. cbn [match_char].
  destruct (Ascii.eqb a c); [|done]. intros [= <-]. cbn [String.length]. lia.
Qed.

(** A match is not empty. *)
Lemma match_crop_pattern_length (s r : string) :
  match_crop_pattern s = Some r -> (String.length r < String.length s)%nat.
Proof.
  unfold match_crop_pattern. intros Hmatch.
  repeat match type of Hmatch with
         | (?m ≫= _) = Some _ =>
             let E := fresh "E" in
             destruct m eqn:E; [cbn [mbind option_bind] in Hmatch | done]
         end.
  repeat match goal with
         | E : match_char _ _ = Some _ |- _ => apply match_char_length in E
         | E : match_digits _ = Some _ |- _ => apply match_digits_length in E
         end.
  lia.
Qed.

Lemma pattern_sub_length (n : nat) (s : string) :
  (String.length (pattern_sub n s) <= String.length s)%nat.
Proof.
  revert s. induction n as [|n IH]; intros s; [done|]. cbn [pattern_sub].
  destruct (match_crop_pattern s) as [r|] eqn:Hmatch.
  - apply match_crop_pattern_length in Hmatch. specialize (IH r). lia.
  - destruct s as [|a s]; [done|]. cbn [String.length]. specialize (IH s). lia.
Qed.

(** A name that the substitution leaves alone has no match. *)
Lemma pattern_sub_fixed (n : nat) (s : string) (i : nat) :
  (String.length s <= n)%nat -> pattern_sub n s = s ->
  match_crop_pattern (Str.drop i s) = None.
Proof.
  revert s i. induction n as [|n IH]; intros s i Hn.
  - destruct s; [|cbn in Hn; lia]. by destruct i.
  - cbn [pattern_sub]. destruct (match_crop_pattern s) as [r|] eqn:Hmatch.
    + intros Hsame. apply match_crop_pattern_length in Hmatch.
      pose proof (pattern_sub_length n r). rewrite Hsame in *. lia.
    + destruct s as [|a s]; [by destruct i|]. intros [= Hsame].
      destruct i as [|i]; [exact Hmatch|]. cbn [Str.drop].
      apply IH; [cbn in Hn; lia | done].
Qed.

(** Without a match in [t], the substitution passes over [t]. *)
Lemma pattern_sub_boundary (n : nat) (t u : string) :
  (forall i, match_crop_pattern (Str.drop i t) = None) ->
  (String.length t <= n)%nat ->
  pattern_sub n (t +:+ String "_" u)
  = t +:+ pattern_sub (n - String.length t) (String "_" u).
Proof.
  revert n. induction t as [|a t IH]; intros n Hnone Hn.
  - cbn [String.length String.append]. by rewrite Nat.sub_0_r.
  - destruct n as [|n]; [cbn in Hn; lia|]. cbn [pattern_sub].
    rewrite match_crop_pattern_boundary by done.
    pose proof (Hnone 0%nat) as Hhead. cbn [Str.drop] in Hhead.
    rewrite Hhead. cbn [fmap option_fmap option_map].
    rewrite !append_cons. cbn [String.length Nat.sub]. f_equal.
    apply IH; [|cbn in Hn; lia]. intros i. apply (Hnone (S i)).
Qed.

Lemma drop_digits_run (d rest : string) :
  Str.all is_digit d = true -> match_digits rest = None ->
  drop_digits (d +:+ rest) = rest.
Proof.
  intros Hd Hrest. induction d as [|a d IH].
  - destruct rest as [|b rest]; [done|].
    change (EmptyString +:+ String b rest) with (String b rest).
    cbn [match_digits drop_digits] in Hrest |- *.
    by destruct (is_digit b).
  - cbn [Str.all] in Hd. apply andb_true_iff in Hd as [Ha Hd].
    rewrite append_cons. cbn [drop_digits]. rewrite Ha. by apply IH.
Qed.

Lemma match_digits_int_str (z : Z) (rest : string) :
  0 <= z -> match_digits rest = None ->
  match_digits (int_str z +:+ rest) = Some rest.
Proof.
  intros Hz Hrest. destruct (int_str_digits z Hz) as (a & s & -> & Hdigits).
  cbn [Str.all] in Hdigits. apply andb_true_iff in Hdigits as [Ha Hs].
  rewrite append_cons. cbn [match_digits]. rewrite Ha. f_equal.
  by apply drop_digits_run.
Qed.

(** The suffix that [rename_files_from_data] writes is a match of the
    pattern of [unname_files]. *)
Lemma match_crop_pattern_suffix (l t w h : Z) :
  0 <= l -> 0 <= t -> 0 <= w -> 0 <= h ->
  match_crop_pattern (String "_" (String "C" (crop_payload l t w h)))
  = Some EmptyString.
Proof.
  intros Hl Ht Hw Hh. unfold match_crop_pattern.
  cbn [match_char Ascii.eqb Bool.eqb mbind option_bind].
  rewrite crop_payload_eq.
  rewrite match_digits_int_str by done.
  cbn [match_char Ascii.eqb Bool.eqb mbind option_bind].
  rewrite match_digits_int_str by done.
  cbn [match_char Ascii.eqb Bool.eqb mbind option_bind].
  rewrite match_digits_int_str by done.
  cbn [match_char Ascii.eqb Bool.eqb mbind option_bind].
  rewrite <- (append_nil_r (int_str h)). by apply match_digits_int_str.
Qed.

Section UnnameAfterRename.
Context `{PyBuiltins}.

(** X13. [unname_files] undoes [rename_files_from_data]: for a file
    whose name carries no crop box (one that [unname_files] leaves
    alone) and, when it carries metadata already, does not end in an
    underscore, the stem of the renamed file goes back to the
    original stem. *)
Theorem unname_after_rename (stem suffix : string) (left top width height : cell)
    (new_name : string) :
  rename_name stem suffix left top width height = Some new_name ->
  unname_stem stem = None ->
  (Str.contains "__" stem = true -> Str.endswith_char "_" stem = false) ->
  exists new_stem,
    new_name = new_stem +:+ suffix /\ unname_stem new_stem = Some stem.
Proof.
  intros Hname Hplain Hend. unfold rename_name in Hname.
  destruct (negb (forallb _ _)); [done|].
  destruct (cell_int left) as [l|]; [|done].
  destruct (cell_int top) as [t|]; [|done].
  destruct (cell_int width) as [w|]; [|done].
  destruct (cell_int height) as [h|]; [|done].
  destruct (_ || _ || _ || _) eqn:Hbox; [done|].
  rewrite !orb_false_iff in Hbox. destruct Hbox as (((Hl & Ht) & Hw) & Hh).
  injection Hname as <-.
  set (token := String "C" (crop_payload l t w h)).
  change (crop_suffix l t w h) with (String "_" token).
  assert (Hmatch : match_crop_pattern (String "_" token) = Some EmptyString)
    by (apply match_crop_pattern_suffix; lia).
  assert (Hnone : forall i, match_crop_pattern (Str.drop i stem) = None).
  { intros i. unfold unname_stem in Hplain.
    destruct (String.eqb_spec (pattern_sub (String.length stem) stem) stem)
      as [Hsame|]; [|done].
    by apply (pattern_sub_fixed (String.length stem)). }
  destruct (Str.contains "__" stem) eqn:Hcontains; cbn [negb].
  - exists (stem +:+ String "_" token). split; [by rewrite append_assoc|].
    unfold unname_stem.
    rewrite pattern_sub_boundary by (done || rewrite length_append; lia).
    rewrite length_append. cbn [String.length].
    replace (String.length stem + S (String.length token) - String.length stem)%nat
      with (S (String.length token)) by lia.
    cbn [pattern_sub]. rewrite Hmatch.
    assert (Hempty : pattern_sub (String.length token) EmptyString = EmptyString)
      by by destruct (String.length token).
    rewrite Hempty, append_nil_r, (Hend eq_refl).
    destruct (String.eqb_spec stem (stem +:+ String "_" token)) as [Hsame|]; [|done].
    apply (f_equal String.length) in Hsame. rewrite length_append in Hsame.
    cbn [String.length] in Hsame. lia.
  - exists (stem +:+ "__" +:+ token). split; [by rewrite !append_assoc|].
    unfold unname_stem.
    change (stem +:+ "__" +:+ token) with (stem +:+ String "_" (String "_" token)).
    rewrite pattern_sub_boundary by (done || rewrite length_append; lia).
    rewrite length_append. cbn [String.length].
    replace (String.length stem + S (S (String.length token)) - String.length stem)%nat
      with (S (S (String.length token))) by lia.
    cbn [pattern_sub].
    assert (Hfirst : match_crop_pattern (String "_" (String "_" token)) = None) by done.
    rewrite Hfirst, Hmatch.
    assert (Hempty : pattern_sub (String.length token) EmptyString = EmptyString)
      by by destruct (String.length token).
    rewrite Hempty.
    assert (Hlast : Str.endswith_char "_" (stem +:+ "_") = true).
    { by rewrite endswith_char_append. }
    assert (Hdrop : Str.drop_last (stem +:+ "_") = stem).
    { clear. induction stem as [|a s IH]; [done|]. rewrite append_cons.
      cbn [Str.drop_last]. rewrite IH. by destruct s. }
    rewrite Hlast, Hdrop.
    destruct (String.eqb_spec (stem +:+ "_") (stem +:+ String "_" (String "_" token)))
      as [Hsame|]; [|done].
    apply (f_equal String.length) in Hsame. rewrite !length_append in Hsame.
    cbn [String.length] in Hsame. lia.
Qed.

End UnnameAfterRename.

(** The file [scan01.tif] renamed with the box (10, 20, 100, 200) and
    named back. *)
Lemma unname_after_rename_witness :
  exists new_stem,
    "scan01__C10-20-100-200.tif" = new_stem +:+ ".tif" /\
    unname_stem new_stem = Some "scan01".
Proof.
  apply (@unname_after_rename Sample.builtins "scan01" ".tif"
           (CInt 10) (CInt 20) (CInt 100) (CInt 200)); reflexivity.
Defined.

(** ** The box of the crop mask *)

Lemma foldr_min_le (a : Z) (l : list Z) (x : Z) :
  x = a \/ x ∈ l -> foldr Z.min a l <= x.
Proof.
  induction l as [|b l IH]; cbn [foldr].
  - intros [Hx | Hx%elem_of_nil]; [lia | done].
  - intros [Hx | [Hx | Hx]%elem_of_cons].
    + specialize (IH (or_introl Hx)). lia.
    + lia.
    + specialize (IH (or_intror Hx)). lia.
Qed.

Lemma foldr_max_ge (a : Z) (l : list Z) (x : Z) :
  x = a \/ x ∈ l -> x <= foldr Z.max a l.
Proof.
  induction l as [|b l IH]; cbn [foldr].
  - intros [Hx | Hx%elem_of_nil]; [lia | done].
  - intros [Hx | [Hx | Hx]%elem_of_cons].
    + specialize (IH (or_introl Hx)). lia.
    + lia.
    + specialize (IH (or_intror Hx)). lia.
Qed.

Lemma minimum_le (l : list Z) (x : Z) : x ∈ l -> minimum l <= x.
Proof.
  destruct l as [|a l]; [by intros ?%elem_of_nil|]. cbn [minimum].
  intros Hx%elem_of_cons. by apply foldr_min_le.
Qed.

Lemma maximum_ge (l : list Z) (x : Z) : x ∈ l -> x <= maximum l.
Proof.
  destruct l as [|a l]; [by intros ?%elem_of_nil|]. cbn [maximum].
  intros Hx%elem_of_cons. by apply foldr_max_ge.
Qed.

Lemma minimum_elem (l : list Z) : l ≠ [] -> minimum l ∈ l.
Proof.
  destruct l as [|a l]; [done|]. intros _. cbn [minimum].
  induction l as [|b l IH]; cbn [foldr]; [by left|].
  destruct (Z.min_spec b (foldr Z.min a l)) as [[_ ->] | [_ ->]].
  - right. by left.
  - apply elem_of_cons in IH as [-> | IH]; [by left | by do 2 right].
Qed.

Lemma maximum_elem (l : list Z) : l ≠ [] -> maximum l ∈ l.
Proof.
  destruct l as [|a l]; [done|]. intros _. cbn [maximum].
  induction l as [|b l IH]; cbn [foldr]; [by left|].
  destruct (Z.max_spec b (foldr Z.max a l)) as [[_ ->] | [_ ->]].
  - apply elem_of_cons in IH as [-> | IH]; [by left | by do 2 right].
  - right. by left.
Qed.

(** [np.where] lists the true entries of the mask. *)
Lemma elem_of_coordinates (mask : list (list bool)) (y x : Z) :
  (y, x) ∈ coordinates mask <->
  exists (i j : nat) (row : list bool),
    y = Z.of_nat i /\ x = Z.of_nat j /\ mask !! i = Some row /\ row !! j = Some true.
Proof.
  unfold coordinates, indexed. split.
  - intros ([y' row] & Hin & Hrow)%list_elem_of_bind.
    apply elem_of_lookup_imap in Hrow as (i & row' & [= -> ->] & Hi).
    apply list_elem_of_bind in Hin as ([x' b] & Hin & Hb).
    apply elem_of_lookup_imap in Hb as (j & b' & [= -> ->] & Hj).
    destruct b'; [|by apply elem_of_nil in Hin].
    apply list_elem_of_singleton in Hin as [= -> ->]. by exists i, j, row'.
  - intros (i & j & row & -> & -> & Hi & Hj).
    apply list_elem_of_bind. exists (Z.of_nat i, row). split.
    + apply list_elem_of_bind. exists (Z.of_nat j, true). split; [by left|].
      apply elem_of_lookup_imap. by exists j, true.
    + apply elem_of_lookup_imap. by exists i, row.
Qed.

Lemma existsb_coordinates (mask : list (list bool)) :
  existsb (existsb id) mask = true -> coordinates mask ≠ [].
Proof.
  intros (row & Hrow & (b & Hb & Hid)%existsb_exists)%existsb_exists.
  unfold id in Hid. subst b.
  apply list_elem_of_In, list_elem_of_lookup in Hrow as [i Hi].
  apply list_elem_of_In, list_elem_of_lookup in Hb as [j Hj].
  assert (Hin : (Z.of_nat i, Z.of_nat j) ∈ coordinates mask).
  { apply elem_of_coordinates. by exists i, j, row. }
  intros Hnil. rewrite Hnil in Hin. by apply elem_of_nil in Hin.
Qed.

(** With as many samples as the colour has components, [np.all] of the
    comparison is equality with the colour. *)
Lemma all_equal_eq (cells crop_color : list Z) :
  length cells = length crop_color ->
  all_equal cells crop_color = true <-> cells = crop_color.
Proof.
  assert (Hcombine : forall cells crop_color : list Z,
             length cells = length crop_color ->
             forallb (fun xc => fst xc =? snd xc) (combine cells crop_color) = true
             <-> cells = crop_color).
  { clear. induction cells as [|x cells IH]; intros [|c crop_color]; try done.
    intros [= Hlength]. cbn [combine forallb fst snd].
    rewrite andb_true_iff, Z.eqb_eq, (IH _ Hlength).
    split; [by intros [-> ->] | by intros [= -> ->]]. }
  intros Hlength. unfold all_equal.
  destruct cells as [|x [|x' cells]]; destruct crop_color as [|c [|c' crop_color]];
    try done; try (by apply Hcombine).
  cbn [forallb]. rewrite andb_true_r, Z.eqb_eq. split; [by intros -> | by intros [= ->]].
Qed.

Lemma map_result_in_range (np_scalar : int_dtype -> Z -> result Z) (dtype : int_dtype)
    (crop_color : list Z) :
  (forall c, iinfo_min dtype <= c <= iinfo_max dtype -> np_scalar dtype c = Ok c) ->
  Forall (fun c => iinfo_min dtype <= c <= iinfo_max dtype) crop_color ->
  map_result (np_scalar dtype) crop_color = Ok crop_color.
Proof.
  intros Hscalar. induction 1 as [|c crop_color Hc _ IH]; [done|].
  cbn [map_result]. by rewrite (Hscalar c Hc), IH.
Qed.

Section CropBoxFacts.

Variable np_scalar : int_dtype -> Z -> result Z.

(** What NumPy 1 and NumPy 2 agree on: an integer in the range of the
    type is converted to itself. *)
Hypothesis np_scalar_in_range :
  forall dtype c, iinfo_min dtype <= c <= iinfo_max dtype -> np_scalar dtype c = Ok c.

Variables (dtype : int_dtype) (a : ndarray (list Z)) (crop_color : list Z).

Hypothesis crop_color_in_range :
  Forall (fun c => iinfo_min dtype <= c <= iinfo_max dtype) crop_color.

Hypothesis pixels_fit : pixels_of_size (Z.of_nat (length crop_color)) a.

Lemma pixel_at_coordinates (y x : Z) :
  pixel_at a y x = Some crop_color <-> (y, x) ∈ coordinates (color_mask a crop_color).
Proof.
  rewrite elem_of_coordinates. unfold pixel_at, color_mask. split.
  - destruct ((0 <=? y) && (0 <=? x)) eqn:Hyx; [|done].
    apply andb_true_iff in Hyx as [Hy%Z.leb_le Hx%Z.leb_le].
    destruct (rows a !! Z.to_nat y) as [row|] eqn:Hrow; [|done].
    cbn [mbind option_bind]. intros Hpixel.
    exists (Z.to_nat y), (Z.to_nat x),
           (map (fun pixel => all_equal pixel crop_color) row).
    split; [lia|]. split; [lia|]. split.
    + by rewrite list_lookup_fmap, Hrow.
    + rewrite list_lookup_fmap, Hpixel. cbn. f_equal. by apply all_equal_eq.
  - intros (i & j & row' & -> & -> & Hi & Hj). rewrite !Nat2Z.id.
    replace ((0 <=? Z.of_nat i) && (0 <=? Z.of_nat j)) with true
      by (symmetry; apply andb_true_iff; split; apply Z.leb_le; lia).
    rewrite list_lookup_fmap in Hi.
    destruct (rows a !! i) as [row|] eqn:Hrow; [|done]. injection Hi as <-.
    cbn [mbind option_bind]. rewrite list_lookup_fmap in Hj.
    destruct (row !! j) as [pixel|] eqn:Hpixel; [|done]. injection Hj as Hequal.
    f_equal. apply all_equal_eq; [|done].
    pose proof (Forall_lookup_1 _ _ _ _ pixels_fit Hrow) as Hsizes.
    pose proof (Forall_lookup_1 _ _ _ _ Hsizes Hpixel) as Hsize.
    cbn beta in Hsize. lia.
Qed.

Lemma find_crop_box_unfold (shape2 : Z) :
  shape2 = Z.of_nat (length crop_color) ->
  find_crop_box np_scalar (Color dtype a shape2) crop_color
  = if negb (existsb (existsb id) (color_mask a crop_color)) then Ok None
    else Ok (Some (minimum (map snd (coordinates (color_mask a crop_color))),
                   minimum (map fst (coordinates (color_mask a crop_color))),
                   maximum (map snd (coordinates (color_mask a crop_color)))
                   - minimum (map snd (coordinates (color_mask a crop_color))) + 1,
                   maximum (map fst (coordinates (color_mask a crop_color)))
                   - minimum (map fst (coordinates (color_mask a crop_color))) + 1)).
Proof.
  intros ->. unfold find_crop_box. cbn [array_dtype].
  rewrite (map_result_in_range _ _ _ (np_scalar_in_range dtype) crop_color_in_range).
  cbn [mbind result_bind]. unfold broadcasts, color_mask. by rewrite Z.eqb_refl.
Qed.

Lemma existsb_mask_coordinates :
  existsb (existsb id) (color_mask a crop_color) = false ->
  coordinates (color_mask a crop_color) = [].
Proof.
  intros Hnone.
  destruct (coordinates (color_mask a crop_color)) as [|[y x] rest] eqn:Hcoordinates;
    [done|].
  assert (Hin : (y, x) ∈ coordinates (color_mask a crop_color))
    by (rewrite Hcoordinates; by left).
  apply elem_of_coordinates in Hin as (i & j & row & -> & -> & Hi & Hj).
  assert (Hany : existsb (existsb id) (color_mask a crop_color) = true); [|congruence].
  apply existsb_exists. exists row. split.
  - by eapply list_elem_of_In, list_elem_of_lookup_2.
  - apply existsb_exists. exists true. split; [|done].
    by eapply list_elem_of_In, list_elem_of_lookup_2.
Qed.

(** X14. The crop box of an image of three axes and a crop colour with
    one component per sample, each within the range of the sample type,
    as [process_directory] checks before the call. [find_crop_box] does
    not raise. It returns [None] exactly when no pixel equals the crop
    colour; otherwise it returns the bounding box of the pixels that
    equal it: every such pixel lies inside the box, and each of the
    four edges of the box holds one. *)
Theorem find_crop_box_color :
  (find_crop_box np_scalar (Color dtype a (Z.of_nat (length crop_color))) crop_color
   = Ok None <->
   forall y x, pixel_at a y x ≠ Some crop_color) /\
  ((exists y x, pixel_at a y x = Some crop_color) ->
   exists l t w h,
     find_crop_box np_scalar (Color dtype a (Z.of_nat (length crop_color))) crop_color
     = Ok (Some (l, t, w, h)) /\
     (forall y x, pixel_at a y x = Some crop_color ->
                  l <= x < l + w /\ t <= y < t + h) /\
     (exists y, pixel_at a y l = Some crop_color) /\
     (exists y, pixel_at a y (l + w - 1) = Some crop_color) /\
     (exists x, pixel_at a t x = Some crop_color) /\
     (exists x, pixel_at a (t + h - 1) x = Some crop_color)).
Proof.
  rewrite (find_crop_box_unfold _ eq_refl).
  destruct (existsb (existsb id) (color_mask a crop_color)) eqn:Hany; cbn [negb].
  - apply existsb_coordinates in Hany. split.
    + split; [done|]. intros Hnone.
      destruct (coordinates (color_mask a crop_color)) as [|[y x] rest]
        eqn:Hcoordinates; [done|].
      destruct (Hnone y x). apply pixel_at_coordinates. rewrite Hcoordinates. by left.
    + intros _. eexists _, _, _, _. split; [reflexivity|].
      assert (Hys : forall y, y ∈ map fst (coordinates (color_mask a crop_color)) ->
                              exists x, pixel_at a y x = Some crop_color).
      { intros y ([y' x] & -> & Hyx)%list_elem_of_fmap. exists x.
        by apply pixel_at_coordinates. }
      assert (Hxs : forall x, x ∈ map snd (coordinates (color_mask a crop_color)) ->
                              exists y, pixel_at a y x = Some crop_color).
      { intros x ([y x'] & -> & Hyx)%list_elem_of_fmap. exists y.
        by apply pixel_at_coordinates. }
      assert (Hys_ne : map fst (coordinates (color_mask a crop_color)) ≠ [])
        by by destruct (coordinates (color_mask a crop_color)).
      assert (Hxs_ne : map snd (coordinates (color_mask a crop_color)) ≠ [])
        by by destruct (coordinates (color_mask a crop_color)).
      split; [|split; [|split; [|split]]].
      * intros y x Hyx%pixel_at_coordinates.
        assert (Hy : y ∈ map fst (coordinates (color_mask a crop_color)))
          by (apply list_elem_of_fmap; by exists (y, x)).
        assert (Hx : x ∈ map snd (coordinates (color_mask a crop_color)))
          by (apply list_elem_of_fmap; by exists (y, x)).
        pose proof (minimum_le _ _ Hy). pose proof (maximum_ge _ _ Hy).
        pose proof (minimum_le _ _ Hx). pose proof (maximum_ge _ _ Hx). lia.
      * by apply Hxs, minimum_elem.
      * replace (_ + _ - 1)
          with (maximum (map snd (coordinates (color_mask a crop_color)))) by lia.
        by apply Hxs, maximum_elem.
      * by apply Hys, minimum_elem.
      * replace (_ + _ - 1)
          with (maximum (map fst (coordinates (color_mask a crop_color)))) by lia.
        by apply Hys, maximum_elem.
  - apply existsb_mask_coordinates in Hany. split.
    + split; [|done]. intros _ y x Hyx%pixel_at_coordinates.
      rewrite Hany in Hyx. by apply elem_of_nil in Hyx.
    + intros (y & x & Hyx%pixel_at_coordinates).
      rewrite Hany in Hyx. by apply elem_of_nil in Hyx.
Qed.

End CropBoxFacts.

(** In the 2x3 image of 8-bit samples the black pixels span columns 1
    to 2 of both rows: the box is (1, 0, 2, 2). *)
Lemma find_crop_box_color_witness :
  find_crop_box numpy2_scalar (Color uint8 masked_2x3 3) [0; 0; 0]
  = Ok (Some (1, 0, 2, 2)) /\
  (forall y x, pixel_at masked_2x3 y x = Some [0; 0; 0] -> 1 <= x < 3 /\ 0 <= y < 2).
Proof.
  assert (Hscalar : forall dtype c,
             iinfo_min dtype <= c <= iinfo_max dtype -> numpy2_scalar dtype c = Ok c).
  { intros dtype c Hc. unfold numpy2_scalar.
    replace ((iinfo_min dtype <=? c) && (c <=? iinfo_max dtype)) with true; [done|].
    symmetry. apply andb_true_iff. split; apply Z.leb_le; lia. }
  assert (Hrange : Forall (fun c => iinfo_min uint8 <= c <= iinfo_max uint8) [0; 0; 0])
    by (repeat constructor; cbn; lia).
  assert (Hfit : pixels_of_size (Z.of_nat (length [0; 0; 0])) masked_2x3)
    by (repeat constructor).
  destruct (find_crop_box_color numpy2_scalar Hscalar uint8 masked_2x3 [0; 0; 0]
              Hrange Hfit) as [_ Hbox].
  destruct Hbox as (l & t & w & h & Hfind & Hinside & _).
  - exists 0, 1. reflexivity.
  - vm_compute in Hfind. injection Hfind as <- <- <- <-. split; [reflexivity|].
    exact Hinside.
Defined.

Section GrayNeverRenamed.
Context `{PyBuiltins}.

(** X15. An image of two axes never gets a crop box: its mask has one
    axis, so [find_crop_box] returns [None] or fails to unpack what
    [np.where] returns, and the row that [process_directory] records is
    (-1, -1, -1, -1) with the status [error] or [!found], which
    [rename_files_from_data] refuses. *)
Theorem crop_data_row_gray (np_scalar : int_dtype -> Z -> result Z) (dtype : int_dtype)
    (a : ndarray Z) (crop_color : list Z) (check_multiple : Z) (stem suffix : string) :
  exists status,
    crop_data_row np_scalar (Gray dtype a) crop_color check_multiple
    = (-1, -1, -1, -1, status) /\
    (status = "error" \/ status = "!found") /\
    rename_name stem suffix (CInt (-1)) (CInt (-1)) (CInt (-1)) (CInt (-1)) = None.
Proof.
  unfold crop_data_row, find_crop_box.
  destruct (negb (length crop_color =? 1)%nat); [by exists "error"; auto|].
  destruct (negb (forallb _ crop_color)); [by exists "error"; auto|].
  destruct (map_result _ crop_color); cbn [mbind result_bind];
    [|by exists "error"; auto].
  destruct (negb (broadcasts _ _)); [by exists "error"; auto|].
  destruct (negb (existsb id _)); [by exists "!found"; auto | by exists "error"; auto].
Qed.

End GrayNeverRenamed.

(** ** Sanitized path variables *)

Lemma sanitize_char_safe (a : ascii) : is_unsafe_path_char (sanitize_char a) = false.
Proof. unfold sanitize_char. by destruct (is_unsafe_path_char a) eqn:Ha. Qed.

Lemma sanitize_text_safe (s : string) : path_safe_text (sanitize_text s) = true.
Proof.
  unfold sanitize_text, path_safe_text.
  induction (Str.strip s) as [|a t IH]; [done|]. cbn [Str.map_chars Str.all].
  by rewrite sanitize_char_safe, IH.
Qed.

Lemma sanitize_items_safe (items : list literal) :
  forallb (fun x => match x with LStr s => path_safe_text s | _ => true end)
          (map (fun x => match x with LStr s => LStr (sanitize_text s) | _ => x end)
               items) = true.
Proof.
  induction items as [|x items IH]; [done|]. cbn [map forallb]. rewrite IH.
  destruct x; try done. by rewrite sanitize_text_safe.
Qed.

(** X16. [path_sanitize_variable] never truncates: its result does not
    depend on [max_length]. Under a key that starts with [Extra:File]
    the value comes back as it is; under any other key a string, and
    every string item of a list or a tuple, comes back without control
    characters and without the nine characters of the pattern. *)
Theorem path_sanitize_variable_safe (key : string) (v : value) (max_length : option Z) :
  path_sanitize_variable key v max_length = path_sanitize_variable key v None /\
  (Str.startswith key "Extra:File" = true ->
   path_sanitize_variable key v max_length = v) /\
  (Str.startswith key "Extra:File" = false ->
   path_safe (path_sanitize_variable key v max_length) = true).
Proof.
  unfold path_sanitize_variable. split; [done|].
  destruct (Str.startswith key "Extra:File"); split; try done. intros _.
  destruct v as [[| | | | s | items | items]|m]; cbn [path_safe]; try done.
  - apply sanitize_text_safe.
  - apply sanitize_items_safe.
  - apply sanitize_items_safe.
  - apply sanitize_text_safe.
Qed.

(** A title with a slash and a colon, under a limit of three characters. *)
Lemma path_sanitize_variable_safe_witness :
  path_sanitize_variable "ImageTitle" (VStr " a/b:c ") (Some 3) = VStr "a_b_c" /\
  path_safe (path_sanitize_variable "ImageTitle" (VStr " a/b:c ") (Some 3)) = true.
Proof.
  destruct (path_sanitize_variable_safe "ImageTitle" (VStr " a/b:c ") (Some 3))
    as (Hsame & _ & Hsafe).
  split; [by rewrite Hsame | by apply Hsafe].
Defined.

(** ** Sanitizing twice *)

Lemma lstrip_starts (s : string) : starts_plain (Str.lstrip s) = true.
Proof.
  induction s as [|a s IH]; [done|]. cbn [Str.lstrip].
  destruct (Str.isspace a) eqn:Ha; [exact IH|]. cbn [starts_plain]. by rewrite Ha.
Qed.

Lemma lstrip_plain (s : string) : starts_plain s = true -> Str.lstrip s = s.
Proof.
  destruct s as [|a s]; [done|]. cbn [starts_plain Str.lstrip].
  by intros ->%negb_true_iff.
Qed.

Lemma rstrip_ends (s : string) : ends_plain (Str.rstrip s) = true.
Proof.
  induction s as [|a s IH]; [done|]. cbn [Str.rstrip].
  destruct (Str.rstrip s) as [|b r]; [|exact IH].
  destruct (Str.isspace a) eqn:Ha; [done|]. cbn [ends_plain]. by rewrite Ha.
Qed.

Lemma rstrip_plain (s : string) : ends_plain s = true -> Str.rstrip s = s.
Proof.
  induction s as [|a s IH]; [done|]. cbn [ends_plain Str.rstrip].
  destruct s as [|b s].
  - cbn [Str.rstrip]. by intros ->%negb_true_iff.
  - intros Hs. by rewrite (IH Hs).
Qed.

Lemma rstrip_starts (s : string) :
  starts_plain s = true -> starts_plain (Str.rstrip s) = true.
Proof.
  destruct s as [|a s]; [done|]. cbn [starts_plain Str.rstrip].
  intros Ha. destruct (Str.rstrip s); [|done].
  apply negb_true_iff in Ha. rewrite Ha. cbn [starts_plain]. by rewrite Ha.
Qed.

Lemma sanitize_char_isspace (a : ascii) : Str.isspace (sanitize_char a) = true -> Str.isspace a = true.
Proof. unfold sanitize_char. by destruct (is_unsafe_path_char a). Qed.

Lemma sanitize_char_twice (a : ascii) : sanitize_char (sanitize_char a) = sanitize_char a.
Proof. unfold sanitize_char. by destruct (is_unsafe_path_char a) eqn:Ha; [|rewrite Ha]. Qed.

Lemma map_chars_starts (s : string) :
  starts_plain s = true -> starts_plain (Str.map_chars sanitize_char s) = true.
Proof.
  destruct s as [|a s]; [done|]. cbn [starts_plain Str.map_chars].
  intros Ha%negb_true_iff. apply negb_true_iff.
  destruct (Str.isspace (sanitize_char a)) eqn:Hc; [|done].
  apply sanitize_char_isspace in Hc. congruence.
Qed.

Lemma map_chars_ends (s : string) :
  ends_plain s = true -> ends_plain (Str.map_chars sanitize_char s) = true.
Proof.
  induction s as [|a s IH]; [done|]. cbn [ends_plain Str.map_chars].
  destruct s as [|b s].
  - cbn [Str.map_chars]. intros Ha%negb_true_iff. apply negb_true_iff.
    destruct (Str.isspace (sanitize_char a)) eqn:Hc; [|done].
    apply sanitize_char_isspace in Hc. congruence.
  - exact IH.
Qed.

Lemma map_chars_twice (s : string) :
  Str.map_chars sanitize_char (Str.map_chars sanitize_char s) = Str.map_chars sanitize_char s.
Proof.
  induction s as [|a s IH]; [done|]. cbn [Str.map_chars]. by rewrite sanitize_char_twice, IH.
Qed.

Lemma sanitize_text_twice (s : string) :
  sanitize_text (sanitize_text s) = sanitize_text s.
Proof.
  unfold sanitize_text. unfold Str.strip at 1.
  rewrite lstrip_plain.
  - rewrite rstrip_plain; [apply map_chars_twice|].
    apply map_chars_ends, rstrip_ends.
  - apply map_chars_starts, rstrip_starts, lstrip_starts.
Qed.

Lemma sanitize_items_twice (items : list literal) :
  map (fun x => match x with LStr s => LStr (sanitize_text s) | _ => x end)
      (map (fun x => match x with LStr s => LStr (sanitize_text s) | _ => x end) items)
  = map (fun x => match x with LStr s => LStr (sanitize_text s) | _ => x end) items.
Proof.
  induction items as [|x items IH]; [done|]. cbn [map]. rewrite IH.
  destruct x; try done. by rewrite sanitize_text_twice.
Qed.

(** X17. Sanitizing is idempotent: a value that went through
    [path_sanitize_variable] comes out of it unchanged. *)
Theorem path_sanitize_variable_twice (key : string) (v : value)
    (max_length max_length' : option Z) :
  path_sanitize_variable key (path_sanitize_variable key v max_length) max_length'
  = path_sanitize_variable key v max_length.
Proof.
  unfold path_sanitize_variable.
  destruct (Str.startswith key "Extra:File"); [done|].
  destruct v as [[| | | | s | items | items]|m]; try done; unfold VStr.
  - by rewrite sanitize_text_twice.
  - by rewrite sanitize_items_twice.
  - by rewrite sanitize_items_twice.
  - by rewrite sanitize_text_twice.
Qed.

(** ** The length limit of [path_build] *)

Lemma length_take (n : nat) (s : string) :
  String.length (Str.take n s) = Nat.min n (String.length s).
Proof.
  revert s. induction n as [|n IH]; intros [|a s]; cbn [Str.take String.length]; try done.
  by rewrite IH.
Qed.

Lemma length_slice_to (n : Z) (s : string) :
  Z.of_nat (String.length (Str.slice_to n s))
  = if 0 <=? n then Z.min n (Z.of_nat (String.length s))
    else Z.max 0 (Z.of_nat (String.length s) + n).
Proof. unfold Str.slice_to. destruct (0 <=? n) eqn:Hn; rewrite length_take; lia. Qed.

Section PathBuildFacts.
Variable format_map : string -> dict -> string -> result string.

(** X18. The length limit of [path_build]. Once the template is
    formatted, [path_build] returns: the extension after the last dot
    is kept whole, and the result is no longer than a limit [n] that
    leaves room for the dot and the extension; a shorter limit is
    exceeded. Without a dot the result is no longer than [n]. *)
Theorem path_build_total_length (path : string) (metadata : dict) (n : Z)
    (max_value_length : option Z) (missing_value formatted : string) :
  format_map (path_template path) (path_variables metadata max_value_length)
             missing_value = Ok formatted ->
  0 <= n ->
  exists result,
    Path.path_build format_map path metadata (Some n) max_value_length missing_value
    = Ok result /\
    match Str.split_last "." formatted with
    | Some (name, ext) =>
        (exists name', result = name' +:+ "." +:+ ext) /\
        (Z.of_nat (String.length ext) + 1 <= n ->
         Z.of_nat (String.length result) <= n) /\
        (n < Z.of_nat (String.length ext) + 1 ->
         n < Z.of_nat (String.length result))
    | None => Z.of_nat (String.length result) <= n
    end.
Proof.
  intros Hformat Hn. unfold Path.path_build. rewrite Hformat.
  cbn [mbind result_bind]. unfold trim_total_length, Str.rsplit1.
  pose proof (contains_split_last "." formatted ltac:(done)) as Hdot.
  destruct (Str.split_last "." formatted) as [[name ext]|] eqn:Hsplit.
  - assert (Hhas : Str.contains "." formatted = true) by by apply Hdot.
    rewrite Hhas. pose proof (split_last_spec _ _ _ _ Hsplit) as ->.
    rewrite !length_append. cbn [String.length].
    destruct (n <? _) eqn:Hlong; eexists; (split; [reflexivity|]).
    + split; [by eexists|]. rewrite !length_append. cbn [String.length].
      pose proof (length_slice_to (n - Z.of_nat (String.length ext) - 1) name) as Hlen.
      destruct (0 <=? n - Z.of_nat (String.length ext) - 1) eqn:Hroom; split; lia.
    + apply Z.ltb_ge in Hlong. split; [by eexists|].
      rewrite !length_append. cbn [String.length]. split; lia.
  - assert (Hhas : Str.contains "." formatted = false).
    { destruct (Str.contains "." formatted); [|done]. by destruct Hdot as [Hdot _], Hdot. }
    rewrite Hhas.
    destruct (n <? _) eqn:Hlong; eexists; (split; [reflexivity|]).
    + rewrite length_slice_to. replace (0 <=? n) with true by lia. lia.
    + apply Z.ltb_ge in Hlong. lia.
Qed.

End PathBuildFacts.

(** A name of fourteen characters under a limit of eight, with a
    template that [format_map] leaves as it is. *)
Lemma path_build_total_length_witness :
  exists result,
    Path.path_build (fun template _ _ => Ok template) "scan_0001.tiff" []
                    (Some 8) None "UNDEF" = Ok result /\
    Z.of_nat (String.length result) <= 8 /\
    exists name', result = name' +:+ "." +:+ "tiff".
Proof.
  destruct (path_build_total_length (fun template _ _ => Ok template)
              "scan_0001.tiff" [] 8 None "UNDEF" "scan_0001.tiff" eq_refl
              ltac:(lia)) as (result & Hrun & Hspec).
  change (Str.split_last "." "scan_0001.tiff") with (Some ("scan_0001", "tiff"))
    in Hspec.
  destruct Hspec as (Hext & Hfit & _).
  exists result. split; [exact Hrun|]. split; [apply Hfit; cbn; lia | exact Hext].
Defined.

(** ** Where the markers of a store come from *)

Lemma dict_set_all_literal (key : string) (l : literal) (d : dict) :
  all_literal d -> all_literal (dict_set key (Lit l) d).
Proof.
  unfold all_literal. induction 1 as [|[k v] d Hv Hd IH]; cbn [dict_set].
  - constructor; [by exists l | constructor].
  - destruct (String.eqb k key); constructor; try done. by exists l.
Qed.

Lemma set_if_all_literal {B : Type} (key : string) (x : option B)
    (to_value : B -> value) (d : dict) :
  (forall b, exists l, to_value b = Lit l) ->
  all_literal d -> all_literal (set_if key x to_value d).
Proof.
  intros Hliteral Hd. destruct x as [b|]; [|done]. cbn [set_if].
  destruct (Hliteral b) as [l ->]. by apply dict_set_all_literal.
Qed.

(** A merge step with a literal brings no marker. *)
Lemma update_item_marker (allow : bool) (base : dict) (key : string) (l : literal)
    (tag : string) (m : Marker) :
  dict_get tag (update_item allow base (key, Lit l)) = Some (Mark m) ->
  dict_get tag base = Some (Mark m).
Proof.
  destruct (String.eqb_spec tag key) as [->|Hne];
    [|by rewrite update_item_get_ne by done].
  unfold update_item.
  destruct (dict_get key base) as [value_base|] eqn:Hbase.
  - destruct (tag_iswritable key base); [|by rewrite Hbase].
    destruct (as_sequence (Lit l)) as [[? ?]|];
      [destruct (as_sequence value_base) as [[[] ?]|]|];
      by rewrite dict_get_set_eq.
  - destruct (allow || Str.startswith key "Extra:"); [|by rewrite Hbase].
    by rewrite dict_get_set_eq.
Qed.

Lemma metadata_update_marker (base update : dict) (allow : bool) (tag : string)
    (m : Marker) :
  all_literal update ->
  dict_get tag (metadata_update base update allow) = Some (Mark m) ->
  dict_get tag base = Some (Mark m).
Proof.
  unfold metadata_update. intros Hupdate. revert base.
  induction Hupdate as [|[key v] update [l Hv] _ IH]; intros base; cbn [fold_left];
    [done|].
  cbn [snd] in Hv. subst v. intros Hget%IH. by apply update_item_marker in Hget.
Qed.

Lemma metadata_update_locked (base update : dict) (allow : bool) (tag : string)
    (m : Marker) :
  m = SKIP \/ m = DELETE ->
  dict_get tag base = Some (Mark m) ->
  dict_get tag (metadata_update base update allow) = Some (Mark m).
Proof.
  intros Hm. unfold metadata_update. revert base.
  induction update as [|entry update IH]; intros base Hget; cbn [fold_left]; [done|].
  apply IH. by apply update_item_locked.
Qed.

Section LayeringFacts.
Context `{PyBuiltins}.

Lemma exposure_time_value_literal (x : literal) : exists l, exposure_time_value x = Lit l.
Proof.
  destruct x; cbn [exposure_time_value]; try by eexists.
  - destruct (0 <=? z); by eexists.
  - destruct (PrimFloat.leb 0 f); by eexists.
Qed.

Lemma marker_fold_set (key value : string) (markers : list Marker) (l : literal)
    (result : dict) :
  dict_set key (Lit l) (fold_left (marker_step key value) markers result)
  = dict_set key (Lit l) result.
Proof.
  revert result. induction markers as [|m markers IH]; intros result; cbn [fold_left];
    [done|].
  rewrite IH. unfold marker_step.
  destruct (String.eqb value (marker_value m)); [apply dict_set_set | done].
Qed.

Lemma metadata_file_line_all_literal (strip_whitespace : bool) (result : dict)
    (line : string) :
  all_literal result -> all_literal (metadata_file_line strip_whitespace result line).
Proof.
  intros Hresult. unfold metadata_file_line.
  destruct (0 <? String.length line)%nat; [|done].
  destruct (_ || _); [done|].
  destruct (Str.split_first "=" line) as [[key value]|]; [|done].
  destruct (literal_eval _); unfold VStr; rewrite marker_fold_set;
    by apply dict_set_all_literal.
Qed.

(** What a metadata file yields holds no marker at all. *)
Lemma metadata_get_file_all_literal (lines : option (list string))
    (strip_whitespace : bool) (update : dict) :
  metadata_get_file lines strip_whitespace = Some update -> all_literal update.
Proof.
  destruct lines as [lines|]; [|done]. intros [= <-].
  assert (Hloop : forall result,
             all_literal result ->
             all_literal (fold_left (metadata_file_line strip_whitespace) lines result)).
  { induction lines as [|line lines IH]; intros result Hresult; cbn [fold_left];
      [done|]. by apply IH, metadata_file_line_all_literal. }
  unfold enable_transform. specialize (Hloop [] ltac:(constructor)).
  destruct (negb _); [|done]. destruct (existsb _ _); [|done].
  by apply dict_set_all_literal.
Qed.

(** What a file name decodes to holds no marker either. *)
Lemma build_result_all_literal (file_id : option string)
    (file_name file_ext file_relpath file_reldir : string) (f : fields) (result : dict) :
  build_result file_id file_name file_ext file_relpath file_reldir f = Ok result ->
  all_literal result.
Proof.
  unfold build_result, mbind, result_bind.
  repeat match goal with
         | |- context [match ?x with Ok _ => _ | Raise _ => _ end] =>
             destruct x; [|discriminate]
         end.
  intros Heq%Ok_inj. subst result.
  repeat first
    [ apply set_if_all_literal;
      [first [ apply exposure_time_value_literal | intros b; by eexists ] |]
    | apply (dict_set_all_literal _ (LStr _)) ].
  constructor.
Qed.

End LayeringFacts.

Section LayeringMarkers.
Context `{PyBuiltins}.

Lemma update_from_metafile_markers (metadata_dir metadata_dir' : dict)
    (lines : option (list string)) (tag : string) (m : Marker) :
  update_from_metafile metadata_dir lines = Ok metadata_dir' ->
  (dict_get tag metadata_dir' = Some (Mark m) ->
   dict_get tag metadata_dir = Some (Mark m)) /\
  (m = SKIP \/ m = DELETE -> dict_get tag metadata_dir = Some (Mark m) ->
   dict_get tag metadata_dir' = Some (Mark m)).
Proof.
  unfold update_from_metafile.
  destruct (metadata_get_file lines true) as [update|] eqn:Hfile; [|done].
  intros [= <-]. split.
  - apply metadata_update_marker. by apply (metadata_get_file_all_literal lines true).
  - apply metadata_update_locked.
Qed.

Lemma directory_metadata_markers (metafiles : list (option (list string)))
    (base metadata_dir : dict) (tag : string) (m : Marker) :
  for_each update_from_metafile metafiles base = Ok metadata_dir ->
  (dict_get tag metadata_dir = Some (Mark m) -> dict_get tag base = Some (Mark m)) /\
  (m = SKIP \/ m = DELETE -> dict_get tag base = Some (Mark m) ->
   dict_get tag metadata_dir = Some (Mark m)).
Proof.
  revert base. induction metafiles as [|lines metafiles IH]; intros base.
  - by intros [= <-].
  - rewrite for_each_cons.
    destruct (update_from_metafile base lines) as [base'|] eqn:Hstep; [|done].
    intros Hrest. destruct (IH _ Hrest) as [Hfrom Hto].
    destruct (update_from_metafile_markers _ _ _ tag m Hstep) as [Hfrom' Hto'].
    split; [by intros ?%Hfrom%Hfrom' | by intros Hm ?%(Hto' Hm)%(Hto Hm)].
Qed.

(** X19. The markers of the store that [main] hands to [process_file]
    are those of the compiled-in defaults: whatever the metadata files
    along the directory chain and the name of the file, a tag holds a
    marker in that store only if the defaults hold the same marker
    there, and a tag that the defaults mark SKIP or DELETE holds that
    marker still. *)
Theorem file_metadata_markers (metafiles : list (option (list string)))
    (file_name file_ext file_relpath file_reldir : string) (metadata : dict)
    (tag : string) (m : Marker) :
  file_metadata metafiles file_name file_ext file_relpath file_reldir = Ok metadata ->
  (dict_get tag metadata = Some (Mark m) ->
   dict_get tag metadata_default = Some (Mark m)) /\
  (m = SKIP \/ m = DELETE -> dict_get tag metadata_default = Some (Mark m) ->
   dict_get tag metadata = Some (Mark m)).
Proof.
  unfold file_metadata, directory_metadata, mbind, result_bind.
  destruct (for_each update_from_metafile metafiles metadata_default)
    as [metadata_dir|] eqn:Hdir; [|done].
  destruct (metadata_get_path file_name file_ext file_relpath file_reldir)
    as [update|] eqn:Hpath; [|done].
  intros [= <-].
  destruct (directory_metadata_markers _ _ _ tag m Hdir) as [Hfrom Hto].
  assert (Hupdate : all_literal update).
  { revert Hpath. unfold metadata_get_path, mbind, result_bind.
    destruct (split_basename file_name) as [[file_id meta]|]; [|done].
    destruct (for_each decode_entry _ fields_init) as [f|]; [|done].
    apply build_result_all_literal. }
  split.
  - intros Hget. by apply Hfrom, (metadata_update_marker _ _ _ _ _ Hupdate Hget).
  - intros Hm Hget. by apply metadata_update_locked, Hto.
Qed.

End LayeringMarkers.

(** A metadata file that asks for a marker and a file name with a crop
    box: [OwnerName] keeps the SKIP marker of the defaults. *)
Lemma file_metadata_markers_witness :
  exists metadata,
    @file_metadata Sample.builtins
      [Some ["OwnerName=<AUTO>" +:+ newline; "Make=Nikon" +:+ newline]]
      "scan01__C10-20-100-200" "tif" "scan01__C10-20-100-200.tif" "." = Ok metadata /\
    dict_get "OwnerName" metadata = Some (Mark SKIP).
Proof.
  destruct (@file_metadata Sample.builtins
              [Some ["OwnerName=<AUTO>" +:+ newline; "Make=Nikon" +:+ newline]]
              "scan01__C10-20-100-200" "tif" "scan01__C10-20-100-200.tif" ".")
    as [metadata|] eqn:Hrun; [|by vm_compute in Hrun].
  exists metadata. split; [reflexivity|].
  destruct (@file_metadata_markers Sample.builtins _ _ _ _ _ _ "OwnerName" SKIP Hrun)
    as [_ Hkept].
  apply Hkept; [by left | reflexivity].
Defined.

(** ** A locked tag stays locked through [process_file] *)

Lemma dict_get_del_ne (key key' : string) (d : dict) :
  key ≠ key' -> dict_get key (dict_del key' d) = dict_get key d.
Proof.
  intros Hne. induction d as [|[k v] d IH]; [done|]. cbn [dict_del dict_get].
  destruct (String.eqb_spec k key') as [->|Hk].
  - by destruct (String.eqb_spec key' key) as [<-|].
  - cbn [dict_get]. by rewrite IH.
Qed.

Lemma set_if_writable_locked (tag k : string) (m : Marker) (v : value) (d : dict) :
  m = SKIP \/ m = DELETE ->
  dict_get tag d = Some (Mark m) ->
  dict_get tag (set_if_writable k v d) = Some (Mark m).
Proof.
  intros Hm Hget. unfold set_if_writable.
  destruct (tag_iswritable k d) eqn:Hw; [|done].
  rewrite dict_get_set_ne; [done|]. intros <-.
  unfold tag_iswritable in Hw. rewrite Hget in Hw. by destruct Hm as [-> | ->].
Qed.

(** A tag that holds a marker other than AUTO is not the tag of an
    auto-fill block that runs. *)
Lemma holds_auto_locked (tag k : string) (m : Marker) (d : dict) :
  m = SKIP \/ m = DELETE ->
  dict_get tag d = Some (Mark m) -> holds_auto k d = true -> tag ≠ k.
Proof.
  intros Hm Hget Hauto <-. unfold holds_auto, dict_get_default in Hauto.
  rewrite Hget in Hauto. by destruct Hm as [-> | ->].
Qed.

Section LockedThroughProcessFile.
Context `{PyBuiltins} {pixel : Type}.
Variables (tag : string) (m : Marker).
Hypothesis Hm : m = SKIP \/ m = DELETE.

Lemma metadata_update_imagehistory_locked (format : dict -> result string)
    (metadata metadata' : dict) :
  dict_get tag metadata = Some (Mark m) ->
  (if tag_iswritable "ImageHistory" metadata
   then metadata_update_imagehistory format metadata else Ok metadata) = Ok metadata' ->
  dict_get tag metadata' = Some (Mark m).
Proof.
  intros Hget. destruct (tag_iswritable "ImageHistory" metadata) eqn:Hw;
    [|by intros [= <-]].
  unfold metadata_update_imagehistory, mbind, result_bind.
  destruct (dict_get "ImageHistory" metadata) as [[[| | | |text| |]|]|]; try done.
  destruct (split_history text) as [before after].
  destruct (format _) as [body|]; [|done]. intros [= <-].
  rewrite dict_get_set_ne; [done|]. intros ->.
  unfold tag_iswritable in Hw. rewrite Hget in Hw. by destruct Hm as [-> | ->].
Qed.

Lemma metadata_update_conditional_locked (metadata metadata' : dict) :
  dict_get tag metadata = Some (Mark m) ->
  metadata_update_conditional metadata = Ok metadata' ->
  dict_get tag metadata' = Some (Mark m).
Proof.
  intros Hget. unfold metadata_update_conditional.
  destruct (_ && _); [|by intros [= <-]].
  unfold mbind, result_bind.
  match goal with
  | |- context [dict_get "EXIF:Flash" ?d] =>
      assert (Hfirst : dict_get tag d = Some (Mark m))
  end.
  { do 2 (apply set_if_writable_locked; [done|]).
    destruct (tag_iswritable "EXIF:Flash" metadata && _) eqn:Hflash; [|done].
    rewrite dict_get_set_ne; [done|]. intros ->.
    unfold tag_iswritable in Hflash. rewrite Hget in Hflash.
    by destruct Hm as [-> | ->]. }
  match goal with
  | |- match ?r with Ok _ => _ | Raise _ => _ end = _ -> _ => destruct r; [|done]
  end.
  intros Hrun%Ok_inj. subst metadata'.
  by do 7 (apply set_if_writable_locked; [done|]).
Qed.

(** Splits a block of [metadata_autofill] on its tests and outcomes; an
    assignment is to a tag that held AUTO, or to a coordinate that held
    a literal, and so not to [tag]. *)
Ltac keep_locked Hget :=
  repeat match goal with
         | Heq : context [match ?x with _ => _ end] |- _ =>
             destruct x eqn:?; try discriminate Heq
         | Heq : Ok _ = Ok _ |- _ => injection Heq as <-
         | |- context [match ?x with _ => _ end] => destruct x eqn:?
         end;
  try done;
  repeat (rewrite dict_get_set_ne;
          [|first [ by eapply holds_auto_locked
                  | intros ->; unfold dict_get_default in *; rewrite Hget in *;
                    discriminate ]]);
  try done.

Lemma autofill_document_name_locked (metadata metadata' : dict) :
  dict_get tag metadata = Some (Mark m) ->
  autofill_document_name metadata = Ok metadata' ->
  dict_get tag metadata' = Some (Mark m).
Proof.
  intros Hget Hrun. unfold autofill_document_name, mbind, result_bind in Hrun.
  keep_locked Hget.
Qed.

Lemma autofill_modify_date_locked (env : autofill_env) (metadata : dict) :
  dict_get tag metadata = Some (Mark m) ->
  dict_get tag (autofill_modify_date env metadata) = Some (Mark m).
Proof.
  intros Hget. unfold autofill_modify_date.
  destruct (holds_auto "ModifyDate" metadata) eqn:Hdate; [|done].
  assert (Hfirst : dict_get tag (dict_set "ModifyDate" (VStr (now_text env)) metadata)
                   = Some (Mark m)).
  { rewrite dict_get_set_ne; [done | by eapply holds_auto_locked]. }
  destruct (_ && _) eqn:Hoffset; [|done].
  apply andb_true_iff in Hoffset as [_ Hauto].
  rewrite dict_get_set_ne; [done|]. by eapply (holds_auto_locked tag "OffsetTime").
Qed.

Lemma autofill_shutter_speed_locked (metadata : dict) :
  dict_get tag metadata = Some (Mark m) ->
  dict_get tag (autofill_shutter_speed metadata) = Some (Mark m).
Proof. intros Hget. unfold autofill_shutter_speed. keep_locked Hget. Qed.

Lemma autofill_aperture_locked (metadata : dict) :
  dict_get tag metadata = Some (Mark m) ->
  dict_get tag (autofill_aperture metadata) = Some (Mark m).
Proof. intros Hget. unfold autofill_aperture. keep_locked Hget. Qed.

Lemma autofill_image_size_locked (env : autofill_env) (metadata metadata' : dict) :
  dict_get tag metadata = Some (Mark m) ->
  autofill_image_size env metadata = Ok metadata' ->
  dict_get tag metadata' = Some (Mark m).
Proof.
  intros Hget. unfold autofill_image_size, mbind, result_bind.
  assert (Hwidth : forall metadata1,
             (if holds_auto "ExifImageWidth" metadata
              then match tiff_imagewidth env with
                   | Ok width => Ok (dict_set "ExifImageWidth" (VInt width) metadata)
                   | Raise e => Raise e
                   end
              else Ok metadata) = Ok metadata1 ->
             dict_get tag metadata1 = Some (Mark m)).
  { intros metadata1 Hrun. keep_locked Hget. }
  destruct (if holds_auto "ExifImageWidth" metadata then _ else _) as [metadata1|];
    [|done].
  specialize (Hwidth metadata1 eq_refl). intros Hrun. keep_locked Hwidth.
Qed.

Lemma autofill_create_date_locked (env : autofill_env) (metadata metadata' : dict) :
  dict_get tag metadata = Some (Mark m) ->
  autofill_create_date env metadata = Ok metadata' ->
  dict_get tag metadata' = Some (Mark m).
Proof.
  intros Hget. unfold autofill_create_date, mbind, result_bind.
  destruct (holds_auto "CreateDate" metadata) eqn:Hdate; [|by intros [= <-]].
  destruct (exif_modify_date env) as [modify_date|]; [|done].
  assert (Hfirst : forall v, dict_get tag (dict_set "CreateDate" v metadata)
                             = Some (Mark m)).
  { intros v. rewrite dict_get_set_ne; [done | by eapply holds_auto_locked]. }
  destruct (holds_auto "OffsetTimeDigitized" _) eqn:Hoffset; [|by intros [= <-]].
  destruct (local_offset env _) as [[z|]|]; [| |done]; intros [= <-]; [|done].
  rewrite dict_get_set_ne; [done|].
  exact (holds_auto_locked tag "OffsetTimeDigitized" m _ Hm (Hfirst _) Hoffset).
Qed.

Lemma autofill_from_text_locked (ref_tag coordinate positive negative text error : string)
    (metadata metadata' : dict) :
  dict_get tag metadata = Some (Mark m) ->
  holds_auto ref_tag metadata = true ->
  dict_get_default coordinate VNone metadata = Lit (LStr text) ->
  autofill_from_text ref_tag coordinate positive negative text error metadata
  = Ok metadata' ->
  dict_get tag metadata' = Some (Mark m).
Proof.
  intros Hget Href Hcoordinate. unfold autofill_from_text, mbind, result_bind.
  destruct (_ || _); [|done]. destruct (str2float _); [|done]. intros [= <-].
  rewrite !dict_get_set_ne; [done | by eapply holds_auto_locked |].
  intros ->. unfold dict_get_default in Hcoordinate. by rewrite Hget in Hcoordinate.
Qed.

Lemma autofill_from_number_locked (ref_tag coordinate : string) (allow_int : bool)
    (positive negative v : value) (error : string) (metadata metadata' : dict) :
  dict_get tag metadata = Some (Mark m) ->
  holds_auto ref_tag metadata = true ->
  dict_get_default coordinate VNone metadata = v ->
  autofill_from_number ref_tag coordinate allow_int positive negative v error metadata
  = Ok metadata' ->
  dict_get tag metadata' = Some (Mark m).
Proof.
  intros Hget Href Hcoordinate. unfold autofill_from_number.
  destruct (split_sign allow_int v) as [[[] negated]|] eqn:Hsign; [| |done];
    intros [= <-].
  - rewrite dict_get_set_ne; [done | by eapply holds_auto_locked].
  - rewrite !dict_get_set_ne; [done | by eapply holds_auto_locked |].
    intros ->. unfold dict_get_default in Hcoordinate. rewrite Hget in Hcoordinate.
    by subst v.
Qed.

Lemma autofill_latitude_locked (metadata metadata' : dict) :
  dict_get tag metadata = Some (Mark m) ->
  autofill_latitude metadata = Ok metadata' ->
  dict_get tag metadata' = Some (Mark m).
Proof.
  intros Hget. unfold autofill_latitude.
  destruct (holds_auto "GPSLatitudeRef" metadata) eqn:Href; [|by intros [= <-]].
  destruct (dict_get_default "GPSLatitude" VNone metadata) as [[| | | |text| |]|]
    eqn:Hcoordinate;
    try (by apply (autofill_from_number_locked _ "GPSLatitude"));
    try (by apply (autofill_from_text_locked _ "GPSLatitude")).
  intros [= <-]. rewrite dict_get_set_ne; [done | by eapply holds_auto_locked].
Qed.

Lemma autofill_longitude_locked (metadata metadata' : dict) :
  dict_get tag metadata = Some (Mark m) ->
  autofill_longitude metadata = Ok metadata' ->
  dict_get tag metadata' = Some (Mark m).
Proof.
  intros Hget. unfold autofill_longitude.
  destruct (holds_auto "GPSLongitudeRef" metadata) eqn:Href; [|by intros [= <-]].
  destruct (dict_get_default "GPSLongitude" VNone metadata) as [[| | | |text| |]|]
    eqn:Hcoordinate;
    try (by apply (autofill_from_number_locked _ "GPSLongitude"));
    try (by apply (autofill_from_text_locked _ "GPSLongitude")).
  intros [= <-]. rewrite dict_get_set_ne; [done | by eapply holds_auto_locked].
Qed.

Lemma autofill_altitude_locked (metadata metadata' : dict) :
  dict_get tag metadata = Some (Mark m) ->
  autofill_altitude metadata = Ok metadata' ->
  dict_get tag metadata' = Some (Mark m).
Proof.
  intros Hget. unfold autofill_altitude.
  destruct (holds_auto "GPSAltitudeRef" metadata) eqn:Href; [|by intros [= <-]].
  destruct (dict_get_default "GPSAltitude" VNone metadata) as [l|marker]
    eqn:Hcoordinate;
    try (by apply (autofill_from_number_locked _ "GPSAltitude")).
  intros [= <-]. rewrite dict_get_set_ne; [done | by eapply holds_auto_locked].
Qed.

Lemma autofill_processing_method_locked (metadata : dict) :
  dict_get tag metadata = Some (Mark m) ->
  dict_get tag (autofill_processing_method metadata) = Some (Mark m).
Proof.
  intros Hget. unfold autofill_processing_method.
  destruct (holds_auto "GPSProcessingMethod" metadata) eqn:Hauto; [|done].
  repeat case_match; (rewrite dict_get_set_ne; [done | by eapply holds_auto_locked]).
Qed.

Lemma metadata_autofill_locked (env : autofill_env) (metadata metadata' : dict) :
  dict_get tag metadata = Some (Mark m) ->
  metadata_autofill env metadata = Ok metadata' ->
  dict_get tag metadata' = Some (Mark m).
Proof.
  intros Hget. unfold metadata_autofill, mbind, result_bind.
  destruct (autofill_document_name metadata) as [m1|] eqn:E1; [|done].
  destruct (autofill_image_size env _) as [m5|] eqn:E5; [|done].
  destruct (autofill_create_date env m5) as [m6|] eqn:E6; [|done].
  destruct (autofill_latitude m6) as [m7|] eqn:E7; [|done].
  destruct (autofill_longitude m7) as [m8|] eqn:E8; [|done].
  destruct (autofill_altitude m8) as [m9|] eqn:E9; [|done].
  intros [= <-].
  apply autofill_processing_method_locked.
  apply (autofill_altitude_locked m8); [|done].
  apply (autofill_longitude_locked m7); [|done].
  apply (autofill_latitude_locked m6); [|done].
  apply (autofill_create_date_locked env m5); [|done].
  apply (autofill_image_size_locked env _ _ ltac:(
    apply autofill_aperture_locked, autofill_shutter_speed_locked,
      autofill_modify_date_locked, (autofill_document_name_locked metadata);
    [exact Hget | exact E1]) E5).
Qed.

End LockedThroughProcessFile.

Section LockedToEmission.
Context `{PyBuiltins} {pixel : Type}.

Ltac step_pure :=
  rewrite run_bind, run_pure;
  match goal with
  | |- match ?r with Ok _ => _ | Raise _ => _ end = _ -> _ =>
      destruct r eqn:?; [|done]
  end.

Lemma stage_copied_store (w : world pixel) (input_path temp_path : string)
    (metadata metadata' : dict) (fs fs' : filesystem) :
  run (stage_copied w input_path temp_path metadata) fs = (fs', Ok metadata') ->
  metadata' = metadata.
Proof.
  unfold stage_copied. rewrite run_bind, run_file_op.
  destruct (copy_file w); [|done]. rewrite run_ret. by intros [= _ <-].
Qed.

Lemma stage_transformed_store (w : world pixel) (input_path temp_path : string)
    (metadata metadata' : dict) (fs fs' : filesystem) :
  run (stage_transformed w input_path temp_path metadata) fs = (fs', Ok metadata') ->
  metadata'
  = dict_del "ImageTransform:Compression"
      (dict_del "ImageTransform:Flip"
         (dict_del "ImageTransform:Rotate" (dict_del "ImageTransform:Crop" metadata))).
Proof.
  unfold stage_transformed, dict_pop.
  rewrite run_bind, run_pure. destruct (imread w) as [image|]; [|done].
  rewrite run_bind, run_pure.
  match goal with
  | |- match ?r with Ok _ => _ | Raise _ => _ end = _ -> _ =>
      destruct r as [image'|]; [|done]
  end.
  rewrite run_bind, run_file_op. destruct (imwrite w image'); [|done].
  rewrite run_bind, run_pure. destruct (restore_tags w); [|done].
  rewrite run_ret. by intros [= _ <-].
Qed.

(** X20. A tag that holds the SKIP or the DELETE marker when
    [process_file] starts, and that is no internal tag, holds that
    marker still in the store that the emission loop walks: neither the
    scanner's tags, the image history, the conditional device rules, the
    geometric transform nor auto-fill assign to it. The loop then emits
    nothing for a SKIP tag and the deletion [-<tag>=] for a DELETE tag. *)
Theorem process_file_keeps_locked (w : world pixel) (input_path output_path : string)
    (metadata metadata1 : dict) (out : string) (fs fs1 : filesystem)
    (tag : string) (m : Marker) :
  run (stage_file w input_path output_path metadata) fs = (fs1, Ok (metadata1, out)) ->
  m = SKIP \/ m = DELETE ->
  dict_get tag metadata = Some (Mark m) ->
  existsb (Str.startswith tag) stripped_prefixes = false ->
  dict_get tag (delete_keys_with_prefixes metadata1 stripped_prefixes) = Some (Mark m) /\
  exif_arg tag (Mark m)
  = Ok (match m with DELETE => Some ("-" +:+ tag +:+ "=") | _ => None end).
Proof.
  intros Hstage Hm Hget Hplain.
  split; [|by destruct Hm as [-> | ->]].
  rewrite delete_keys_with_prefixes_get, Hplain.
  assert (Hne : forall k, Str.startswith k "ImageTransform:" = true -> tag ≠ k).
  { intros k Hk <-. cbn [existsb stripped_prefixes] in Hplain. by rewrite Hk in Hplain. }
  revert Hstage. unfold stage_file, dict_pop.
  step_pure. step_pure.
  match goal with
  | |- context [metadata_update metadata ?scanner true] =>
      pose proof (metadata_update_locked metadata scanner true tag m Hm Hget)
        as Hscanner
  end.
  step_pure.
  match goal with
  | Hhistory : (if tag_iswritable "ImageHistory" _ then _ else _) = Ok ?d' |- _ =>
      pose proof (metadata_update_imagehistory_locked tag m Hm _ _ _ Hscanner Hhistory)
        as Hhist
  end.
  step_pure.
  match goal with
  | Hrules : metadata_update_conditional _ = Ok ?d' |- _ =>
      pose proof (metadata_update_conditional_locked tag m Hm _ _ Hhist Hrules)
        as Hconditional
  end.
  rewrite run_bind.
  match goal with
  | |- (let (_, _) := run ?s fs in _) = _ -> _ =>
      destruct (run s fs) as [fs' [metadata2|]] eqn:Hstaged; [|done]
  end.
  assert (Hstaged' : dict_get tag metadata2 = Some (Mark m)).
  { destruct (truthy _).
    - apply stage_transformed_store in Hstaged. subst metadata2.
      rewrite !dict_get_del_ne by by apply Hne. exact Hconditional.
    - apply stage_copied_store in Hstaged. subst metadata2.
      rewrite dict_get_del_ne by by apply Hne. exact Hconditional. }
  step_pure.
  match goal with
  | Hfill : metadata_autofill _ _ = Ok ?d' |- _ =>
      pose proof (metadata_autofill_locked tag m Hm _ _ _ Hstaged' Hfill) as Hfilled
  end.
  step_pure.
  rewrite run_bind, run_file_op. destruct (move_file w); [|done].
  rewrite run_ret. by intros [= _ <- _].
Qed.

End LockedToEmission.

(** In the sample world the owner's name, which the defaults mark SKIP,
    reaches the emission loop with that marker. *)
Lemma process_file_keeps_locked_witness :
  exists fs1 metadata1 out,
    run (@stage_file Sample.builtins Z sample_world "in/roll.tif" "roll_out.tif"
           metadata_default) ∅ = (fs1, Ok (metadata1, out)) /\
    dict_get "OwnerName" (delete_keys_with_prefixes metadata1 stripped_prefixes)
    = Some (Mark SKIP).
Proof.
  destruct (run (@stage_file Sample.builtins Z sample_world "in/roll.tif"
                   "roll_out.tif" metadata_default) ∅)
    as [fs1 [[metadata1 out]|e]] eqn:Hstage;
    [|apply (f_equal snd) in Hstage; by vm_compute in Hstage].
  exists fs1, metadata1, out. split; [reflexivity|].
  apply (@process_file_keeps_locked Sample.builtins Z sample_world "in/roll.tif"
           "roll_out.tif" metadata_default metadata1 out ∅ fs1 "OwnerName" SKIP
           Hstage); [by left | reflexivity | reflexivity].
Defined.

(** ** The crop box on its way into the store *)

Lemma dict_set_NoDup (key : string) (v : value) (d : dict) :
  NoDup (map fst d) -> NoDup (map fst (dict_set key v d)).
Proof.
  rewrite dict_set_keys. unfold dict_in. intros Hd.
  destruct (dict_get key d) eqn:Hget; [by rewrite app_nil_r|].
  apply NoDup_app. split; [done|]. split; [|apply NoDup_singleton].
  intros k Hk ->%list_elem_of_singleton.
  apply list_elem_of_fmap in Hk as ([k v'] & -> & Hin). cbn [fst] in Hget.
  clear Hd. induction d as [|[k0 v0] d IH]; [by apply elem_of_nil in Hin|].
  cbn [dict_get] in Hget. destruct (String.eqb_spec k0 k) as [->|Hne]; [done|].
  apply elem_of_cons in Hin as [[= <- <-] | Hin]; [done | by apply IH].
Qed.

Lemma set_if_NoDup {B : Type} (key : string) (x : option B) (to_value : B -> value)
    (d : dict) :
  NoDup (map fst d) -> NoDup (map fst (set_if key x to_value d)).
Proof. destruct x; [apply dict_set_NoDup | done]. Qed.

(** What [metadata_update] leaves under a tag that the increment, a
    dictionary, assigns. *)
Lemma metadata_update_get (base update : dict) (allow : bool) (key : string)
    (value_new : value) :
  NoDup (map fst update) ->
  dict_get key update = Some value_new ->
  dict_get key (metadata_update base update allow)
  = match update_value allow (dict_get key base) key value_new with
    | Some x => Some x
    | None => dict_get key base
    end.
Proof.
  unfold metadata_update. revert base.
  induction update as [|[k v] update IH]; intros base Hnodup; [done|].
  cbn [map fst] in Hnodup. apply NoDup_cons in Hnodup as [Hfresh Hnodup].
  cbn [dict_get fold_left]. destruct (String.eqb_spec k key) as [->|Hne].
  - intros [= ->].
    assert (Hrest : forall d, dict_get key (fold_left (update_item allow) update d)
                              = dict_get key d).
    { clear IH Hnodup. induction update as [|[k' v'] update IH]; intros d; [done|].
      cbn [fold_left]. rewrite IH.
      + apply update_item_get_ne. intros ->. apply Hfresh. by left.
      + intros Hin. apply Hfresh. by right. }
    rewrite Hrest, update_item_value.
    destruct (update_value allow (dict_get key base) key value_new);
      [apply dict_get_set_eq | done].
  - intros Hget. rewrite (IH _ Hnodup Hget).
    by rewrite update_item_get_ne by done.
Qed.

Section CropIntoStore.
Context `{PyBuiltins}.

Lemma build_result_NoDup (file_id : option string)
    (file_name file_ext file_relpath file_reldir : string) (f : fields) (result : dict) :
  build_result file_id file_name file_ext file_relpath file_reldir f = Ok result ->
  NoDup (map fst result).
Proof.
  unfold build_result, mbind, result_bind.
  repeat match goal with
         | |- context [match ?x with Ok _ => _ | Raise _ => _ end] =>
             destruct x; [|discriminate]
         end.
  intros Heq%Ok_inj. subst result.
  repeat first [ apply set_if_NoDup | apply dict_set_NoDup ].
  constructor.
Qed.

Lemma metadata_get_path_NoDup (file_name file_ext file_relpath file_reldir : string)
    (result : dict) :
  metadata_get_path file_name file_ext file_relpath file_reldir = Ok result ->
  NoDup (map fst result).
Proof.
  unfold metadata_get_path, mbind, result_bind.
  destruct (split_basename file_name) as [[file_id meta]|]; [|done].
  destruct (for_each decode_entry _ fields_init) as [f|]; [|done].
  apply build_result_NoDup.
Qed.

(** X21. The crop of the file name wins over the default: in a
    directory without metadata files, when the name of a file decodes
    to a crop box of four entries with the transform enabled, the store
    that [main] hands to [process_file] holds that box under
    [ImageTransform:Crop], none of the default box left in it, and has
    the transform enabled. *)
Theorem file_metadata_crop (file_name file_ext file_relpath file_reldir : string)
    (update : dict) (box : list literal) :
  metadata_get_path file_name file_ext file_relpath file_reldir = Ok update ->
  dict_get "ImageTransform:Crop" update = Some (Lit (LList box)) ->
  length box = 4%nat ->
  dict_get "ImageTransform:Enabled" update = Some (VBool true) ->
  exists metadata,
    file_metadata [] file_name file_ext file_relpath file_reldir = Ok metadata /\
    dict_get "ImageTransform:Crop" metadata = Some (Lit (LList box)) /\
    dict_get "ImageTransform:Enabled" metadata = Some (VBool true).
Proof.
  intros Hpath Hcrop Hbox Henabled.
  destruct box as [|l [|t [|w [|h [|]]]]]; try discriminate.
  eexists. unfold file_metadata, directory_metadata. cbn [for_each mbind result_bind].
  rewrite Hpath. split; [reflexivity|].
  pose proof (metadata_get_path_NoDup _ _ _ _ _ Hpath) as Hnodup.
  by rewrite (metadata_update_get _ _ _ _ _ Hnodup Hcrop),
             (metadata_update_get _ _ _ _ _ Hnodup Henabled).
Qed.

End CropIntoStore.

Lemma file_metadata_crop_witness :
  exists metadata,
    @file_metadata Sample.builtins [] "scan01__C10-20-100-200" "tif"
      "scan01__C10-20-100-200.tif" "." = Ok metadata /\
    dict_get "ImageTransform:Crop" metadata
    = Some (Lit (LList [LInt 10; LInt 20; LInt 100; LInt 200])) /\
    dict_get "ImageTransform:Enabled" metadata = Some (VBool true).
Proof.
  destruct (@metadata_get_path Sample.builtins "scan01__C10-20-100-200" "tif"
              "scan01__C10-20-100-200.tif" ".") as [update|] eqn:Hpath;
    [|by vm_compute in Hpath].
  apply (@file_metadata_crop Sample.builtins _ _ _ _ update
           [LInt 10; LInt 20; LInt 100; LInt 200] Hpath); [|reflexivity|];
    vm_compute in Hpath; injection Hpath as <-; reflexivity.
Defined.

(** ** The table of [scandata-lister.py] *)

Lemma existsb_eqb_elem_of (x : string) (l : list string) :
  existsb (String.eqb x) l = true <-> x ∈ l.
Proof.
  rewrite existsb_exists. split.
  - intros (y & Hin & ->%String.eqb_eq). by apply list_elem_of_In.
  - intros Hin. exists x. split; [by apply list_elem_of_In | apply String.eqb_refl].
Qed.

Lemma csv_add_key_elem_of (columns : list string) (key k : string) :
  k ∈ csv_add_key columns key <-> k ∈ columns \/ k = key.
Proof.
  unfold csv_add_key. destruct (existsb _ columns) eqn:Hin.
  - apply existsb_eqb_elem_of in Hin. split; [by left | by intros [?| ->]].
  - by rewrite elem_of_app, list_elem_of_singleton.
Qed.

Lemma csv_add_key_NoDup (columns : list string) (key : string) :
  NoDup columns -> NoDup (csv_add_key columns key).
Proof.
  intros Hnodup. unfold csv_add_key. destruct (existsb _ columns) eqn:Hin; [done|].
  apply NoDup_app. split; [done|]. split; [|apply NoDup_singleton].
  intros k Hk ->%list_elem_of_singleton.
  apply existsb_eqb_elem_of in Hk. congruence.
Qed.

Lemma csv_add_keys_elem_of (keys columns : list string) (k : string) :
  k ∈ fold_left csv_add_key keys columns <-> k ∈ columns \/ k ∈ keys.
Proof.
  revert columns. induction keys as [|key keys IH]; intros columns; cbn [fold_left].
  - rewrite elem_of_nil. tauto.
  - rewrite IH, csv_add_key_elem_of, elem_of_cons. tauto.
Qed.

Lemma csv_add_keys_NoDup (keys columns : list string) :
  NoDup columns -> NoDup (fold_left csv_add_key keys columns).
Proof.
  revert columns. induction keys as [|key keys IH]; intros columns Hnodup; [done|].
  cbn [fold_left]. by apply IH, csv_add_key_NoDup.
Qed.

Lemma csv_collect_from_elem_of (data : list dict) (columns : list string) (k : string) :
  k ∈ fold_left (fun columns item => fold_left csv_add_key (map fst item) columns)
        data columns
  <-> k ∈ columns \/ exists item, item ∈ data /\ k ∈ map fst item.
Proof.
  revert columns. induction data as [|item data IH]; intros columns; cbn [fold_left].
  - split; [by left|]. intros [?|(item & Hin & _)]; [done|]. by apply elem_of_nil in Hin.
  - rewrite IH, csv_add_keys_elem_of. split.
    + intros [[?|?]|(item' & Hin & Hk)]; [by left | right | right].
      * exists item. split; [by left | done].
      * exists item'. split; [by right | done].
    + intros [?|(item' & Hin & Hk)]; [by left; left|].
      apply elem_of_cons in Hin as [->|Hin]; [by left; right|].
      right. by exists item'.
Qed.

Lemma csv_collect_from_NoDup (data : list dict) (columns : list string) :
  NoDup columns ->
  NoDup (fold_left (fun columns item => fold_left csv_add_key (map fst item) columns)
           data columns).
Proof.
  revert columns. induction data as [|item data IH]; intros columns Hnodup; [done|].
  cbn [fold_left]. by apply IH, csv_add_keys_NoDup.
Qed.

Lemma list_index_lookup (x : string) (l : list string) (i : nat) :
  list_index x l = Some i -> l !! i = Some x.
Proof.
  revert i. induction l as [|y l IH]; intros i; [done|]. cbn [list_index].
  destruct (String.eqb_spec y x) as [->|Hne].
  - by intros [= <-].
  - destruct (list_index x l) as [j|]; [|done]. intros [= <-]. by apply IH.
Qed.

Lemma list_index_elem_of (x : string) (l : list string) :
  x ∈ l -> is_Some (list_index x l).
Proof.
  induction l as [|y l IH]; [by intros ?%elem_of_nil|]. cbn [list_index].
  destruct (String.eqb_spec y x) as [->|Hne]; [done|].
  intros [->|Hin]%elem_of_cons; [done|].
  destruct (IH Hin) as [j ->]. done.
Qed.

(** Moving [File] to the front permutes the columns. *)
Lemma csv_file_first_Permutation (columns : list string) :
  csv_file_first columns ≡ₚ columns.
Proof.
  unfold csv_file_first. destruct (existsb _ columns); [|done].
  destruct (list_index "File" columns) as [i|]; [|done].
  destruct (columns !! i) eqn:Hi; [|done].
  symmetry. by apply delete_Permutation.
Qed.

Lemma csv_file_first_head (columns : list string) :
  "File" ∈ columns -> head (csv_file_first columns) = Some "File".
Proof.
  intros Hin. unfold csv_file_first.
  destruct (existsb _ columns) eqn:Hex.
  - destruct (list_index_elem_of _ _ Hin) as [i Hi]. rewrite Hi.
    by rewrite (list_index_lookup _ _ _ Hi).
  - apply existsb_eqb_elem_of in Hin. congruence.
Qed.

Lemma dict_get_key_elem_of (key : string) (d : dict) :
  is_Some (dict_get key d) <-> key ∈ map fst d.
Proof.
  induction d as [|[k v] d IH]; cbn [dict_get map fst].
  - split; [by intros [? ?] | by intros ?%elem_of_nil].
  - destruct (String.eqb_spec k key) as [->|Hne].
    + split; [by left | done].
    + rewrite IH, elem_of_cons. split; [by right | by intros [->|?]].
Qed.

(** X22. The table that [write_csv] of [scandata-lister.py] writes
    loses nothing: the header names every key of every item and nothing
    else, each once, with [File] first when some item has it; every row
    is as long as the header, and a value of an item stands in its row
    under the column of its key. *)
Theorem write_csv_table (data : list dict) :
  let columns := csv_columns data in
  NoDup columns /\
  (forall key, key ∈ columns <-> exists item, item ∈ data /\ dict_in key item = true) /\
  ("File" ∈ columns -> head columns = Some "File") /\
  Forall (fun row => length row = length columns) (csv_rows data) /\
  (forall n item key v,
     data !! n = Some item -> dict_get key item = Some v ->
     exists row i,
       csv_rows data !! n = Some row /\ columns !! i = Some key /\ row !! i = Some v).
Proof.
  intros columns.
  assert (Hperm : columns ≡ₚ csv_collect data) by apply csv_file_first_Permutation.
  assert (Hcover : forall key,
             key ∈ columns <-> exists item, item ∈ data /\ dict_in key item = true).
  { intros key. rewrite Hperm. unfold csv_collect.
    rewrite csv_collect_from_elem_of, elem_of_nil.
    split.
    - intros [[]|(item & Hin & Hkey)]. exists item. split; [done|].
      apply dict_get_key_elem_of in Hkey as [v Hv]. unfold dict_in. by rewrite Hv.
    - intros (item & Hin & Hkey). right. exists item. split; [done|].
      apply dict_get_key_elem_of. unfold dict_in in Hkey.
      by destruct (dict_get key item). }
  split; [|split; [done|split; [|split]]].
  - rewrite Hperm. apply csv_collect_from_NoDup, NoDup_nil_2.
  - intros Hin. apply csv_file_first_head. by rewrite <- Hperm.
  - unfold csv_rows. apply Forall_fmap, Forall_forall. intros item _.
    unfold csv_row. cbn. by rewrite length_map.
  - intros n item key v Hn Hv.
    assert (Hkey : key ∈ columns).
    { apply Hcover. exists item. split; [by eapply list_elem_of_lookup_2|].
      unfold dict_in. by rewrite Hv. }
    apply list_elem_of_lookup in Hkey as [i Hi].
    exists (csv_row columns item), i. split; [|split; [done|]].
    + unfold csv_rows. fold columns. by rewrite list_lookup_fmap, Hn.
    + unfold csv_row.
      change (map ?f columns) with (f <$> columns).
      rewrite list_lookup_fmap, Hi. cbn. unfold dict_get_default. by rewrite Hv.
Qed.

(** ** The image number of the [N] token *)

Section ImageNumberFirst.
Context `{PyBuiltins}.

(** The result carries the decoded image number under ['ImageNumber']. *)
Lemma build_result_image_number (file_id : option string)
    (file_name file_ext file_relpath file_reldir : string) (f : fields) (n : Z)
    (result : dict) :
  image_number f = Some n ->
  build_result file_id file_name file_ext file_relpath file_reldir f = Ok result ->
  dict_get "ImageNumber" result = Some (VInt n).
Proof.
  intros Hnumber. unfold build_result, mbind, result_bind. rewrite Hnumber.
  repeat match goal with
         | |- context [match ?x with Ok _ => _ | Raise _ => _ end] =>
             destruct x; [|discriminate]
         end.
  intros Heq%Ok_inj. subst result.
  rewrite !set_if_get_ne by discriminate.
  apply (set_if_get_some "ImageNumber" n VInt).
Qed.

Lemma image_number_set (v : option Z) (f : fields) :
  image_number (set_image_number v f) = v.
Proof. by destruct f. Qed.

(** C8. A token whose first character is [N] is decoded by the rule
    that comes first in the scan, the image-number rule: its payload is
    parsed as an integer, which the loop keeps as the image number and
    the result carries under ['ImageNumber']; an empty payload or one
    that [str2int] rejects is a decode error, of the token and of a
    file name that ends in it. The image-description rule further down
    is reached by no token: no token changes the description variable,
    and no decoded file name carries an ['ImageDescription'] tag. *)
Theorem decode_entry_N_first :
  (forall f payload,
     decode_entry f (String "N" payload) =
       if Str.nonempty payload then
         match str2int payload with
         | Ok n => Ok (set_image_number (Some n) f)
         | Raise e => Raise e
         end
       else Raise (ValueError "Error! Image number value not specified.")) /\
  (forall f payload n,
     Str.nonempty payload = true -> str2int payload = Ok n ->
     exists f',
       decode_entry f (String "N" payload) = Ok f' /\
       image_number f' = Some n /\
       image_description f' = image_description f /\
       forall file_id file_name file_ext file_relpath file_reldir result,
         build_result file_id file_name file_ext file_relpath file_reldir f' = Ok result ->
         dict_get "ImageNumber" result = Some (VInt n)) /\
  (forall base payload file_ext file_relpath file_reldir,
     Str.all no_underscore payload = true ->
     match str2int payload with
     | Ok n =>
         if Str.nonempty payload then
           exists result,
             metadata_get_path (base +:+ "__" +:+ String "N" payload)
                               file_ext file_relpath file_reldir = Ok result /\
             dict_get "ImageNumber" result = Some (VInt n) /\
             dict_get "ImageDescription" result = None
         else
           metadata_get_path (base +:+ "__" +:+ String "N" payload)
                             file_ext file_relpath file_reldir
           = Raise (ValueError "Error! Image number value not specified.")
     | Raise e =>
         metadata_get_path (base +:+ "__" +:+ String "N" payload)
                           file_ext file_relpath file_reldir
         = Raise (if Str.nonempty payload then e
                  else ValueError "Error! Image number value not specified.")
     end) /\
  (forall f entry f',
     decode_entry f entry = Ok f' -> image_description f' = image_description f) /\
  (forall file_name file_ext file_relpath file_reldir result,
     metadata_get_path file_name file_ext file_relpath file_reldir = Ok result ->
     dict_get "ImageDescription" result = None).
Proof.
  assert (Hrule : forall f payload,
             decode_entry f (String "N" payload) =
               if Str.nonempty payload then
                 match str2int payload with
                 | Ok n => Ok (set_image_number (Some n) f)
                 | Raise e => Raise e
                 end
               else Raise (ValueError "Error! Image number value not specified.")).
  { intros f payload. rewrite decode_entry_N. unfold rule_image_number.
    destruct (Str.nonempty payload); [|done].
    unfold mbind, result_bind. by destruct (str2int payload). }
  assert (Hnone : forall file_name file_ext file_relpath file_reldir result,
             metadata_get_path file_name file_ext file_relpath file_reldir = Ok result ->
             dict_get "ImageDescription" result = None).
  { intros file_name file_ext file_relpath file_reldir result.
    unfold metadata_get_path, mbind, result_bind.
    destruct (split_basename file_name) as [[file_id metadata]|]; [|done].
    destruct (for_each decode_entry _ fields_init) as [f|] eqn:Hloop; [|done].
    apply build_result_description.
    by rewrite (decode_entries_keep_description _ _ _ Hloop). }
  split; [exact Hrule|]. split; [|split; [|split; [|exact Hnone]]].
  - intros f payload n Hpayload Hn. exists (set_image_number (Some n) f).
    rewrite Hrule, Hpayload, Hn. split; [done|].
    split; [apply image_number_set|]. split; [by destruct f|].
    intros file_id file_name file_ext file_relpath file_reldir result.
    apply build_result_image_number, image_number_set.
  - intros base payload file_ext file_relpath file_reldir Hpayload.
    set (token := String "N" payload).
    assert (Htoken : Str.all no_underscore token = true) by done.
    destruct (split_last_no_underscore token Htoken) as [_ Hlast].
    assert (Hsplit : Str.split_last "__" (base +:+ "__" +:+ token) = Some (base, token))
      by by apply split_last_append.
    assert (Hcontains : Str.contains "__" (base +:+ "__" +:+ token) = true).
    { apply contains_split_last; [done|]. by rewrite Hsplit. }
    assert (Hrun : metadata_get_path (base +:+ "__" +:+ token) file_ext file_relpath
                                     file_reldir
                   = f ← decode_entry fields_init token;
                     build_result (if Str.nonempty base then Some base else None)
                       (base +:+ "__" +:+ token) file_ext file_relpath file_reldir f).
    { unfold metadata_get_path, split_basename, Str.rsplit1.
      rewrite Hcontains, Hsplit. cbn [negb mbind result_bind].
      rewrite (split_char_whole "_" token Htoken). cbn [for_each].
      unfold mbind, result_bind. by destruct (decode_entry fields_init token). }
    rewrite Hrun. unfold token. rewrite Hrule.
    destruct (str2int payload) as [n|e] eqn:Hn, (Str.nonempty payload) eqn:Hne;
      cbn [mbind result_bind]; try done.
    assert (Hinit : exists result,
               build_result (if Str.nonempty base then Some base else None)
                 (base +:+ "__" +:+ token) file_ext file_relpath file_reldir
                 (set_image_number (Some n) fields_init) = Ok result) by by eexists.
    destruct Hinit as [result Hresult]. exists result. split; [done|]. split.
    + exact (build_result_image_number _ _ _ _ _ _ n _ (image_number_set _ _) Hresult).
    + apply (Hnone (base +:+ "__" +:+ token) file_ext file_relpath file_reldir).
      rewrite Hrun. unfold token. by rewrite Hrule, Hne, Hn.
  - intros f entry f'. apply decode_entry_keeps_description.
Qed.

End ImageNumberFirst.

(** The token [N5] is image number 5 and the file [roll__N5.tif] carries
    it under ['ImageNumber'], without an ['ImageDescription'] tag; the
    token [Nsunset], meant as a description, is a decode error, also of
    the file [roll__Nsunset.tif]. *)
Lemma decode_entry_N_first_witness :
  (exists f',
     @decode_entry Sample.builtins fields_init "N5" = Ok f' /\
     image_number f' = Some 5) /\
  @decode_entry Sample.builtins fields_init "Nsunset"
  = Raise (ValueError "Cannot convert 'sunset' to integer.") /\
  (exists result,
     @metadata_get_path Sample.builtins "roll__N5" "tif" "roll__N5.tif" "." = Ok result /\
     dict_get "ImageNumber" result = Some (VInt 5) /\
     dict_get "ImageDescription" result = None) /\
  @metadata_get_path Sample.builtins "roll__Nsunset" "tif" "roll__Nsunset.tif" "."
  = Raise (ValueError "Cannot convert 'sunset' to integer.").
Proof.
  destruct (@decode_entry_N_first Sample.builtins) as (Hrule & Hnumber & Hname & _ & _).
  split; [|split; [|split]].
  - destruct (Hnumber fields_init "5" 5 eq_refl eq_refl) as (f' & Hf' & Himage & _).
    by exists f'.
  - by rewrite Hrule.
  - exact (Hname "roll" "5" "tif" "roll__N5.tif" "." eq_refl).
  - exact (Hname "roll" "sunset" "tif" "roll__Nsunset.tif" "." eq_refl).
Defined.
